(** * Theatre seat booking: schema, triggers, policies and provisioning

    A shallow embedding of the database side of the theatre application
    (tables, uniqueness and foreign-key constraints, the three seat/booking
    triggers, the row-level-security predicates and
    [generate_seats_for_layout], all from the SQL migration) and of the
    account-provisioning edge function ([supabase/functions/login/index.ts]).

    Tables are lists of rows.  A statement either commits a new database or
    raises an error, in which case the transaction is rolled back and the
    database is the one before the statement. *)

From Stdlib Require Import List ZArith Lia Bool Arith String Ascii Permutation.
From Stdlib Require DecimalString DecimalZ.
Import ListNotations.

(** ** Identifiers, rows and tables *)

(** [UUID] values.  [gen_random_uuid()] is modelled by a supply kept in the
    database ([next_uuid]): it hands out a value never handed out before. *)
Definition UUID := nat.

(** [CREATE TYPE public.app_role AS ENUM ('admin', 'user')]. *)
Inductive app_role : Type := admin | user.

Definition app_role_eqb (a b : app_role) : bool :=
  match a, b with
  | admin, admin | user, user => true
  | _, _ => false
  end.

(** The rows of [auth.users] that the application reads: the identity, its
    e-mail and its password. *)
Module AuthUser.
Record t : Type := mk { id : UUID; email : string; password : string }.
End AuthUser.

Module AllowedUser.
Record t : Type := mk { id : UUID; email : string; uti : string }.
End AllowedUser.

Module SeatLayout.
Record t : Type := mk { id : UUID; total_rows : Z; total_columns : Z }.
End SeatLayout.

Module Seat.
Record t : Type :=
  mk { id : UUID; seat_layout_id : UUID; row_num : Z; col_num : Z;
       is_booked : bool }.
Definition set_is_booked (b : bool) (s : t) : t :=
  mk (id s) (seat_layout_id s) (row_num s) (col_num s) b.
End Seat.

Module UserRole.
Record t : Type := mk { id : UUID; user_id : UUID; role : app_role }.
End UserRole.

Module Booking.
Record t : Type := mk { id : UUID; user_id : UUID; seat_id : UUID }.
End Booking.

Record DB : Type := mkDB {
  auth_users : list AuthUser.t;
  allowed_users : list AllowedUser.t;
  seat_layout : list SeatLayout.t;
  seats : list Seat.t;
  user_roles : list UserRole.t;
  bookings : list Booking.t;
  next_uuid : UUID
}.

Definition empty_db : DB := mkDB [] [] [] [] [] [] 0.

Definition set_auth_users (l : list AuthUser.t) (db : DB) : DB :=
  mkDB l (allowed_users db) (seat_layout db) (seats db) (user_roles db)
       (bookings db) (next_uuid db).
Definition set_allowed_users (l : list AllowedUser.t) (db : DB) : DB :=
  mkDB (auth_users db) l (seat_layout db) (seats db) (user_roles db)
       (bookings db) (next_uuid db).
Definition set_seat_layout (l : list SeatLayout.t) (db : DB) : DB :=
  mkDB (auth_users db) (allowed_users db) l (seats db) (user_roles db)
       (bookings db) (next_uuid db).
Definition set_seats (l : list Seat.t) (db : DB) : DB :=
  mkDB (auth_users db) (allowed_users db) (seat_layout db) l (user_roles db)
       (bookings db) (next_uuid db).
Definition set_user_roles (l : list UserRole.t) (db : DB) : DB :=
  mkDB (auth_users db) (allowed_users db) (seat_layout db) (seats db) l
       (bookings db) (next_uuid db).
Definition set_bookings (l : list Booking.t) (db : DB) : DB :=
  mkDB (auth_users db) (allowed_users db) (seat_layout db) (seats db)
       (user_roles db) l (next_uuid db).

(** Consume one value of the identifier supply. *)
Definition bump_uuid (db : DB) : DB :=
  mkDB (auth_users db) (allowed_users db) (seat_layout db) (seats db)
       (user_roles db) (bookings db) (S (next_uuid db)).

(** ** Errors and results *)

Inductive pg_error : Type :=
| RlsViolation                         (* new row violates row-level security *)
| UniqueViolation (constraint : string)
| ForeignKeyViolation (constraint : string)
| InvalidEnumValue
| NullLoopBound                        (* bound of a FOR loop is NULL *)
| NumericValueOutOfRange.              (* integer out of range *)

Inductive result (A : Type) : Type :=
| Ok (a : A)
| Err (e : pg_error).
Arguments Ok {A} a.
Arguments Err {A} e.

(** The database after a statement was attempted on [db]: the new one when
    it committed, [db] itself when it was rolled back. *)
Definition commit (db : DB) (r : result DB) : DB :=
  match r with
  | Ok db' => db'
  | Err _ => db
  end.

Definition is_ok {A : Type} (r : result A) : bool :=
  match r with
  | Ok _ => true
  | Err _ => false
  end.

(** ** Callers *)

(** Who issues a statement: the [anon] role, an [authenticated] identity
    ([auth.uid()] is that identity), or the service role, which bypasses
    row-level security. *)
Inductive caller : Type :=
| anon
| authenticated (uid : UUID)
| service_role.

(** ** SQL helper functions *)

(** [has_role(_user_id, _role)]. *)
Definition has_role (db : DB) (_user_id : UUID) (_role : app_role) : bool :=
  existsb (fun r => (UserRole.user_id r =? _user_id)
                    && app_role_eqb (UserRole.role r) _role)
          (user_roles db).

(** [user_has_booking(_user_id)]. *)
Definition user_has_booking (db : DB) (_user_id : UUID) : bool :=
  existsb (fun b => Booking.user_id b =? _user_id) (bookings db).

(** [seat_is_available(_seat_id)]: [SELECT NOT is_booked FROM seats WHERE
    id = _seat_id].  The result is NULL ([None]) when no seat has that id. *)
Definition seat_is_available (db : DB) (_seat_id : UUID) : option bool :=
  match find (fun s => Seat.id s =? _seat_id) (seats db) with
  | Some s => Some (negb (Seat.is_booked s))
  | None => None
  end.

(** A policy expression admits a row only when it evaluates to TRUE; NULL
    rejects like FALSE. *)
Definition sql_is_true (v : option bool) : bool :=
  match v with
  | Some true => true
  | _ => false
  end.

(** ** Triggers

    The body of a trigger function is the list of [UPDATE public.seats SET
    is_booked = b WHERE id = i] statements it executes. *)

Inductive seat_write : Type :=
| UpdateSeatsSetIsBooked (b : bool) (where_id : UUID).

Definition where_id_of (w : seat_write) : UUID :=
  match w with UpdateSeatsSetIsBooked _ i => i end.

Definition run_seat_write (w : seat_write) (ss : list Seat.t) : list Seat.t :=
  match w with
  | UpdateSeatsSetIsBooked b i =>
      map (fun s => if Seat.id s =? i then Seat.set_is_booked b s else s) ss
  end.

Definition run_seat_writes (ws : list seat_write) (ss : list Seat.t)
  : list Seat.t :=
  fold_left (fun acc w => run_seat_write w acc) ws ss.

(** [mark_seat_booked], AFTER INSERT ON bookings. *)
Definition mark_seat_booked (NEW : Booking.t) : list seat_write :=
  [UpdateSeatsSetIsBooked true (Booking.seat_id NEW)].

(** [free_seat_on_delete], AFTER DELETE ON bookings. *)
Definition free_seat_on_delete (OLD : Booking.t) : list seat_write :=
  [UpdateSeatsSetIsBooked false (Booking.seat_id OLD)].

(** [handle_booking_update], AFTER UPDATE ON bookings. *)
Definition handle_booking_update (OLD NEW : Booking.t) : list seat_write :=
  if negb (Booking.seat_id OLD =? Booking.seat_id NEW) then
    [UpdateSeatsSetIsBooked false (Booking.seat_id OLD);
     UpdateSeatsSetIsBooked true (Booking.seat_id NEW)]
  else [].

Definition fire (ws : list seat_write) (db : DB) : DB :=
  set_seats (run_seat_writes ws (seats db)) db.

(** ** Row-level security on [bookings] *)

(** "Users can book if no existing booking and seat available". *)
Definition users_can_book (db : DB) (uid : UUID) (NEW : Booking.t) : bool :=
  (Booking.user_id NEW =? uid)
  && negb (user_has_booking db uid)
  && sql_is_true (seat_is_available db (Booking.seat_id NEW)).

(** "Admins can manage all bookings" / "Admins can delete bookings". *)
Definition admins_can_manage (db : DB) (uid : UUID) : bool :=
  has_role db uid admin.

(** WITH CHECK for an INSERT: the permissive policies are OR-ed. *)
Definition bookings_insert_check (c : caller) (db : DB) (NEW : Booking.t)
  : bool :=
  match c with
  | anon => false
  | authenticated uid => users_can_book db uid NEW || admins_can_manage db uid
  | service_role => true
  end.

(** USING / WITH CHECK for UPDATE and DELETE: admin only. *)
Definition bookings_write_using (c : caller) (db : DB) : bool :=
  match c with
  | anon => false
  | authenticated uid => admins_can_manage db uid
  | service_role => true
  end.

(** Admin-only tables ([seats], [seat_layout], [allowed_users],
    [user_roles]) use the same predicate for every write. *)
Definition admin_write_using (c : caller) (db : DB) : bool :=
  match c with
  | anon => false
  | authenticated uid => has_role db uid admin
  | service_role => true
  end.

(** ** Statements on [bookings] *)

Definition seat_exists (db : DB) (sid : UUID) : bool :=
  existsb (fun s => Seat.id s =? sid) (seats db).

Definition auth_user_exists (db : DB) (uid : UUID) : bool :=
  existsb (fun u => AuthUser.id u =? uid) (auth_users db).

(** [INSERT INTO bookings (user_id, seat_id) VALUES (uid, sid)]. *)
Definition insert_booking (c : caller) (uid sid : UUID) (db : DB)
  : result DB :=
  let NEW := Booking.mk (next_uuid db) uid sid in
  if negb (bookings_insert_check c db NEW) then Err RlsViolation
  else if existsb (fun b => Booking.seat_id b =? sid) (bookings db)
  then Err (UniqueViolation "bookings_seat_id_key")
  else if existsb (fun b => Booking.user_id b =? uid) (bookings db)
  then Err (UniqueViolation "bookings_user_id_key")
  else if negb (auth_user_exists db uid)
  then Err (ForeignKeyViolation "bookings_user_id_fkey")
  else if negb (seat_exists db sid)
  then Err (ForeignKeyViolation "bookings_seat_id_fkey")
  else Ok (fire (mark_seat_booked NEW)
                (bump_uuid (set_bookings (bookings db ++ [NEW]) db))).

(** Deleting the booking rows selected by [p] (a client DELETE or a
    cascade): the rows go, then the AFTER DELETE trigger runs for each. *)
Definition delete_from_bookings (p : Booking.t -> bool) (db : DB) : DB :=
  let OLDs := filter p (bookings db) in
  fire (flat_map free_seat_on_delete OLDs)
       (set_bookings (filter (fun b => negb (p b)) (bookings db)) db).

(** [DELETE FROM bookings WHERE id = bid].  A caller whose USING predicate
    is false sees no row: nothing is deleted and no error is raised. *)
Definition delete_booking (c : caller) (bid : UUID) (db : DB) : result DB :=
  if bookings_write_using c db
  then Ok (delete_from_bookings (fun b => Booking.id b =? bid) db)
  else Ok db.

Definition or_default {A : Type} (o : option A) (d : A) : A :=
  match o with
  | Some a => a
  | None => d
  end.

(** [UPDATE bookings SET user_id = ..., seat_id = ... WHERE id = bid]; a
    column that the SET clause does not mention keeps its value.  The admin
    page issues it with [seat_id] only. *)
Definition update_booking (c : caller) (bid : UUID)
           (set_user_id set_seat_id : option UUID) (db : DB) : result DB :=
  if negb (bookings_write_using c db) then Ok db
  else
    match find (fun b => Booking.id b =? bid) (bookings db) with
    | None => Ok db
    | Some OLD =>
        let NEW := Booking.mk (Booking.id OLD)
                              (or_default set_user_id (Booking.user_id OLD))
                              (or_default set_seat_id (Booking.seat_id OLD)) in
        let others := filter (fun b => negb (Booking.id b =? bid))
                             (bookings db) in
        if existsb (fun b => Booking.seat_id b =? Booking.seat_id NEW) others
        then Err (UniqueViolation "bookings_seat_id_key")
        else if existsb (fun b => Booking.user_id b =? Booking.user_id NEW)
                        others
        then Err (UniqueViolation "bookings_user_id_key")
        else if negb (auth_user_exists db (Booking.user_id NEW))
        then Err (ForeignKeyViolation "bookings_user_id_fkey")
        else if negb (seat_exists db (Booking.seat_id NEW))
        then Err (ForeignKeyViolation "bookings_seat_id_fkey")
        else Ok (fire (handle_booking_update OLD NEW)
                      (set_bookings
                         (map (fun b => if Booking.id b =? bid then NEW else b)
                              (bookings db)) db))
    end.

(** ** Statements on [seats] and [seat_layout] *)

(** Deleting the seat rows selected by [p]: [bookings.seat_id REFERENCES
    seats(id) ON DELETE CASCADE] deletes the bookings of those seats, and
    each deleted booking fires [free_seat_on_delete]. *)
Definition delete_from_seats (p : Seat.t -> bool) (db : DB) : DB :=
  let gone := map Seat.id (filter p (seats db)) in
  delete_from_bookings
    (fun b => existsb (fun i => Booking.seat_id b =? i) gone)
    (set_seats (filter (fun s => negb (p s)) (seats db)) db).

(** [DELETE FROM seats WHERE id = sid], admin only. *)
Definition delete_seat (c : caller) (sid : UUID) (db : DB) : result DB :=
  if admin_write_using c db
  then Ok (delete_from_seats (fun s => Seat.id s =? sid) db)
  else Ok db.

(** The admin freeze / unfreeze button: [UPDATE seats SET is_booked = b
    WHERE id = sid], written directly and not through a booking. *)
Definition toggle_freeze (c : caller) (sid : UUID) (b : bool) (db : DB)
  : result DB :=
  if admin_write_using c db
  then Ok (set_seats (run_seat_write (UpdateSeatsSetIsBooked b sid) (seats db))
                     db)
  else Ok db.

(** The values of the 4-byte [INTEGER] type of [total_rows],
    [total_columns], [row_num] and [col_num]. *)
Definition int4 (n : Z) : bool :=
  (-2147483648 <=? n)%Z && (n <=? 2147483647)%Z.

(** [UPDATE seat_layout SET total_rows = r, total_columns = c WHERE id =
    lid], admin only.  The two values are converted to [INTEGER] before any
    row is visited: one outside the type raises, and nothing is written. *)
Definition update_layout (c : caller) (lid : UUID) (r k : Z) (db : DB)
  : result DB :=
  if negb (int4 r && int4 k) then Err NumericValueOutOfRange
  else if admin_write_using c db
  then Ok (set_seat_layout
             (map (fun l => if SeatLayout.id l =? lid
                            then SeatLayout.mk lid r k else l)
                  (seat_layout db)) db)
  else Ok db.

(** [INSERT INTO seat_layout (name, total_rows, total_columns) VALUES ...],
    as the migration does. *)
Definition insert_layout (r k : Z) (db : DB) : DB :=
  bump_uuid (set_seat_layout
               (seat_layout db ++ [SeatLayout.mk (next_uuid db) r k]) db).

(** The values of [FOR i IN 1..n LOOP]: none when [n < 1]. *)
Definition range1 (n : Z) : list Z :=
  map Z.of_nat (seq 1 (Z.to_nat n)).

Definition at_cell (lid : UUID) (r k : Z) (s : Seat.t) : bool :=
  (Seat.seat_layout_id s =? lid) && (Seat.row_num s =? r)%Z
  && (Seat.col_num s =? k)%Z.

(** [INSERT INTO seats (seat_layout_id, row_num, col_num) VALUES (lid, r, k)
    ON CONFLICT (seat_layout_id, row_num, col_num) DO NOTHING]. *)
Definition insert_seat_on_conflict_do_nothing (lid : UUID) (r k : Z) (db : DB)
  : DB :=
  if existsb (at_cell lid r k) (seats db) then db
  else bump_uuid
         (set_seats (seats db ++ [Seat.mk (next_uuid db) lid r k false]) db).

Definition insert_grid_row (lid : UUID) (_cols : Z) (db : DB) (r : Z) : DB :=
  fold_left (fun d k => insert_seat_on_conflict_do_nothing lid r k d)
            (range1 _cols) db.

Definition insert_grid (lid : UUID) (_rows _cols : Z) (db : DB) : DB :=
  fold_left (insert_grid_row lid _cols) (range1 _rows) db.

(** [generate_seats_for_layout(_layout_id)].  When no layout has that id,
    [_rows] and [_cols] are NULL and the FOR loop raises. *)
Definition generate_seats_for_layout (_layout_id : UUID) (db : DB)
  : result DB :=
  match find (fun l => SeatLayout.id l =? _layout_id) (seat_layout db) with
  | None => Err NullLoopBound
  | Some l =>
      let _rows := SeatLayout.total_rows l in
      let _cols := SeatLayout.total_columns l in
      let db1 :=
        delete_from_seats
          (fun s => (Seat.seat_layout_id s =? _layout_id)
                    && negb (Seat.is_booked s)) db in
      Ok (insert_grid _layout_id _rows _cols db1)
  end.

(** The state the migration leaves: the default layout and its seats. *)
Definition migration : DB :=
  let db := insert_layout 20 10 empty_db in
  match seat_layout db with
  | l :: _ => commit db (generate_seats_for_layout (SeatLayout.id l) db)
  | [] => db
  end.

(** ** Statements on [auth.users], [user_roles] and [allowed_users] *)

(** Modelled from the spec: the identity store's [auth.admin.createUser] is
    a service outside the repository.  It creates one identity bound to the
    e-mail and the secret, and fails with a duplicate error when an identity
    with that e-mail already exists. *)
Definition createUser (email password : string) (db : DB)
  : option UUID * DB :=
  if existsb (fun u => String.eqb (AuthUser.email u) email) (auth_users db)
  then (None, db)
  else (Some (next_uuid db),
        bump_uuid (set_auth_users
                     (auth_users db
                      ++ [AuthUser.mk (next_uuid db) email password]) db)).

(** [DELETE FROM auth.users WHERE id = uid]: [user_roles] and [bookings]
    reference it ON DELETE CASCADE. *)
Definition delete_auth_user (uid : UUID) (db : DB) : DB :=
  delete_from_bookings
    (fun b => Booking.user_id b =? uid)
    (set_user_roles
       (filter (fun r => negb (UserRole.user_id r =? uid)) (user_roles db))
       (set_auth_users
          (filter (fun u => negb (AuthUser.id u =? uid)) (auth_users db)) db)).

(** The text of a role cast to [app_role]. *)
Definition app_role_of_string (s : string) : option app_role :=
  if String.eqb s "admin" then Some admin
  else if String.eqb s "user" then Some user
  else None.

(** [INSERT INTO user_roles (user_id, role) VALUES (uid, role)]. *)
Definition insert_user_role (c : caller) (uid : UUID) (role : string) (db : DB)
  : result DB :=
  match app_role_of_string role with
  | None => Err InvalidEnumValue
  | Some r =>
      if negb (admin_write_using c db) then Err RlsViolation
      else if has_role db uid r
      then Err (UniqueViolation "user_roles_user_id_role_key")
      else if negb (auth_user_exists db uid)
      then Err (ForeignKeyViolation "user_roles_user_id_fkey")
      else Ok (bump_uuid
                 (set_user_roles
                    (user_roles db ++ [UserRole.mk (next_uuid db) uid r]) db))
  end.

(** [INSERT INTO allowed_users (email, uti) VALUES (email, uti)]: both
    columns are declared UNIQUE. *)
Definition insert_allowed_user (c : caller) (email uti : string) (db : DB)
  : result DB :=
  if negb (admin_write_using c db) then Err RlsViolation
  else if existsb (fun a => String.eqb (AllowedUser.email a) email)
                  (allowed_users db)
  then Err (UniqueViolation "allowed_users_email_key")
  else if existsb (fun a => String.eqb (AllowedUser.uti a) uti)
                  (allowed_users db)
  then Err (UniqueViolation "allowed_users_uti_key")
  else Ok (bump_uuid
             (set_allowed_users
                (allowed_users db
                 ++ [AllowedUser.mk (next_uuid db) email uti]) db)).

(** [DELETE FROM allowed_users WHERE id = aid], admin only. *)
Definition delete_allowed_user (c : caller) (aid : UUID) (db : DB)
  : result DB :=
  if admin_write_using c db
  then Ok (set_allowed_users
             (filter (fun a => negb (AllowedUser.id a =? aid))
                     (allowed_users db)) db)
  else Ok db.

(** ** The provisioning edge function ([serve] in [login/index.ts]) *)

(** [String.prototype.toLowerCase] on the ASCII letters. *)
Definition lower_ascii (c : ascii) : ascii :=
  let n := nat_of_ascii c in
  if (65 <=? n) && (n <=? 90) then ascii_of_nat (n + 32) else c.

Fixpoint toLowerCase (s : string) : string :=
  match s with
  | EmptyString => EmptyString
  | String c r => String (lower_ascii c) (toLowerCase r)
  end.

(** JavaScript truthiness of a body field that is absent or a string:
    [undefined] and the empty string are falsy. *)
Definition truthy (v : option string) : bool :=
  match v with
  | Some s => negb (String.eqb s "")
  | None => false
  end.

Module Handler.

(** The fields destructured from [await req.json()], as the admin page
    sends them: each is a string or absent. *)
Record Body : Type := mkBody {
  email : option string;
  uti : option string;
  role : option string
}.

Record Request : Type := mkRequest {
  method : string;
  (** what [supabaseClient.auth.getUser()] yields for the request's
      Authorization header: the user, or [None] for an error or no user *)
  getUser : option UUID;
  (** the [user_roles] query itself fails: its [data] is then null *)
  role_lookup_fails : bool;
  (** [await req.json()]: the body, or the message of the exception *)
  json : string + Body
}.

Inductive ResponseBody : Type :=
| PlainOk                         (* "ok" *)
| Success                         (* { success: true } *)
| Error (message : string).       (* { error: message } *)

Record Response : Type := mkResponse { status : nat; body : ResponseBody }.

(** [.from("user_roles").select("role").eq("user_id", user.id)
    .eq("role", "admin").maybeSingle()]: the row, or null when there is
    none, when there are several, or when the query fails. *)
Definition roleData (req : Request) (uid : UUID) (db : DB)
  : option UserRole.t :=
  if role_lookup_fails req then None
  else
    match filter (fun r => (UserRole.user_id r =? uid)
                           && app_role_eqb (UserRole.role r) admin)
                 (user_roles db) with
    | [r] => Some r
    | _ => None
    end.

Definition duplicate_message : string :=
  "A user with this email address has already been registered".

(** The three privileged writes, made with the service role.  Only the
    error of [createUser] is looked at; the results of the two inserts
    are dropped. *)
Definition provision (e u : string) (r : option string) (db : DB)
  : Response * DB :=
  match createUser (toLowerCase e) u db with
  | (None, db1) => (mkResponse 500 (Error duplicate_message), db1)
  | (Some new_id, db1) =>
      let db2 :=
        commit db1 (insert_allowed_user service_role (toLowerCase e) u db1) in
      let db3 :=
        commit db2
               (insert_user_role service_role new_id
                                 (if truthy r then or_default r "user"%string
                                  else "user"%string) db2) in
      (mkResponse 200 Success, db3)
  end.

Definition serve (req : Request) (db : DB) : Response * DB :=
  if String.eqb (method req) "OPTIONS" then (mkResponse 200 PlainOk, db)
  else
    match getUser req with
    | None => (mkResponse 401 (Error "Unauthorized"), db)
    | Some uid =>
        match roleData req uid db with
        | None => (mkResponse 403 (Error "Only admins can add users"), db)
        | Some _ =>
            match json req with
            | inl message => (mkResponse 500 (Error message), db)
            | inr b =>
                if negb (truthy (email b)) || negb (truthy (uti b))
                then (mkResponse 400 (Error "Missing email or uti"), db)
                else provision (or_default (email b) ""%string)
                               (or_default (uti b) ""%string) (role b) db
            end
        end
    end.

End Handler.

(** ** Operations and reachable states *)

Inductive op : Type :=
| InsertBooking (c : caller) (uid sid : UUID)
| DeleteBooking (c : caller) (bid : UUID)
| UpdateBooking (c : caller) (bid : UUID)
                (set_user_id set_seat_id : option UUID)
| DeleteSeat (c : caller) (sid : UUID)
| DeleteAuthUser (uid : UUID)
| ToggleFreeze (c : caller) (sid : UUID) (b : bool)
| UpdateLayout (c : caller) (lid : UUID) (r k : Z)
| GenerateSeats (lid : UUID)
| CreateUser (email password : string)
| InsertUserRole (c : caller) (uid : UUID) (role : string)
| InsertAllowedUser (c : caller) (email uti : string)
| DeleteAllowedUser (c : caller) (aid : UUID)
| AddUser (req : Handler.Request).

(** The database after the operation was attempted. *)
Definition exec (o : op) (db : DB) : DB :=
  match o with
  | InsertBooking c uid sid => commit db (insert_booking c uid sid db)
  | DeleteBooking c bid => commit db (delete_booking c bid db)
  | UpdateBooking c bid su ss => commit db (update_booking c bid su ss db)
  | DeleteSeat c sid => commit db (delete_seat c sid db)
  | DeleteAuthUser uid => delete_auth_user uid db
  | ToggleFreeze c sid b => commit db (toggle_freeze c sid b db)
  | UpdateLayout c lid r k => commit db (update_layout c lid r k db)
  | GenerateSeats lid => commit db (generate_seats_for_layout lid db)
  | CreateUser e p => snd (createUser e p db)
  | InsertUserRole c uid r => commit db (insert_user_role c uid r db)
  | InsertAllowedUser c e u => commit db (insert_allowed_user c e u db)
  | DeleteAllowedUser c aid => commit db (delete_allowed_user c aid db)
  | AddUser req => snd (Handler.serve req db)
  end.

(** The admin freeze / unfreeze override writes [is_booked] directly. *)
Definition is_override (o : op) : bool :=
  match o with
  | ToggleFreeze _ _ _ => true
  | _ => false
  end.

(** States reached from the migration by operations that [allowed]
    admits. *)
Inductive reachable (allowed : op -> bool) : DB -> Prop :=
| reachable_migration : reachable allowed migration
| reachable_exec (db : DB) (o : op) :
    reachable allowed db -> allowed o = true -> reachable allowed (exec o db).

Definition any_op (_ : op) : bool := true.
Definition no_override (o : op) : bool := negb (is_override o).

(** ** Constraints and the synchronisation invariant *)

Definition cell_of (s : Seat.t) : UUID * Z * Z :=
  (Seat.seat_layout_id s, Seat.row_num s, Seat.col_num s).

(** What the schema declares: primary keys, UNIQUE constraints and the
    foreign key of [bookings.seat_id]; and that the identifier supply has
    not yet handed out [next_uuid]. *)
Record constraints (db : DB) : Prop := mkConstraints {
  seats_pkey : NoDup (map Seat.id (seats db));
  seats_cell_key : NoDup (map cell_of (seats db));
  bookings_pkey : NoDup (map Booking.id (bookings db));
  bookings_seat_id_key : NoDup (map Booking.seat_id (bookings db));
  bookings_user_id_key : NoDup (map Booking.user_id (bookings db));
  bookings_seat_id_fkey :
    forall b, In b (bookings db) ->
              exists s, In s (seats db) /\ Seat.id s = Booking.seat_id b;
  seats_fresh : forall s, In s (seats db) -> Seat.id s < next_uuid db;
  bookings_fresh : forall b, In b (bookings db) -> Booking.id b < next_uuid db
}.

Arguments seats_pkey {db}.
Arguments seats_cell_key {db}.
Arguments bookings_pkey {db}.
Arguments bookings_seat_id_key {db}.
Arguments bookings_user_id_key {db}.
Arguments bookings_seat_id_fkey {db}.
Arguments seats_fresh {db}.
Arguments bookings_fresh {db}.

(** [is_booked] is true exactly for the seats that a booking references. *)
Definition in_sync (db : DB) : Prop :=
  forall s, In s (seats db) ->
            (Seat.is_booked s = true <->
             exists b, In b (bookings db) /\ Booking.seat_id b = Seat.id s).

Definition allowed_users_keys (db : DB) : Prop :=
  NoDup (map AllowedUser.email (allowed_users db))
  /\ NoDup (map AllowedUser.uti (allowed_users db)).

(** Number of booking rows of a user, and of a seat. *)
Definition bookings_of_user (db : DB) (u : UUID) : nat :=
  List.length (filter (fun b => Booking.user_id b =? u) (bookings db)).
Definition bookings_of_seat (db : DB) (s : UUID) : nat :=
  List.length (filter (fun b => Booking.seat_id b =? s) (bookings db)).

(** The effect of one trigger statement, and of a list of them, on a single
    seat row. *)
Definition write_seat (w : seat_write) (s : Seat.t) : Seat.t :=
  match w with
  | UpdateSeatsSetIsBooked b i =>
      if Seat.id s =? i then Seat.set_is_booked b s else s
  end.

Definition written (ws : list seat_write) (s : Seat.t) : Seat.t :=
  fold_left (fun a w => write_seat w a) ws s.

(** A statement that leaves [seats] and [bookings] alone. *)
Definition booking_frame (db db' : DB) : Prop :=
  seats db' = seats db /\ bookings db' = bookings db
  /\ next_uuid db <= next_uuid db'.

(** The three conditions on a self-service booking, in the words of the
    specification: the row is the caller's own, the caller holds no booking,
    and the target seat is currently unbooked. *)
Definition may_book (db : DB) (C : UUID) (B : Booking.t) : Prop :=
  Booking.user_id B = C
  /\ (forall b, In b (bookings db) -> Booking.user_id b <> C)
  /\ (exists s, In s (seats db) /\ Seat.id s = Booking.seat_id B
                /\ Seat.is_booked s = false).

(** What a reader of [seats] sees for the seat [sid]. *)
Definition appears_booked (db : DB) (sid : UUID) : bool :=
  existsb (fun s => (Seat.id s =? sid) && Seat.is_booked s) (seats db).

(** ** Vocabulary for layout regeneration *)

(** The seats of one layout. *)
Definition layout_seats (db : DB) (lid : UUID) : list Seat.t :=
  filter (fun s => Seat.seat_layout_id s =? lid) (seats db).

(** The seat lies in the grid [1..R] x [1..C]. *)
Definition in_grid (R C : Z) (s : Seat.t) : bool :=
  ((1 <=? Seat.row_num s) && (Seat.row_num s <=? R)
   && (1 <=? Seat.col_num s) && (Seat.col_num s <=? C))%Z.

(** The booked seats of a layout that lie outside the grid. *)
Definition booked_outside_grid (db : DB) (lid : UUID) (R C : Z)
  : list Seat.t :=
  filter (fun s => Seat.is_booked s && negb (in_grid R C s))
         (layout_seats db lid).

(** The cells visited by the two nested FOR loops, in loop order. *)
Definition grid_cells (lid : UUID) (rs ks : list Z) : list (UUID * Z * Z) :=
  flat_map (fun r => map (fun k => (lid, r, k)) ks) rs.

Definition occupies (c : UUID * Z * Z) (s : Seat.t) : bool :=
  at_cell (fst (fst c)) (snd (fst c)) (snd c) s.

Definition insert_cell (db : DB) (c : UUID * Z * Z) : DB :=
  insert_seat_on_conflict_do_nothing (fst (fst c)) (snd (fst c)) (snd c) db.

(** The claim that regeneration leaves exactly [rows * columns] seats. *)
Definition regenerate_yields_exactly_the_grid : Prop :=
  forall (db db' : DB) (lid : UUID) (l : SeatLayout.t),
    reachable no_override db ->
    find (fun l => SeatLayout.id l =? lid) (seat_layout db) = Some l ->
    generate_seats_for_layout lid db = Ok db' ->
    Z.of_nat (List.length (layout_seats db' lid))
    = (SeatLayout.total_rows l * SeatLayout.total_columns l)%Z.

(** ** Example states *)

(** After the migration (layout 0, seats 1..200 in row-major order of a
    20 x 10 grid) an administrator is set up with the service role, and ann
    signs up and reserves seat 195, which is row 20, column 5. *)
Definition root : UUID := 201.
Definition ann : UUID := 203.

Definition theatre_open : DB :=
  exec (CreateUser "ann@example.org" "s3cret")
       (exec (InsertUserRole service_role root "admin")
             (exec (CreateUser "root@example.org" "admin") migration)).

Definition ann_booked : DB :=
  exec (InsertBooking (authenticated ann) ann 195) theatre_open.

(** The admin page then shrinks the layout to 10 rows of 16 columns, and
    regenerates the seats. *)
Definition layout_shrunk : DB :=
  exec (UpdateLayout (authenticated root) 0 10 16) ann_booked.

Definition seats_regenerated : DB :=
  exec (GenerateSeats 0) layout_shrunk.

(** Ann and bob are then put on the allow-list, with the service role. *)
Definition allow_listed : DB :=
  exec (InsertAllowedUser service_role "bob@example.org" "hunter2")
       (exec (InsertAllowedUser service_role "ann@example.org" "s3cret")
             ann_booked).

(** A hall of two seats whose layout has since been cut down to a single
    cell: bob (11) holds seat 2 at row 1, column 2; ann (10) holds nothing;
    14 is an administrator; ann is on the allow-list. *)
Definition small_hall : DB :=
  mkDB [AuthUser.mk 10 "ann@example.org" "s3cret";
        AuthUser.mk 11 "bob@example.org" "hunter2";
        AuthUser.mk 14 "root@example.org" "admin"]
       [AllowedUser.mk 13 "ann@example.org" "s3cret"]
       [SeatLayout.mk 0 1 1]
       [Seat.mk 1 0 1 1 false; Seat.mk 2 0 1 2 true]
       [UserRole.mk 15 14 admin]
       [Booking.mk 12 11 2]
       16.

(** The administrator moves bob's booking (12) from seat 2 to seat 1. *)
Definition small_hall_moved : DB :=
  exec (UpdateBooking (authenticated 14) 12 None (Some 1)) small_hall.

(** Requests to the provisioning function. *)
Definition post (caller : option UUID) (e u r : option string)
  : Handler.Request :=
  Handler.mkRequest "POST" caller false (inr (Handler.mkBody e u r)).

(** The administrator adds carol with a secret that is already in use and a
    role that is not an [app_role]. *)
Definition add_carol : Handler.Request :=
  post (Some 14) (Some "Carol@Example.org"%string) (Some "s3cret"%string)
       (Some "superuser"%string).

(** The administrator adds dave, typing blanks around the address. *)
Definition add_dave : Handler.Request :=
  post (Some 14) (Some " Dave@Example.org "%string) (Some "pa55"%string) None.

(** ** Normalisation of an e-mail address, in the words of the
    specification: trimmed of surrounding white space and lower-cased, as
    [email.trim().toLowerCase()] does. *)
Definition is_space (c : ascii) : bool :=
  let n := nat_of_ascii c in (n =? 32) || ((9 <=? n) && (n <=? 13)).

Fixpoint trimStart (s : string) : string :=
  match s with
  | EmptyString => EmptyString
  | String c r => if is_space c then trimStart r else s
  end.

Fixpoint trimEnd (s : string) : string :=
  match s with
  | EmptyString => EmptyString
  | String c r =>
      match trimEnd r with
      | EmptyString => if is_space c then EmptyString
                       else String c EmptyString
      | r' => String c r'
      end
  end.

Definition trim (s : string) : string := trimEnd (trimStart s).

Definition normalized (email : string) : string := toLowerCase (trim email).

(** ** The remaining SQL helper functions *)

(** [is_allowed_email(_email)]: a row whose [email] equals
    [lower(_email)] exists.  SQL's [lower] is [toLowerCase] here. *)
Definition is_allowed_email (db : DB) (_email : string) : bool :=
  existsb (fun a => String.eqb (AllowedUser.email a) (toLowerCase _email))
          (allowed_users db).

(** [get_uti_for_email(_email)]: the [uti] of the row whose [email] equals
    [lower(_email)], NULL ([None]) when there is none. *)
Definition get_uti_for_email (db : DB) (_email : string) : option string :=
  match find (fun a => String.eqb (AllowedUser.email a) (toLowerCase _email))
             (allowed_users db) with
  | Some a => Some (AllowedUser.uti a)
  | None => None
  end.

(** ** The client: [AuthContext], the booking page and the admin page *)

(** [checkAdminRole] of [AuthContext]: the query of the provisioning
    function, [setIsAdmin(!!data)], and [setIsAdmin(false)] when the query
    raises (it also does when [maybeSingle] meets several rows). *)
Definition checkAdminRole (lookup_fails : bool) (userId : UUID) (db : DB)
  : bool :=
  if lookup_fails then false
  else
    match filter (fun r => (UserRole.user_id r =? userId)
                           && app_role_eqb (UserRole.role r) admin)
                 (user_roles db) with
    | [_] => true
    | _ => false
    end.

(** [String.fromCharCode] for code units below 256, and the text of an
    integer in a template literal. *)
Definition fromCharCode (n : Z) : ascii := ascii_of_N (Z.to_N (n mod 256)).

Definition number_to_string (n : Z) : string :=
  DecimalString.NilEmpty.string_of_int (Z.to_int n).

(** [getSeatLabel(row, col)]:
    [`${String.fromCharCode(64 + col)}${row}`]. *)
Definition getSeatLabel (row col : Z) : string :=
  String (fromCharCode (64 + col)) (number_to_string row).

(** [handleSeatClick]: a seat shown as booked is not selected; any other
    becomes the selected seat and opens the confirmation dialog.  The state
    is the pair of [selectedSeat] and [showConfirm]. *)
Definition handleSeatClick (seat : Seat.t) (st : option Seat.t * bool)
  : option Seat.t * bool :=
  if Seat.is_booked seat then st else (Some seat, true).

(** [handleConfirmBooking]: nothing without a selected seat or a signed-in
    user; otherwise the insert of the user's own booking of that seat. *)
Definition handleConfirmBooking (user : option UUID)
           (selectedSeat : option Seat.t) (db : DB) : option (result DB) :=
  match selectedSeat, user with
  | Some seat, Some u =>
      Some (insert_booking (authenticated u) u (Seat.id seat) db)
  | _, _ => None
  end.

(** [renderSeat(row, col)]: the seat the page holds for the cell, if any;
    the button drawn for it calls [handleSeatClick] with that seat. *)
Definition renderSeat (shown : list Seat.t) (row col : Z) : option Seat.t :=
  find (fun s => (Seat.row_num s =? row)%Z && (Seat.col_num s =? col)%Z)
       shown.

(** What the user can do on the booking page: press the button of a cell,
    have the dialog report a change of its open state
    ([onOpenChange={setShowConfirm}], as Cancel and Escape do), or press
    "Yes, Freeze It!" while signed in as [user] or not at all. *)
Inductive page_event : Type :=
| ClickCell (row col : Z)
| OpenChange (open : bool)
| ConfirmBooking (user : option UUID).

(** The pair of [selectedSeat] and [showConfirm] after an event; [shown] is
    the list of seats the page fetched when it was mounted.
    [handleConfirmBooking] closes the dialog once its insert has returned,
    whatever the answer, and leaves the selection as it is. *)
Definition page_step (shown : list Seat.t) (st : option Seat.t * bool)
           (ev : page_event) : option Seat.t * bool :=
  match ev with
  | ClickCell row col =>
      match renderSeat shown row col with
      | Some seat => handleSeatClick seat st
      | None => st
      end
  | OpenChange open => (fst st, open)
  | ConfirmBooking signed_in =>
      match fst st, signed_in with
      | Some _, Some _ => (fst st, false)
      | _, _ => st
      end
  end.

(** [handleToggleFreeze(seat)]: writes the negation of the flag that the
    page holds for the seat. *)
Definition handleToggleFreeze (c : caller) (seat : Seat.t) (db : DB) : DB :=
  commit db (toggle_freeze c (Seat.id seat) (negb (Seat.is_booked seat)) db).

(** [availableSeats]: the seats the page offers for a reassignment. *)
Definition availableSeats (shown : list Seat.t) : list Seat.t :=
  filter (fun s => negb (Seat.is_booked s)) shown.

(** [handleModifyBooking]: nothing without a booking being edited or a
    chosen seat; otherwise [UPDATE bookings SET seat_id = newSeatId WHERE
    id = editingBooking.id]. *)
Definition handleModifyBooking (c : caller) (editingBooking : option UUID)
           (newSeatId : option UUID) (db : DB) : DB :=
  match editingBooking, newSeatId with
  | Some bid, Some sid => commit db (update_booking c bid None (Some sid) db)
  | _, _ => db
  end.

(** [handleUpdateLayout]: nothing without a layout; otherwise the update of
    the layout to [parseInt(newRows)] rows and 16 columns, then
    [generate_seats_for_layout], whatever the update yielded.  [newRows] is
    the parsed number, [None] for NaN, which the NOT NULL column rejects. *)
Definition handleUpdateLayout (c : caller) (layout : option SeatLayout.t)
           (newRows : option Z) (db : DB) : DB :=
  match layout with
  | None => db
  | Some l =>
      let db1 :=
        match newRows with
        | Some r => commit db (update_layout c (SeatLayout.id l) r 16 db)
        | None => db
        end in
      commit db1 (generate_seats_for_layout (SeatLayout.id l) db1)
  end.

(** One row of the uploaded sheet: its [email] and [uti] cells, each a text
    or empty. *)
Definition excel_row : Type := (option string * option string)%type.

(** The request [handleExcelUpload] sends for a row: none when the trimmed,
    lower-cased address or the trimmed secret is empty. *)
Definition excel_request (caller : option UUID) (row : excel_row)
  : option Handler.Request :=
  let email := option_map (fun e => toLowerCase (trim e)) (fst row) in
  let uti := option_map trim (snd row) in
  if negb (truthy email) || negb (truthy uti) then None
  else Some (post caller email uti (Some "user"%string)).

(** [handleExcelUpload]: the rows in order, each answer dropped. *)
Definition handleExcelUpload (caller : option UUID) (rows : list excel_row)
           (db : DB) : DB :=
  fold_left (fun d row =>
               match excel_request caller row with
               | Some req => snd (Handler.serve req d)
               | None => d
               end) rows db.

(** ** Sessions of the client *)

(** Who issues an operation through the API: the caller of a statement
    that a row-level-security policy guards, or of a request to the
    provisioning function.  None for what only the service side does
    (creating and deleting an identity) and for
    [generate_seats_for_layout], a SECURITY DEFINER function that no
    policy guards. *)
Definition issued_by (o : op) : option caller :=
  match o with
  | InsertBooking c _ _ | DeleteBooking c _ | UpdateBooking c _ _ _
  | DeleteSeat c _ | ToggleFreeze c _ _ | UpdateLayout c _ _ _
  | InsertUserRole c _ _ | InsertAllowedUser c _ _
  | DeleteAllowedUser c _ => Some c
  | AddUser req =>
      match Handler.getUser req with
      | Some uid => Some (authenticated uid)
      | None => Some anon
      end
  | DeleteAuthUser _ | GenerateSeats _ | CreateUser _ _ => None
  end.

(** The operation is issued by a caller that is not the service role and
    that [has_role] does not know as admin in [db]. *)
Definition without_admin (db : DB) (o : op) : bool :=
  match issued_by o with
  | Some c => negb (admin_write_using c db)
  | None => false
  end.

(** ** Further constraints of the schema *)

(** [user_id ... REFERENCES auth.users(id)] of [bookings] and of
    [user_roles]. *)
Definition user_fkeys (db : DB) : Prop :=
  (forall b, In b (bookings db) ->
             auth_user_exists db (Booking.user_id b) = true)
  /\ (forall r, In r (user_roles db) ->
                auth_user_exists db (UserRole.user_id r) = true).

(** [UNIQUE(user_id, role)] of [user_roles]. *)
Definition user_roles_key (db : DB) : Prop :=
  NoDup (map (fun r => (UserRole.user_id r, UserRole.role r)) (user_roles db)).

(** A seat with the given cell and flag exists. *)
Definition has_seat (db : DB) (c : UUID * Z * Z) (b : bool) : Prop :=
  exists s, In s (seats db) /\ cell_of s = c /\ Seat.is_booked s = b.

(** * Proofs *)

(** Case analysis on the conditions of the [if]s of the goal. *)
Ltac case_ifs :=
  repeat match goal with
         | |- context [if ?c then _ else _] => destruct c; simpl
         end.

(** ** Lists with a key column *)

Section Keyed.
Variables (A K : Type) (key : A -> K).

Lemma NoDup_map_filter (p : A -> bool) (l : list A) :
  NoDup (map key l) -> NoDup (map key (filter p l)).
Proof.
  induction l as [|a l IH]; simpl; intros H; [constructor|].
  inversion H as [|? ? Hn Hl]; subst.
  destruct (p a); simpl; auto.
  constructor; auto.
  intros Hin. apply Hn. apply in_map_iff in Hin.
  destruct Hin as (x & Hx & Hf). apply filter_In in Hf.
  apply in_map_iff. exists x. tauto.
Qed.

Lemma NoDup_map_eq (l : list A) (x y : A) :
  NoDup (map key l) -> In x l -> In y l -> key x = key y -> x = y.
Proof.
  induction l as [|a l IH]; simpl; intros H Hx Hy E; [contradiction|].
  inversion H as [|? ? Hn Hl]; subst.
  destruct Hx as [Hx|Hx], Hy as [Hy|Hy]; subst; auto.
  - exfalso. apply Hn. rewrite E. now apply in_map.
  - exfalso. apply Hn. rewrite <- E. now apply in_map.
Qed.

Lemma NoDup_map_snoc (l : list A) (y : A) :
  NoDup (map key l) -> (forall x, In x l -> key x <> key y) ->
  NoDup (map key (l ++ [y])).
Proof.
  induction l as [|a l IH]; simpl; intros H Hy.
  - constructor; [intros []|constructor].
  - inversion H as [|? ? Hn Hl]; subst. constructor.
    + rewrite map_app, in_app_iff. simpl. intros [Hin|[E|[]]].
      * now apply Hn.
      * apply (Hy a); auto.
    + apply IH; auto.
Qed.
End Keyed.

Lemma count_key_le_1 (A : Type) (key : A -> nat) (l : list A) (v : nat) :
  NoDup (map key l) -> List.length (filter (fun x => key x =? v) l) <= 1.
Proof.
  induction l as [|a l IH]; simpl; intros H; [lia|].
  inversion H as [|? ? Hn Hl]; subst.
  destruct (Nat.eqb_spec (key a) v) as [E|E]; simpl; auto.
  assert (Hz : filter (fun x => key x =? v) l = []).
  { destruct (filter (fun x => key x =? v) l) as [|x r] eqn:F; auto.
    exfalso. assert (Hx : In x (filter (fun x => key x =? v) l))
      by (rewrite F; now left).
    apply filter_In in Hx. destruct Hx as [Hx Hk].
    apply Nat.eqb_eq in Hk. apply Hn. rewrite E, <- Hk. now apply in_map. }
  rewrite Hz. simpl. lia.
Qed.

(** Replacing the row whose primary key is [k] keeps another key column
    free of duplicates when no other row holds the new value. *)
Lemma NoDup_map_replace (A : Type) (pk key : A -> nat) (k : nat) (NEW : A)
      (l : list A) :
  NoDup (map pk l) -> NoDup (map key l) ->
  (forall b, In b l -> pk b <> k -> key b <> key NEW) ->
  NoDup (map key (map (fun b => if pk b =? k then NEW else b) l)).
Proof.
  induction l as [|a l IH]; simpl; intros Hp Hk Hfree; [constructor|].
  inversion Hp as [|? ? Hpn Hpl]; inversion Hk as [|? ? Hkn Hkl]; subst.
  constructor; [|apply IH; auto].
  rewrite map_map. intros Hin. apply in_map_iff in Hin.
  destruct Hin as (x & Hx & Hin).
  destruct (Nat.eqb_spec (pk a) k) as [Ea|Ea];
    destruct (Nat.eqb_spec (pk x) k) as [Ex|Ex].
  - apply Hpn. rewrite Ea, <- Ex. now apply in_map.
  - apply (Hfree x); auto.
  - apply (Hfree a); auto.
  - apply Hkn. rewrite <- Hx. now apply in_map.
Qed.

(** ** What the trigger statements do to a seat *)

Lemma run_seat_writes_map (ws : list seat_write) (ss : list Seat.t) :
  run_seat_writes ws ss = map (written ws) ss.
Proof.
  revert ss. induction ws as [|w ws IH]; intros ss; simpl.
  - now rewrite map_id.
  - unfold run_seat_writes in *. simpl. rewrite IH.
    destruct w as [b i]. simpl. now rewrite map_map.
Qed.

Lemma write_seat_id (w : seat_write) (s : Seat.t) :
  Seat.id (write_seat w s) = Seat.id s.
Proof. destruct w as [b i]; simpl. now destruct (Seat.id s =? i). Qed.

Lemma write_seat_cell (w : seat_write) (s : Seat.t) :
  cell_of (write_seat w s) = cell_of s.
Proof. destruct w as [b i]; simpl. now destruct (Seat.id s =? i). Qed.

Lemma written_id (ws : list seat_write) (s : Seat.t) :
  Seat.id (written ws s) = Seat.id s.
Proof.
  revert s. induction ws as [|w ws IH]; intros s; simpl; auto.
  unfold written in *. simpl. now rewrite IH, write_seat_id.
Qed.

Lemma written_cell (ws : list seat_write) (s : Seat.t) :
  cell_of (written ws s) = cell_of s.
Proof.
  revert s. induction ws as [|w ws IH]; intros s; simpl; auto.
  unfold written in *. simpl. now rewrite IH, write_seat_cell.
Qed.

Lemma written_untouched (ws : list seat_write) (s : Seat.t) :
  (forall w, In w ws -> where_id_of w <> Seat.id s) -> written ws s = s.
Proof.
  revert s. induction ws as [|w ws IH]; intros s H; simpl; auto.
  unfold written in *. simpl.
  assert (E : write_seat w s = s).
  { destruct w as [b i]; simpl.
    destruct (Nat.eqb_spec (Seat.id s) i) as [E|E]; auto.
    exfalso. apply (H (UpdateSeatsSetIsBooked b i)); simpl; auto. }
  rewrite E. apply IH. intros w' Hw'. apply H. now right.
Qed.

(** Statements that all clear the flag leave it cleared on every seat
    they name. *)
Lemma written_freed (ws : list seat_write) (s : Seat.t) :
  (forall w, In w ws -> exists i, w = UpdateSeatsSetIsBooked false i) ->
  (Seat.is_booked s = false
   \/ exists w, In w ws /\ where_id_of w = Seat.id s) ->
  Seat.is_booked (written ws s) = false.
Proof.
  revert s. induction ws as [|w ws IH]; intros s Hall Hs; simpl.
  - destruct Hs as [Hs|(w & [] & _)]; auto.
  - unfold written in *. simpl. apply IH.
    + intros w' Hw'. apply Hall. now right.
    + destruct (Hall w (or_introl eq_refl)) as (i & ->). simpl.
      destruct (Nat.eqb_spec (Seat.id s) i) as [E|E]; simpl.
      * now left.
      * destruct Hs as [Hs|(w & [Hw|Hw] & Hi)]; auto.
        -- subst w. simpl in Hi. congruence.
        -- right. exists w. auto.
Qed.

Lemma map_preserved (A B : Type) (f : A -> B) (g : A -> A) (l : list A) :
  (forall x, f (g x) = f x) -> map f (map g l) = map f l.
Proof.
  intros H. rewrite map_map. apply map_ext. auto.
Qed.

Lemma fire_ids (ws : list seat_write) (ss : list Seat.t) :
  map Seat.id (run_seat_writes ws ss) = map Seat.id ss.
Proof.
  rewrite run_seat_writes_map. apply map_preserved. apply written_id.
Qed.

Lemma fire_cells (ws : list seat_write) (ss : list Seat.t) :
  map cell_of (run_seat_writes ws ss) = map cell_of ss.
Proof.
  rewrite run_seat_writes_map. apply map_preserved. apply written_cell.
Qed.

Lemma in_fire (ws : list seat_write) (ss : list Seat.t) (s : Seat.t) :
  In s (run_seat_writes ws ss) <->
  exists s0, In s0 ss /\ s = written ws s0.
Proof.
  rewrite run_seat_writes_map, in_map_iff.
  split; intros (s0 & H1 & H2); exists s0; auto.
Qed.

Arguments run_seat_writes : simpl never.

(** ** The constraints hold after every statement *)

Lemma booking_frame_refl (db : DB) : booking_frame db db.
Proof. unfold booking_frame; auto. Qed.

Lemma constraints_frame (db db' : DB) :
  booking_frame db db' -> constraints db -> constraints db'.
Proof.
  intros (Hs & Hb & Hn) [].
  constructor; rewrite ?Hs, ?Hb; auto.
  - intros s Hin. specialize (seats_fresh0 s Hin). lia.
  - intros b Hin. specialize (bookings_fresh0 b Hin). lia.
Qed.

Lemma in_sync_frame (db db' : DB) :
  booking_frame db db' -> in_sync db -> in_sync db'.
Proof.
  intros (Hs & Hb & _) H. unfold in_sync. rewrite Hs, Hb. exact H.
Qed.

Lemma constraints_fire (ws : list seat_write) (db : DB) :
  constraints db -> constraints (fire ws db).
Proof.
  intros []. constructor; simpl; rewrite ?fire_ids, ?fire_cells; auto.
  - intros b Hb. destruct (bookings_seat_id_fkey0 b Hb) as (s & Hs & E).
    exists (written ws s). split.
    + apply in_fire. eauto.
    + now rewrite written_id.
  - intros s Hs. apply in_fire in Hs. destruct Hs as (s0 & Hs0 & ->).
    rewrite written_id. auto.
Qed.

Lemma constraints_delete_from_bookings (p : Booking.t -> bool) (db : DB) :
  constraints db -> constraints (delete_from_bookings p db).
Proof.
  intros H. unfold delete_from_bookings. apply constraints_fire.
  destruct H. constructor; simpl; auto using NoDup_map_filter.
  - intros b Hb. apply filter_In in Hb. apply bookings_seat_id_fkey0. tauto.
  - intros b Hb. apply filter_In in Hb. apply bookings_fresh0. tauto.
Qed.

Lemma existsb_false_forall (A : Type) (f : A -> bool) (l : list A) :
  existsb f l = false -> forall x, In x l -> f x = false.
Proof.
  intros H x Hx. destruct (f x) eqn:E; auto.
  assert (existsb f l = true) by (apply existsb_exists; eauto). congruence.
Qed.

Lemma constraints_insert_booking (c : caller) (uid sid : UUID) (db : DB) :
  constraints db -> constraints (commit db (insert_booking c uid sid db)).
Proof.
  intros H. unfold insert_booking.
  destruct (negb _); simpl; auto.
  destruct (existsb _ (bookings db)) eqn:Es; simpl; auto.
  destruct (existsb (fun b => Booking.user_id b =? uid) _) eqn:Eu; simpl; auto.
  destruct (negb (auth_user_exists db uid)); simpl; auto.
  destruct (seat_exists db sid) eqn:Ex; simpl; auto.
  apply constraints_fire. destruct H.
  constructor; simpl; auto.
  - apply NoDup_map_snoc; auto. simpl. intros x Hx.
    specialize (bookings_fresh0 x Hx). lia.
  - apply NoDup_map_snoc; auto. simpl. intros x Hx E.
    apply (existsb_false_forall _ _ _ Es) in Hx. simpl in Hx.
    apply Nat.eqb_neq in Hx. auto.
  - apply NoDup_map_snoc; auto. simpl. intros x Hx E.
    apply (existsb_false_forall _ _ _ Eu) in Hx. simpl in Hx.
    apply Nat.eqb_neq in Hx. auto.
  - intros b Hb. apply in_app_iff in Hb. destruct Hb as [Hb|[<-|[]]]; auto.
    simpl. unfold seat_exists in Ex. apply existsb_exists in Ex.
    destruct Ex as (s & Hs & E). apply Nat.eqb_eq in E. eauto.
  - intros s Hs. specialize (seats_fresh0 s Hs). lia.
  - intros b Hb. apply in_app_iff in Hb. destruct Hb as [Hb|[<-|[]]]; simpl.
    + specialize (bookings_fresh0 b Hb). lia.
    + lia.
Qed.

Lemma find_id_some (A : Type) (pk : A -> nat) (k : nat) (l : list A) (x : A) :
  find (fun b => pk b =? k) l = Some x -> In x l /\ pk x = k.
Proof.
  intros H. apply find_some in H. destruct H as [H E].
  apply Nat.eqb_eq in E. auto.
Qed.

Lemma constraints_update_booking (c : caller) (bid : UUID)
      (su ss : option UUID) (db : DB) :
  constraints db -> constraints (commit db (update_booking c bid su ss db)).
Proof.
  intros H. unfold update_booking.
  destruct (negb _); simpl; auto.
  destruct (find _ (bookings db)) as [OLD|] eqn:F; simpl; auto.
  apply find_id_some in F. destruct F as [HOLD Hid].
  set (NEW := Booking.mk (Booking.id OLD) _ _).
  destruct (existsb _ _) eqn:Es; simpl; auto.
  destruct (existsb (fun b => Booking.user_id b =? _) _) eqn:Eu; simpl; auto.
  destruct (negb (auth_user_exists db _)); simpl; auto.
  destruct (seat_exists db _) eqn:Ex; simpl; auto.
  apply constraints_fire. destruct H.
  assert (Hother : forall b, In b (bookings db) -> Booking.id b <> bid ->
            In b (filter (fun b => negb (Booking.id b =? bid)) (bookings db))).
  { intros b Hb Hne. apply filter_In. split; auto.
    apply Nat.eqb_neq in Hne. now rewrite Hne. }
  constructor; simpl; auto.
  - rewrite map_preserved; auto. intros x.
    destruct (Nat.eqb_spec (Booking.id x) bid); subst; simpl; auto.
  - apply NoDup_map_replace; auto. intros b Hb Hne E.
    pose proof (existsb_false_forall _ _ _ Es b (Hother b Hb Hne)) as Hf.
    simpl in Hf. apply Nat.eqb_neq in Hf. auto.
  - apply NoDup_map_replace; auto. intros b Hb Hne E.
    pose proof (existsb_false_forall _ _ _ Eu b (Hother b Hb Hne)) as Hf.
    simpl in Hf. apply Nat.eqb_neq in Hf. auto.
  - intros b Hb. apply in_map_iff in Hb. destruct Hb as (x & <- & Hx).
    destruct (Booking.id x =? bid); auto.
    unfold seat_exists in Ex. apply existsb_exists in Ex.
    destruct Ex as (s & Hs & E). apply Nat.eqb_eq in E. eauto.
  - intros b Hb. apply in_map_iff in Hb. destruct Hb as (x & <- & Hx).
    destruct (Booking.id x =? bid); auto. simpl. auto.
Qed.

Lemma gone_seat_id (p : Seat.t -> bool) (ss : list Seat.t) (i : UUID) :
  existsb (fun j => i =? j) (map Seat.id (filter p ss)) = true <->
  exists s, In s ss /\ p s = true /\ Seat.id s = i.
Proof.
  rewrite existsb_exists. split.
  - intros (j & Hj & E). apply Nat.eqb_eq in E. subst j.
    apply in_map_iff in Hj. destruct Hj as (s & E & Hs).
    apply filter_In in Hs. exists s. tauto.
  - intros (s & Hs & Hp & E). exists i. split; [|apply Nat.eqb_refl].
    apply in_map_iff. exists s. split; auto. apply filter_In. auto.
Qed.

Lemma constraints_delete_from_seats (p : Seat.t -> bool) (db : DB) :
  constraints db -> constraints (delete_from_seats p db).
Proof.
  intros H. unfold delete_from_seats, delete_from_bookings.
  apply constraints_fire. destruct H.
  constructor; simpl; auto using NoDup_map_filter.
  - intros b Hb. apply filter_In in Hb. destruct Hb as [Hb Hq].
    destruct (bookings_seat_id_fkey0 b Hb) as (s & Hs & E).
    exists s. split; auto. apply filter_In. split; auto.
    destruct (p s) eqn:Hp; auto. exfalso.
    apply negb_true_iff in Hq.
    assert (Ht : existsb (fun j => Booking.seat_id b =? j)
                         (map Seat.id (filter p (seats db))) = true)
      by (apply gone_seat_id; eauto).
    congruence.
  - intros s Hs. apply filter_In in Hs. apply seats_fresh0. tauto.
  - intros b Hb. apply filter_In in Hb. apply bookings_fresh0. tauto.
Qed.

Lemma at_cell_spec (lid : UUID) (r k : Z) (s : Seat.t) :
  at_cell lid r k s = true <-> cell_of s = (lid, r, k).
Proof.
  unfold at_cell, cell_of.
  rewrite !andb_true_iff, Nat.eqb_eq, !Z.eqb_eq.
  split; [intros [[-> ->] ->]; auto | intros E; inversion E; auto].
Qed.

Lemma constraints_insert_seat (lid : UUID) (r k : Z) (db : DB) :
  constraints db -> constraints (insert_seat_on_conflict_do_nothing lid r k db).
Proof.
  intros H. unfold insert_seat_on_conflict_do_nothing.
  destruct (existsb _ _) eqn:E; auto.
  destruct H. constructor; simpl; auto.
  - apply NoDup_map_snoc; auto. simpl. intros x Hx.
    specialize (seats_fresh0 x Hx). lia.
  - apply NoDup_map_snoc; auto. simpl. intros x Hx Hc.
    apply (existsb_false_forall _ _ _ E) in Hx.
    apply (proj2 (at_cell_spec lid r k x)) in Hc. congruence.
  - intros b Hb. destruct (bookings_seat_id_fkey0 b Hb) as (s & Hs & Es).
    exists s. split; auto. apply in_app_iff. auto.
  - intros s Hs. apply in_app_iff in Hs. destruct Hs as [Hs|[<-|[]]]; simpl.
    + specialize (seats_fresh0 s Hs). lia.
    + lia.
  - intros b Hb. specialize (bookings_fresh0 b Hb). lia.
Qed.

Lemma fold_left_invariant (A B : Type) (P : A -> Prop) (f : A -> B -> A)
      (l : list B) (a : A) :
  (forall a x, P a -> P (f a x)) -> P a -> P (fold_left f l a).
Proof.
  intros Hf. revert a. induction l as [|x l IH]; simpl; auto.
Qed.

Lemma constraints_insert_grid (lid : UUID) (r k : Z) (db : DB) :
  constraints db -> constraints (insert_grid lid r k db).
Proof.
  unfold insert_grid. apply fold_left_invariant. intros a x.
  unfold insert_grid_row. apply fold_left_invariant.
  intros a' x'. apply constraints_insert_seat.
Qed.

Lemma constraints_generate_seats (lid : UUID) (db : DB) :
  constraints db -> constraints (commit db (generate_seats_for_layout lid db)).
Proof.
  intros H. unfold generate_seats_for_layout.
  destruct (find _ _); simpl; auto.
  apply constraints_insert_grid, constraints_delete_from_seats, H.
Qed.

Lemma constraints_delete_auth_user (uid : UUID) (db : DB) :
  constraints db -> constraints (delete_auth_user uid db).
Proof.
  intros H. unfold delete_auth_user.
  apply constraints_delete_from_bookings.
  apply (constraints_frame db _); auto.
  unfold booking_frame; simpl; auto.
Qed.

(** The provisioning statements leave [seats] and [bookings] alone. *)
Lemma frame_createUser (e p : string) (db : DB) :
  booking_frame db (snd (createUser e p db)).
Proof.
  unfold createUser, booking_frame. destruct (existsb _ _); simpl; auto.
Qed.

Lemma frame_insert_allowed_user (c : caller) (e u : string) (db : DB) :
  booking_frame db (commit db (insert_allowed_user c e u db)).
Proof.
  unfold insert_allowed_user, booking_frame.
  repeat (destruct (_ : bool); simpl; auto).
Qed.

Lemma frame_insert_user_role (c : caller) (uid : UUID) (r : string) (db : DB) :
  booking_frame db (commit db (insert_user_role c uid r db)).
Proof.
  unfold insert_user_role, booking_frame.
  destruct (app_role_of_string r); simpl; auto.
  repeat (destruct (_ : bool); simpl; auto).
Qed.

Lemma booking_frame_trans (a b c : DB) :
  booking_frame a b -> booking_frame b c -> booking_frame a c.
Proof.
  unfold booking_frame. intros (-> & -> & ?) (-> & -> & ?).
  repeat split; auto; lia.
Qed.

Lemma frame_serve (req : Handler.Request) (db : DB) :
  booking_frame db (snd (Handler.serve req db)).
Proof.
  unfold Handler.serve.
  destruct (String.eqb _ _); [apply booking_frame_refl|].
  destruct (Handler.getUser req); [|apply booking_frame_refl].
  destruct (Handler.roleData _ _ _); [|apply booking_frame_refl].
  destruct (Handler.json req); [apply booking_frame_refl|].
  destruct (_ || _); [apply booking_frame_refl|].
  unfold Handler.provision.
  pose proof (frame_createUser
                (toLowerCase (or_default (Handler.email b) ""%string))
                (or_default (Handler.uti b) ""%string) db) as Hc.
  destruct (createUser _ _ db) as [[new_id|] db1]; simpl in *; auto.
  eapply booking_frame_trans; [exact Hc|].
  eapply booking_frame_trans; [apply frame_insert_allowed_user|].
  apply frame_insert_user_role.
Qed.

Lemma frame_exec (o : op) (db : DB) :
  match o with
  | CreateUser _ _ | InsertUserRole _ _ _ | InsertAllowedUser _ _ _
  | DeleteAllowedUser _ _ | AddUser _ | UpdateLayout _ _ _ _ =>
      booking_frame db (exec o db)
  | _ => True
  end.
Proof.
  destruct o; simpl; auto.
  - unfold update_layout.
    destruct (negb _), (admin_write_using c db); simpl;
      unfold booking_frame; auto.
  - apply frame_createUser.
  - apply frame_insert_user_role.
  - apply frame_insert_allowed_user.
  - unfold delete_allowed_user. destruct (admin_write_using c db); simpl;
      unfold booking_frame; auto.
  - apply frame_serve.
Qed.

Lemma constraints_exec (o : op) (db : DB) :
  constraints db -> constraints (exec o db).
Proof.
  intros H. pose proof (frame_exec o db) as F.
  destruct o; simpl in *; eauto using constraints_frame.
  - apply constraints_insert_booking, H.
  - unfold delete_booking. destruct (bookings_write_using c db); simpl; auto.
    apply constraints_delete_from_bookings, H.
  - apply constraints_update_booking, H.
  - unfold delete_seat. destruct (admin_write_using c db); simpl; auto.
    apply constraints_delete_from_seats, H.
  - apply constraints_delete_auth_user, H.
  - unfold toggle_freeze. destruct (admin_write_using c db); simpl; auto.
    apply (constraints_fire [UpdateSeatsSetIsBooked b sid]), H.
  - apply constraints_generate_seats, H.
Qed.

Lemma constraints_empty : constraints empty_db.
Proof.
  constructor; simpl; try constructor; intros ? [].
Qed.

Lemma migration_eq :
  migration =
  commit (insert_layout 20 10 empty_db)
         (generate_seats_for_layout 0 (insert_layout 20 10 empty_db)).
Proof. reflexivity. Qed.

Lemma constraints_migration : constraints migration.
Proof.
  rewrite migration_eq.
  apply constraints_generate_seats.
  apply (constraints_frame empty_db _); [|apply constraints_empty].
  unfold booking_frame; simpl; auto.
Qed.

Lemma reachable_constraints (allowed : op -> bool) (db : DB) :
  reachable allowed db -> constraints db.
Proof.
  induction 1; [apply constraints_migration|now apply constraints_exec].
Qed.

(** ** The triggers keep [is_booked] in step with [bookings] *)

Lemma in_sync_insert_booking (c : caller) (uid sid : UUID) (db : DB) :
  in_sync db -> in_sync (commit db (insert_booking c uid sid db)).
Proof.
  intros H. unfold insert_booking.
  repeat (destruct (_ : bool); simpl; auto).
  intros s' Hs'. simpl in *. apply in_fire in Hs'.
  destruct Hs' as (s & Hs & ->). unfold written; simpl.
  destruct (Nat.eqb_spec (Seat.id s) sid) as [E|E]; simpl.
  - split; auto. intros _. exists (Booking.mk (next_uuid db) uid sid).
    split; auto. apply in_app_iff. right. now left.
  - rewrite (H s Hs). split.
    + intros (b & Hb & Eb). exists b. split; auto. apply in_app_iff. auto.
    + intros (b & Hb & Eb). apply in_app_iff in Hb.
      destruct Hb as [Hb|[<-|[]]]; eauto. simpl in Eb. congruence.
Qed.

Lemma freeing_writes (l : list Booking.t) (w : seat_write) :
  In w (flat_map free_seat_on_delete l) <->
  exists b, In b l /\ w = UpdateSeatsSetIsBooked false (Booking.seat_id b).
Proof.
  rewrite in_flat_map. unfold free_seat_on_delete. simpl.
  split; intros (b & Hb & Hw); exists b; split; auto.
  destruct Hw as [Hw|[]]; auto.
Qed.

Lemma in_sync_delete_from_bookings (p : Booking.t -> bool) (db : DB) :
  NoDup (map Booking.seat_id (bookings db)) ->
  in_sync db -> in_sync (delete_from_bookings p db).
Proof.
  intros Hkey H s' Hs'. unfold delete_from_bookings in *. simpl in *.
  apply in_fire in Hs'. destruct Hs' as (s & Hs & ->).
  set (ws := flat_map free_seat_on_delete (filter p (bookings db))).
  rewrite written_id.
  destruct (existsb (fun b => p b && (Booking.seat_id b =? Seat.id s))
                    (bookings db)) eqn:E.
  - apply existsb_exists in E. destruct E as (OLD & HOLD & E).
    apply andb_true_iff in E. destruct E as [Hp E]. apply Nat.eqb_eq in E.
    assert (Hf : Seat.is_booked (written ws s) = false).
    { apply written_freed.
      - intros w Hw. apply freeing_writes in Hw.
        destruct Hw as (b & _ & ->). eauto.
      - right. exists (UpdateSeatsSetIsBooked false (Booking.seat_id OLD)).
        split; auto. apply freeing_writes. exists OLD. split; auto.
        apply filter_In. auto. }
    rewrite Hf. split; [discriminate|].
    intros (b & Hb & Eb). apply filter_In in Hb. destruct Hb as [Hb Hn].
    assert (b = OLD)
      by (apply (NoDup_map_eq _ _ Booking.seat_id (bookings db)); congruence).
    subst b. rewrite Hp in Hn. discriminate.
  - assert (Hno : forall b, In b (bookings db) ->
                            Booking.seat_id b = Seat.id s -> p b = false).
    { intros b Hb Eb. apply (existsb_false_forall _ _ _ E) in Hb.
      rewrite Eb, Nat.eqb_refl, andb_true_r in Hb. exact Hb. }
    rewrite written_untouched.
    + rewrite (H s Hs). split; intros (b & Hb & Eb); exists b; split; auto.
      * apply filter_In. split; auto. now rewrite (Hno b Hb Eb).
      * apply filter_In in Hb. tauto.
    + intros w Hw Ew. apply freeing_writes in Hw.
      destruct Hw as (b & Hb & ->). simpl in Ew. apply filter_In in Hb.
      destruct Hb as [Hb Hp]. rewrite (Hno b Hb Ew) in Hp. discriminate.
Qed.

Lemma in_sync_delete_from_seats (p : Seat.t -> bool) (db : DB) :
  NoDup (map Seat.id (seats db)) ->
  in_sync db -> in_sync (delete_from_seats p db).
Proof.
  intros Hkey H s' Hs'. unfold delete_from_seats, delete_from_bookings in *.
  simpl in *. apply in_fire in Hs'. destruct Hs' as (s & Hs & ->).
  apply filter_In in Hs. destruct Hs as [Hs Hp].
  apply negb_true_iff in Hp.
  assert (Hkept : existsb (fun j => Seat.id s =? j)
                          (map Seat.id (filter p (seats db))) = false).
  { destruct (existsb _ _) eqn:E; auto. apply gone_seat_id in E.
    destruct E as (s1 & Hs1 & Hp1 & E1).
    assert (s1 = s) by (apply (NoDup_map_eq _ _ Seat.id (seats db)); auto).
    congruence. }
  rewrite written_id, written_untouched.
  - rewrite (H s Hs). split; intros (b & Hb & Eb); exists b; split; auto.
    + apply filter_In. split; auto. now rewrite Eb, Hkept.
    + apply filter_In in Hb. tauto.
  - intros w Hw Ew. apply freeing_writes in Hw. destruct Hw as (b & Hb & ->).
    simpl in Ew. apply filter_In in Hb. destruct Hb as [_ Hq].
    rewrite Ew, Hkept in Hq. discriminate.
Qed.

Lemma in_sync_insert_seat (lid : UUID) (r k : Z) (db : DB) :
  constraints db -> in_sync db ->
  in_sync (insert_seat_on_conflict_do_nothing lid r k db).
Proof.
  intros C H. unfold insert_seat_on_conflict_do_nothing.
  destruct (existsb _ _); auto.
  intros s Hs. simpl in *. apply in_app_iff in Hs.
  destruct Hs as [Hs|[<-|[]]]; [now apply H|]. simpl.
  split; [discriminate|]. intros (b & Hb & Eb). exfalso.
  destruct (bookings_seat_id_fkey C b Hb) as (s1 & Hs1 & E1).
  pose proof (seats_fresh C s1 Hs1). lia.
Qed.

Lemma in_sync_insert_grid (lid : UUID) (r k : Z) (db : DB) :
  constraints db -> in_sync db -> in_sync (insert_grid lid r k db).
Proof.
  intros C H.
  cut (constraints (insert_grid lid r k db)
       /\ in_sync (insert_grid lid r k db)); [tauto|].
  unfold insert_grid.
  apply (fold_left_invariant _ _ (fun d => constraints d /\ in_sync d)); auto.
  intros a x Ha. unfold insert_grid_row.
  apply (fold_left_invariant _ _ (fun d => constraints d /\ in_sync d)); auto.
  intros a' x' [Ca Ia]. split.
  - now apply constraints_insert_seat.
  - now apply in_sync_insert_seat.
Qed.

Lemma in_sync_generate_seats (lid : UUID) (db : DB) :
  constraints db -> in_sync db ->
  in_sync (commit db (generate_seats_for_layout lid db)).
Proof.
  intros C H. unfold generate_seats_for_layout.
  destruct (find _ _); simpl; auto.
  apply in_sync_insert_grid.
  - now apply constraints_delete_from_seats.
  - apply in_sync_delete_from_seats; auto. apply (seats_pkey C).
Qed.

Lemma in_sync_update_booking (c : caller) (bid : UUID) (su ss : option UUID)
      (db : DB) :
  constraints db -> in_sync db ->
  in_sync (commit db (update_booking c bid su ss db)).
Proof.
  intros C H. unfold update_booking.
  destruct (negb _); simpl; auto.
  destruct (find _ (bookings db)) as [OLD|] eqn:F; simpl; auto.
  apply find_id_some in F. destruct F as [HOLD Hid].
  set (NEW := Booking.mk (Booking.id OLD) _ _).
  destruct (existsb _ _); simpl; auto.
  destruct (existsb _ _); simpl; auto.
  destruct (negb (auth_user_exists db _)); simpl; auto.
  destruct (negb (seat_exists db _)); simpl; auto.
  clearbody NEW.
  set (upd := fun b : Booking.t => if Booking.id b =? bid then NEW else b).
  assert (Hpk : forall b, In b (bookings db) -> Booking.id b = bid -> b = OLD).
  { intros b Hb Eb.
    apply (NoDup_map_eq _ _ Booking.id (bookings db)); auto; [|congruence].
    apply (bookings_pkey C). }
  assert (Hsk : forall b, In b (bookings db) ->
                          Booking.seat_id b = Booking.seat_id OLD -> b = OLD).
  { intros b Hb Eb.
    apply (NoDup_map_eq _ _ Booking.seat_id (bookings db)); auto.
    apply (bookings_seat_id_key C). }
  intros s' Hs'. simpl in Hs'. apply in_fire in Hs'.
  destruct Hs' as (s & Hs & ->). rewrite written_id. simpl bookings.
  unfold handle_booking_update.
  destruct (Nat.eqb_spec (Booking.seat_id OLD) (Booking.seat_id NEW)) as [E|E];
    simpl negb; cbv iota.
  - unfold written; simpl fold_left. rewrite (H s Hs). split.
    + intros (b & Hb & Eb). exists (upd b). split; [now apply in_map|].
      unfold upd. destruct (Nat.eqb_spec (Booking.id b) bid) as [Ei|Ei]; auto.
      rewrite (Hpk b Hb Ei) in Eb. congruence.
    + intros (b' & Hb' & Eb'). apply in_map_iff in Hb'.
      destruct Hb' as (b & <- & Hb). unfold upd in Eb'.
      destruct (Nat.eqb_spec (Booking.id b) bid) as [Ei|Ei]; eauto.
      exists OLD. split; auto. congruence.
  - unfold written; simpl fold_left. unfold write_seat.
    destruct (Nat.eqb_spec (Seat.id s) (Booking.seat_id OLD)) as [Eo|Eo];
      simpl Seat.id;
      destruct (Nat.eqb_spec (Seat.id s) (Booking.seat_id NEW)) as [En|En];
      simpl Seat.is_booked.
    + congruence.
    + split; [discriminate|]. intros (b' & Hb' & Eb').
      apply in_map_iff in Hb'. destruct Hb' as (b & <- & Hb). unfold upd in Eb'.
      destruct (Nat.eqb_spec (Booking.id b) bid) as [Ei|Ei]; [congruence|].
      exfalso. apply Ei. rewrite (Hsk b Hb); congruence.
    + split; auto. intros _. exists NEW. split; auto.
      apply in_map_iff. exists OLD. split; auto. unfold upd.
      now rewrite Hid, Nat.eqb_refl.
    + rewrite (H s Hs). split.
      * intros (b & Hb & Eb). exists b. split; auto.
        apply in_map_iff. exists b. split; auto. unfold upd.
        destruct (Nat.eqb_spec (Booking.id b) bid) as [Ei|Ei]; auto.
        rewrite (Hpk b Hb Ei) in Eb. congruence.
      * intros (b' & Hb' & Eb'). apply in_map_iff in Hb'.
        destruct Hb' as (b & <- & Hb). unfold upd in Eb'.
        destruct (Nat.eqb_spec (Booking.id b) bid) as [Ei|Ei]; eauto.
        congruence.
Qed.

Lemma in_sync_exec (o : op) (db : DB) :
  is_override o = false -> constraints db -> in_sync db -> in_sync (exec o db).
Proof.
  intros Ho C H. pose proof (frame_exec o db) as F.
  destruct o; simpl in *; eauto using in_sync_frame; try discriminate.
  - now apply in_sync_insert_booking.
  - unfold delete_booking. destruct (bookings_write_using c db); simpl; auto.
    apply in_sync_delete_from_bookings; auto. apply (bookings_seat_id_key C).
  - now apply in_sync_update_booking.
  - unfold delete_seat. destruct (admin_write_using c db); simpl; auto.
    apply in_sync_delete_from_seats; auto. apply (seats_pkey C).
  - unfold delete_auth_user. apply in_sync_delete_from_bookings.
    + apply (bookings_seat_id_key C).
    + exact H.
  - now apply in_sync_generate_seats.
Qed.

Lemma in_sync_migration : in_sync migration.
Proof.
  rewrite migration_eq.
  assert (C : constraints (insert_layout 20 10 empty_db)).
  { apply (constraints_frame empty_db _); [|apply constraints_empty].
    unfold booking_frame; simpl; auto. }
  apply in_sync_generate_seats; auto.
  intros s [].
Qed.

(** ** Reachable states *)

Lemma reachable_ann_booked : reachable no_override ann_booked.
Proof.
  unfold ann_booked, theatre_open.
  do 4 (apply reachable_exec; [|reflexivity]).
  apply reachable_migration.
Qed.

Lemma reachable_weaken (db : DB) :
  reachable no_override db -> reachable any_op db.
Proof.
  induction 1; [apply reachable_migration|now apply reachable_exec].
Qed.

(** C1.  In every state reached from the migration by committed operations
    other than the admin freeze / unfreeze override (booking insert, delete
    and update, the cascading deletes of users and seats, seat regeneration
    and account provisioning), a seat has [is_booked = true] exactly when a
    booking row references it: the triggers [mark_seat_booked],
    [free_seat_on_delete] and [handle_booking_update] preserve the
    invariant. *)
Theorem is_booked_iff_booking_exists (db : DB) :
  reachable no_override db ->
  forall s, In s (seats db) ->
            (Seat.is_booked s = true <->
             exists b, In b (bookings db) /\ Booking.seat_id b = Seat.id s).
Proof.
  intros R. change (in_sync db).
  induction R as [|db o R IH Ho].
  - apply in_sync_migration.
  - apply in_sync_exec; auto.
    + unfold no_override in Ho. now apply negb_true_iff in Ho.
    + apply (reachable_constraints _ _ R).
Qed.

Lemma is_booked_iff_booking_exists_witness : in_sync ann_booked.
Proof.
  exact (is_booked_iff_booking_exists ann_booked reachable_ann_booked).
Defined.

(** C2.  In every reachable state, whatever the sequence of operations
    (the admin override included), each [user_id] and each [seat_id] occurs
    in at most one booking row: the UNIQUE(user_id) and UNIQUE seat_id
    constraints of [bookings] hold. *)
Theorem at_most_one_booking (db : DB) :
  reachable any_op db ->
  forall u s, bookings_of_user db u <= 1 /\ bookings_of_seat db s <= 1.
Proof.
  intros R u s. apply reachable_constraints in R.
  unfold bookings_of_user, bookings_of_seat. split.
  - apply count_key_le_1, (bookings_user_id_key R).
  - apply count_key_le_1, (bookings_seat_id_key R).
Qed.

Lemma at_most_one_booking_witness :
  bookings_of_user ann_booked ann <= 1
  /\ bookings_of_seat ann_booked 195 <= 1.
Proof.
  apply (at_most_one_booking ann_booked).
  apply reachable_weaken, reachable_ann_booked.
Defined.

(** Run one after the other, a second booking of the same seat, or a
    second booking by the same user, does not commit, whoever the callers
    are: the policy or one of the two UNIQUE constraints rejects it. *)
Lemma serial_booking_conflict (c1 c2 : caller) (u1 s1 u2 s2 : UUID)
      (db db1 : DB) :
  insert_booking c1 u1 s1 db = Ok db1 ->
  s2 = s1 \/ u2 = u1 ->
  is_ok (insert_booking c2 u2 s2 db1) = false
  /\ commit db1 (insert_booking c2 u2 s2 db1) = db1.
Proof.
  intros H1 Hsame.
  assert (Hb : In (Booking.mk (next_uuid db) u1 s1) (bookings db1)).
  { unfold insert_booking in H1.
    destruct (negb _); [discriminate|].
    destruct (existsb _ _); [discriminate|].
    destruct (existsb _ _); [discriminate|].
    destruct (negb _); [discriminate|].
    destruct (negb _); [discriminate|].
    inversion H1; subst db1. simpl. apply in_app_iff. right. now left. }
  unfold insert_booking. destruct (negb _); simpl; auto.
  destruct (existsb (fun b => Booking.seat_id b =? s2) (bookings db1)) eqn:Es;
    simpl; auto.
  destruct (existsb (fun b => Booking.user_id b =? u2) (bookings db1)) eqn:Eu;
    simpl; auto.
  exfalso. apply (existsb_false_forall _ _ _ Es) in Hb as Hs.
  apply (existsb_false_forall _ _ _ Eu) in Hb as Hu. simpl in Hs, Hu.
  apply Nat.eqb_neq in Hs, Hu. destruct Hsame; congruence.
Qed.

(** ** The booking policy *)

Lemma find_by_key (A : Type) (pk : A -> nat) (l : list A) (x : A) :
  NoDup (map pk l) -> In x l -> find (fun y => pk y =? pk x) l = Some x.
Proof.
  intros Hn Hx. destruct (find _ l) as [y|] eqn:F.
  - apply find_id_some in F. destruct F as [Hy E].
    f_equal. apply (NoDup_map_eq _ _ pk l); auto.
  - apply (find_none _ _ F) in Hx. rewrite Nat.eqb_refl in Hx. discriminate.
Qed.

Lemma users_can_book_spec (db : DB) (C : UUID) (B : Booking.t) :
  NoDup (map Seat.id (seats db)) ->
  users_can_book db C B = true <-> may_book db C B.
Proof.
  intros Hpk. unfold users_can_book, may_book, user_has_booking.
  rewrite !andb_true_iff, Nat.eqb_eq, negb_true_iff.
  split.
  - intros [[HC Hu] Hs]. split; [exact HC|]. split.
    + intros b Hb E. apply (existsb_false_forall _ _ _ Hu) in Hb.
      apply Nat.eqb_neq in Hb. auto.
    + unfold seat_is_available in Hs.
      destruct (find _ (seats db)) as [s|] eqn:F; [|discriminate].
      apply find_id_some in F. exists s. destruct F. repeat split; auto.
      simpl in Hs. now destruct (Seat.is_booked s).
  - intros (HC & Hu & s & Hs & E & Hb). split; [split; [exact HC|]|].
    + destruct (existsb _ _) eqn:X; auto. apply existsb_exists in X.
      destruct X as (b & Hin & Eb). apply Nat.eqb_eq in Eb.
      now destruct (Hu b Hin).
    + unfold seat_is_available. rewrite <- E, (find_by_key _ Seat.id); auto.
      now rewrite Hb.
Qed.

(** C3.  For an authenticated caller [C] without the admin role, the
    access policy admits the insert of a booking row [B] exactly when
    [B.user_id = C], no booking row of [C] exists and the target seat's
    [is_booked] is false; an insert that fails one of the three is rejected
    by the policy and leaves the database as it was. *)
Theorem booking_insert_policy (db : DB) (C : UUID) (B : Booking.t) :
  NoDup (map Seat.id (seats db)) ->
  has_role db C admin = false ->
  (bookings_insert_check (authenticated C) db B = true <-> may_book db C B)
  /\ (~ may_book db C B ->
      insert_booking (authenticated C) (Booking.user_id B) (Booking.seat_id B)
                     db = Err RlsViolation
      /\ commit db (insert_booking (authenticated C) (Booking.user_id B)
                                   (Booking.seat_id B) db) = db).
Proof.
  intros Hpk Hadm.
  assert (Hiff : bookings_insert_check (authenticated C) db B = true
                 <-> may_book db C B).
  { unfold bookings_insert_check, admins_can_manage.
    rewrite Hadm, orb_false_r. now apply users_can_book_spec. }
  split; [exact Hiff|]. intros Hno.
  assert (Hrej : insert_booking (authenticated C) (Booking.user_id B)
                                (Booking.seat_id B) db = Err RlsViolation).
  { unfold insert_booking.
    replace (bookings_insert_check (authenticated C) db
               (Booking.mk (next_uuid db) (Booking.user_id B)
                           (Booking.seat_id B)))
      with (bookings_insert_check (authenticated C) db B) by reflexivity.
    destruct (bookings_insert_check (authenticated C) db B); auto.
    exfalso. apply Hno, Hiff. reflexivity. }
  rewrite Hrej. auto.
Qed.

Lemma booking_insert_policy_witness :
  (bookings_insert_check (authenticated 10) small_hall (Booking.mk 0 10 1)
   = true <-> may_book small_hall 10 (Booking.mk 0 10 1))
  /\ (~ may_book small_hall 10 (Booking.mk 0 10 1) ->
      insert_booking (authenticated 10) 10 1 small_hall = Err RlsViolation
      /\ commit small_hall (insert_booking (authenticated 10) 10 1 small_hall)
         = small_hall).
Proof.
  apply (booking_insert_policy small_hall 10 (Booking.mk 0 10 1)).
  - simpl. repeat constructor; simpl; intuition discriminate.
  - reflexivity.
Defined.

(** ** Seat reassignment *)

(** C5.  An admitted update of a booking row whose seat changes runs, in
    the statement that updates the row, the two writes of
    [handle_booking_update]: the old seat's [is_booked] becomes false and
    the new seat's becomes true.  The statement takes the database from
    [db] to [db'] in one step: in [db] (where the constraints and the
    synchronisation invariant hold) the old seat appears booked and the new
    one free, in [db'] the new one appears booked and the old one free, and
    no state in which both or neither appear booked is committed.  When the
    seat does not change the trigger executes no statement and [seats] is
    left as it was. *)
Theorem booking_update_moves_the_flag
        (c : caller) (bid : UUID) (su ss : option UUID) (db db' : DB)
        (OLD : Booking.t) :
  bookings_write_using c db = true ->
  find (fun b => Booking.id b =? bid) (bookings db) = Some OLD ->
  update_booking c bid su ss db = Ok db' ->
  let NEW := Booking.mk (Booking.id OLD)
                        (or_default su (Booking.user_id OLD))
                        (or_default ss (Booking.seat_id OLD)) in
  seats db' = run_seat_writes (handle_booking_update OLD NEW) (seats db)
  /\ (Booking.seat_id OLD <> Booking.seat_id NEW ->
      handle_booking_update OLD NEW
      = [UpdateSeatsSetIsBooked false (Booking.seat_id OLD);
         UpdateSeatsSetIsBooked true (Booking.seat_id NEW)]
      /\ appears_booked db' (Booking.seat_id OLD) = false
      /\ appears_booked db' (Booking.seat_id NEW) = true
      /\ (constraints db -> in_sync db ->
          appears_booked db (Booking.seat_id OLD) = true
          /\ appears_booked db (Booking.seat_id NEW) = false))
  /\ (Booking.seat_id OLD = Booking.seat_id NEW ->
      handle_booking_update OLD NEW = [] /\ seats db' = seats db).
Proof.
  intros Hus F Hup NEW. unfold update_booking in Hup.
  rewrite Hus, F in Hup. change (negb true) with false in Hup.
  cbv beta iota zeta in Hup. fold NEW in Hup.
  destruct (existsb _ _) eqn:Es; [discriminate|].
  destruct (existsb (fun b => Booking.user_id b =? _) _); [discriminate|].
  destruct (negb (auth_user_exists db _)); [discriminate|].
  destruct (seat_exists db (Booking.seat_id NEW)) eqn:Ex; [|discriminate].
  change (negb true) with false in Hup. cbv iota in Hup.
  inversion Hup; subst db'; clear Hup.
  apply find_id_some in F. destruct F as [HOLD Hid].
  set (old := Booking.seat_id OLD) in *.
  set (new := Booking.seat_id NEW) in *.
  split; [reflexivity|]. unfold handle_booking_update. fold old new.
  split; intros E.
  - apply Nat.eqb_neq in E. rewrite E. simpl negb. cbv iota.
    apply Nat.eqb_neq in E. split; [reflexivity|].
    unfold appears_booked. simpl seats. rewrite run_seat_writes_map.
    split; [|split].
    + destruct (existsb _ (map _ _)) eqn:X; auto. apply existsb_exists in X.
      destruct X as (s' & Hs' & Hb). apply in_map_iff in Hs'.
      destruct Hs' as (s & <- & Hs). unfold written in Hb. simpl in Hb.
      destruct (Nat.eqb_spec (Seat.id s) old) as [Eo|Eo]; simpl in Hb;
        destruct (Nat.eqb_spec (Seat.id s) new) as [En|En]; simpl in Hb;
        try congruence.
      * rewrite Eo, Nat.eqb_refl in Hb. discriminate.
      * apply andb_true_iff in Hb. destruct Hb as [Hb _].
        apply Nat.eqb_eq in Hb. congruence.
      * apply andb_true_iff in Hb. destruct Hb as [Hb _].
        apply Nat.eqb_eq in Hb. congruence.
    + unfold seat_exists in Ex. apply existsb_exists in Ex.
      destruct Ex as (s & Hs & En). apply Nat.eqb_eq in En.
      apply existsb_exists. exists (written
        [UpdateSeatsSetIsBooked false old; UpdateSeatsSetIsBooked true new] s).
      split; [now apply in_map|]. rewrite written_id, En, Nat.eqb_refl.
      unfold written. simpl.
      destruct (Nat.eqb_spec (Seat.id s) old) as [Eo|Eo]; simpl;
        rewrite En, Nat.eqb_refl; reflexivity.
    + intros C H. split.
      * destruct (bookings_seat_id_fkey C OLD HOLD) as (s & Hs & Eo).
        apply existsb_exists. exists s. split; auto. fold old in Eo.
        rewrite Eo, Nat.eqb_refl. simpl. apply (H s Hs). exists OLD. auto.
      * destruct (existsb _ (seats db)) eqn:X; auto.
        apply existsb_exists in X.
        destruct X as (s & Hs & Hb). apply andb_true_iff in Hb.
        destruct Hb as [En Hb]. apply Nat.eqb_eq in En.
        apply (H s Hs) in Hb. destruct Hb as (b & Hb & Eb).
        assert (Hne : Booking.id b <> bid).
        { intros Ei. assert (b = OLD).
          { apply (NoDup_map_eq _ _ Booking.id (bookings db)); auto;
              [apply (bookings_pkey C)|congruence]. }
          subst b. fold old in Eb. congruence. }
        assert (Hin : In b (filter (fun b => negb (Booking.id b =? bid))
                                   (bookings db))).
        { apply filter_In. split; auto. apply Nat.eqb_neq in Hne.
          now rewrite Hne. }
        apply (existsb_false_forall _ _ _ Es) in Hin.
        apply Nat.eqb_neq in Hin. fold new in Hin. congruence.
  - apply Nat.eqb_eq in E. rewrite E. simpl. auto.
Qed.

Lemma booking_update_moves_the_flag_witness :
  let OLD := Booking.mk 12 11 2 in
  let NEW := Booking.mk 12 11 1 in
  seats small_hall_moved
  = run_seat_writes (handle_booking_update OLD NEW) (seats small_hall)
  /\ (Booking.seat_id OLD <> Booking.seat_id NEW ->
      handle_booking_update OLD NEW
      = [UpdateSeatsSetIsBooked false 2; UpdateSeatsSetIsBooked true 1]
      /\ appears_booked small_hall_moved 2 = false
      /\ appears_booked small_hall_moved 1 = true
      /\ (constraints small_hall -> in_sync small_hall ->
          appears_booked small_hall 2 = true
          /\ appears_booked small_hall 1 = false))
  /\ (Booking.seat_id OLD = Booking.seat_id NEW ->
      handle_booking_update OLD NEW = [] /\ seats small_hall_moved
                                            = seats small_hall).
Proof.
  apply (booking_update_moves_the_flag
           (authenticated 14) 12 None (Some 1) small_hall small_hall_moved
           (Booking.mk 12 11 2)); reflexivity.
Defined.

(** ** Layout regeneration *)

Lemma in_range1 (n r : Z) : In r (range1 n) <-> (1 <= r <= n)%Z.
Proof.
  unfold range1. rewrite in_map_iff. split.
  - intros (m & <- & Hm). apply in_seq in Hm. lia.
  - intros H. exists (Z.to_nat r). split; [lia|]. apply in_seq. lia.
Qed.

Lemma NoDup_range1 (n : Z) : NoDup (range1 n).
Proof.
  unfold range1. generalize (seq_NoDup (Z.to_nat n) 1).
  generalize (seq 1 (Z.to_nat n)) as l.
  induction l as [|a l IH]; simpl; intros H; constructor;
    inversion H as [|? ? Hn Hl]; subst; auto.
  rewrite in_map_iff. intros (m & E & Hm).
  apply Nat2Z.inj in E. now subst m.
Qed.

Lemma length_range1 (n : Z) : List.length (range1 n) = Z.to_nat n.
Proof. unfold range1. now rewrite length_map, length_seq. Qed.

Lemma in_grid_cells (lid : UUID) (rs ks : list Z) (c : UUID * Z * Z) :
  In c (grid_cells lid rs ks) <->
  exists r k, c = (lid, r, k) /\ In r rs /\ In k ks.
Proof.
  unfold grid_cells. rewrite in_flat_map. split.
  - intros (r & Hr & Hc). apply in_map_iff in Hc.
    destruct Hc as (k & <- & Hk). eauto.
  - intros (r & k & -> & Hr & Hk). exists r. split; auto.
    apply in_map_iff. eauto.
Qed.

Lemma NoDup_grid_cells (lid : UUID) (rs ks : list Z) :
  NoDup rs -> NoDup ks -> NoDup (grid_cells lid rs ks).
Proof.
  intros Hr Hk. induction Hr as [|r rs Hnin Hr IH]; simpl; [constructor|].
  apply NoDup_app; auto.
  - clear - Hk. induction Hk as [|k ks Hnin Hk IH]; simpl; constructor; auto.
    rewrite in_map_iff. intros (k' & E & Hk'). inversion E. now subst k'.
  - intros c Hc Hc'. apply in_map_iff in Hc. destruct Hc as (k & <- & _).
    apply in_grid_cells in Hc'. destruct Hc' as (r' & k' & E & Hr' & _).
    inversion E. now subst r'.
Qed.

Lemma length_grid_cells (lid : UUID) (rs ks : list Z) :
  List.length (grid_cells lid rs ks) = List.length rs * List.length ks.
Proof.
  induction rs as [|r rs IH]; simpl; auto.
  now rewrite length_app, length_map, IH.
Qed.

Lemma fold_left_map (A B C : Type) (f : A -> C -> A) (g : B -> C)
      (l : list B) (a : A) :
  fold_left f (map g l) a = fold_left (fun x y => f x (g y)) l a.
Proof. revert a. induction l as [|b l IH]; simpl; auto. Qed.

Lemma insert_grid_cells (lid : UUID) (R C : Z) (db : DB) :
  insert_grid lid R C db
  = fold_left insert_cell (grid_cells lid (range1 R) (range1 C)) db.
Proof.
  unfold insert_grid, grid_cells. revert db.
  induction (range1 R) as [|r rs IH]; intros db; simpl; auto.
  rewrite fold_left_app, <- IH. f_equal.
  unfold insert_grid_row. now rewrite fold_left_map.
Qed.

Lemma occupies_spec (c : UUID * Z * Z) (s : Seat.t) :
  occupies c s = true <-> cell_of s = c.
Proof.
  destruct c as [[l r] k]. unfold occupies. simpl. apply at_cell_spec.
Qed.

Lemma insert_cell_unfold (db : DB) (c : UUID * Z * Z) :
  insert_cell db c
  = if existsb (occupies c) (seats db) then db
    else bump_uuid
           (set_seats (seats db ++ [Seat.mk (next_uuid db) (fst (fst c))
                                            (snd (fst c)) (snd c) false]) db).
Proof. reflexivity. Qed.

(** The grid loop appends, for every cell that no seat occupies and in loop
    order, one fresh unbooked seat; it touches no existing row. *)
Lemma insert_cells_seats (cs : list (UUID * Z * Z)) :
  NoDup cs ->
  forall db,
  exists N,
    seats (fold_left insert_cell cs db) = seats db ++ N
    /\ map cell_of N
       = filter (fun c => negb (existsb (occupies c) (seats db))) cs
    /\ (forall s, In s N ->
                  Seat.is_booked s = false /\ next_uuid db <= Seat.id s).
Proof.
  induction 1 as [|c cs Hnin Hnd IH]; intros db; simpl.
  - exists []. rewrite app_nil_r. repeat split; auto; contradiction.
  - rewrite insert_cell_unfold.
    destruct (existsb (occupies c) (seats db)) eqn:E; simpl.
    + apply IH.
    + destruct (IH (bump_uuid
                      (set_seats
                         (seats db ++ [Seat.mk (next_uuid db) (fst (fst c))
                                               (snd (fst c)) (snd c) false])
                         db))) as (N & HN & Hc & Hf).
      simpl in HN, Hc, Hf.
      exists (Seat.mk (next_uuid db) (fst (fst c)) (snd (fst c)) (snd c) false
              :: N).
      split; [|split].
      * rewrite HN, <- app_assoc. reflexivity.
      * simpl. rewrite Hc. unfold cell_of at 1. simpl.
        rewrite <- !surjective_pairing. f_equal.
        apply filter_ext_in. intros c' Hc'. f_equal.
        rewrite existsb_app. simpl. rewrite orb_false_r.
        destruct (occupies c' _) eqn:O; [|now rewrite orb_false_r].
        apply occupies_spec in O. unfold cell_of in O. simpl in O.
        rewrite <- !surjective_pairing in O. congruence.
      * intros s [<-|Hs]; simpl; [auto|].
        destruct (Hf s Hs). split; auto. lia.
Qed.

Lemma delete_from_seats_seats (p : Seat.t -> bool) (db : DB) :
  NoDup (map Seat.id (seats db)) ->
  seats (delete_from_seats p db) = filter (fun s => negb (p s)) (seats db).
Proof.
  intros Hpk. unfold delete_from_seats, delete_from_bookings. simpl.
  rewrite run_seat_writes_map.
  etransitivity; [apply map_ext_in with (g := fun s => s)|apply map_id].
  intros s Hs. apply filter_In in Hs.
  destruct Hs as [Hs Hp]. apply negb_true_iff in Hp.
  apply written_untouched. intros w Hw Ew.
  apply freeing_writes in Hw. destruct Hw as (b & Hb & ->). simpl in Ew.
  apply filter_In in Hb. destruct Hb as [_ Hq].
  apply gone_seat_id in Hq. destruct Hq as (s1 & Hs1 & Hp1 & E1).
  assert (s1 = s) by (apply (NoDup_map_eq _ _ Seat.id (seats db)); congruence).
  congruence.
Qed.

Lemma filter_filter_and (A : Type) (p q : A -> bool) (l : list A) :
  filter p (filter q l) = filter (fun x => q x && p x) l.
Proof.
  induction l as [|a l IH]; simpl; auto.
  destruct (q a); simpl; [destruct (p a)|]; now rewrite IH.
Qed.

Lemma length_filter_split (A : Type) (p q : A -> bool) (l : list A) :
  List.length (filter p l)
  = List.length (filter (fun x => p x && q x) l)
    + List.length (filter (fun x => p x && negb (q x)) l).
Proof.
  induction l as [|a l IH]; simpl; auto.
  destruct (p a), (q a); simpl; lia.
Qed.

(** Cells occupied by a seat and seats lying on a cell are as many, when
    neither list repeats a cell. *)
Lemma matched_lengths (A B : Type) (key : B -> A) (m : A -> B -> bool)
      (cs : list A) (ss : list B) :
  (forall c s, m c s = true <-> key s = c) ->
  NoDup cs -> NoDup (map key ss) ->
  List.length (filter (fun c => existsb (m c) ss) cs)
  = List.length (filter (fun s => existsb (fun c => m c s) cs) ss).
Proof.
  intros Hm Hc Hs.
  rewrite <- (length_map key (filter _ ss)).
  apply Permutation_length, NoDup_Permutation.
  - now apply NoDup_filter.
  - now apply NoDup_map_filter.
  - intros x. rewrite filter_In, in_map_iff, existsb_exists. split.
    + intros [Hx (s & Hin & Hms)]. apply Hm in Hms. exists s. split; auto.
      apply filter_In. split; auto. apply existsb_exists. exists x.
      split; auto. now apply Hm.
    + intros (s & <- & Hf). apply filter_In in Hf. destruct Hf as [Hin He].
      apply existsb_exists in He. destruct He as (c & Hc' & Hmc).
      apply Hm in Hmc. subst c. split; auto. exists s. split; auto.
      now apply Hm.
Qed.

Lemma on_grid_spec (lid : UUID) (R C : Z) (s : Seat.t) :
  existsb (fun c => occupies c s) (grid_cells lid (range1 R) (range1 C))
  = (Seat.seat_layout_id s =? lid) && in_grid R C s.
Proof.
  apply eq_true_iff_eq. rewrite existsb_exists. unfold in_grid.
  rewrite !andb_true_iff, Nat.eqb_eq, !Z.leb_le. split.
  - intros (c & Hc & Ho). apply in_grid_cells in Hc.
    destruct Hc as (r & k & -> & Hr & Hk).
    apply in_range1 in Hr. apply in_range1 in Hk.
    apply occupies_spec in Ho. unfold cell_of in Ho. inversion Ho. lia.
  - intros (Hl & ((Hr1 & Hr2) & Hk1) & Hk2).
    exists (cell_of s). split; [|now apply occupies_spec].
    apply in_grid_cells. exists (Seat.row_num s), (Seat.col_num s).
    unfold cell_of. rewrite Hl, !in_range1. repeat split; auto.
Qed.

Lemma filter_all (A : Type) (p : A -> bool) (l : list A) :
  (forall x, In x l -> p x = true) -> filter p l = l.
Proof.
  intros H. apply forallb_filter_id, forallb_forall, H.
Qed.

Lemma count_cell_le_1 (A K : Type) (key : A -> K) (m : A -> bool) (c : K)
      (l : list A) :
  (forall x, m x = true <-> key x = c) ->
  NoDup (map key l) -> List.length (filter m l) <= 1.
Proof.
  intros Hm. induction l as [|a l IH]; simpl; intros H; [lia|].
  inversion H as [|? ? Hn Hl]; subst.
  destruct (m a) eqn:E; simpl; auto.
  assert (Hz : filter m l = []).
  { destruct (filter m l) as [|x r] eqn:F; auto. exfalso.
    assert (Hx : In x (filter m l)) by (rewrite F; now left).
    apply filter_In in Hx. destruct Hx as [Hx Hk].
    apply Hm in E. apply Hm in Hk. apply Hn. rewrite E, <- Hk.
    now apply in_map. }
  rewrite Hz. simpl. lia.
Qed.

(** C6 as stated fails: with ann's booked seat in row 20, shrinking the
    layout to 10 rows of 16 columns and regenerating leaves 161 seats, not
    10 * 16 = 160; the booked seat outside the new grid is kept. *)
Lemma regenerate_not_exactly_the_grid : ~ regenerate_yields_exactly_the_grid.
Proof.
  intros H.
  assert (R : reachable no_override layout_shrunk).
  { unfold layout_shrunk. apply reachable_exec; [|reflexivity].
    apply reachable_ann_booked. }
  assert (X : Z.of_nat (List.length (layout_seats seats_regenerated 0))
              = (SeatLayout.total_rows (SeatLayout.mk 0%nat 10 16)
                 * SeatLayout.total_columns (SeatLayout.mk 0%nat 10 16))%Z).
  { apply (H layout_shrunk seats_regenerated 0 (SeatLayout.mk 0 10 16) R);
      vm_compute; reflexivity. }
  vm_compute in X. discriminate X.
Qed.

(** C6, amended.  Regenerating a layout of [R] rows and [C] columns
    commits and
    - keeps every previously booked seat as it was (same row, hence same
      id, position and flag), inside the grid or not;
    - deletes every previously unbooked seat of the layout: no seat keeps
      its id;
    - leaves exactly one seat in every cell of the grid [1..R] x [1..C];
    - so the layout ends with [max(R,0) * max(C,0)] seats plus the booked
      seats that lie outside the grid;
    - leaves nothing else: every seat is either a seat of before, booked
      or of another layout, or a new row of the layout, with an id that no
      seat had, unbooked and inside the grid;
    - and, for [R] and [C] not negative, leaves [R * C] seats exactly when
      no booked seat of the layout lies outside the grid. *)
Theorem regenerate_keeps_booked_and_fills_the_grid
        (db : DB) (lid : UUID) (l : SeatLayout.t) :
  constraints db ->
  find (fun l => SeatLayout.id l =? lid) (seat_layout db) = Some l ->
  let R := SeatLayout.total_rows l in
  let C := SeatLayout.total_columns l in
  exists db',
    generate_seats_for_layout lid db = Ok db'
    /\ (forall s, In s (seats db) -> Seat.is_booked s = true ->
                  In s (seats db'))
    /\ (forall s, In s (seats db) -> Seat.seat_layout_id s = lid ->
                  Seat.is_booked s = false ->
                  ~ In (Seat.id s) (map Seat.id (seats db')))
    /\ (forall r k, (1 <= r <= R)%Z -> (1 <= k <= C)%Z ->
                    List.length (filter (at_cell lid r k) (seats db')) = 1)
    /\ List.length (layout_seats db' lid)
       = Z.to_nat R * Z.to_nat C
         + List.length (booked_outside_grid db lid R C)
    /\ (forall s, In s (seats db') ->
                  (In s (seats db)
                   /\ (Seat.seat_layout_id s <> lid
                       \/ Seat.is_booked s = true))
                  \/ (~ In (Seat.id s) (map Seat.id (seats db))
                      /\ Seat.seat_layout_id s = lid
                      /\ Seat.is_booked s = false
                      /\ (1 <= Seat.row_num s <= R)%Z
                      /\ (1 <= Seat.col_num s <= C)%Z))
    /\ ((0 <= R)%Z -> (0 <= C)%Z ->
        (Z.of_nat (List.length (layout_seats db' lid)) = (R * C)%Z
         <-> booked_outside_grid db lid R C = [])).
Proof.
  intros K F R C.
  pose proof (constraints_generate_seats lid db K) as K'.
  unfold generate_seats_for_layout in *. rewrite F in *. simpl in K'.
  fold R C in K' |- *.
  set (p := fun s => (Seat.seat_layout_id s =? lid) && negb (Seat.is_booked s))
    in *.
  set (db1 := delete_from_seats p db) in *.
  assert (K1 : constraints db1) by now apply constraints_delete_from_seats.
  assert (S1 : seats db1 = filter (fun s => negb (p s)) (seats db))
    by (apply delete_from_seats_seats, (seats_pkey K)).
  assert (N1 : next_uuid db1 = next_uuid db) by reflexivity.
  set (cells := grid_cells lid (range1 R) (range1 C)).
  assert (Hcells : NoDup cells)
    by (apply NoDup_grid_cells; apply NoDup_range1).
  rewrite insert_grid_cells in *. fold cells in K' |- *.
  destruct (insert_cells_seats cells Hcells db1) as (N & HN & Hc & Hf).
  set (db' := fold_left insert_cell cells db1) in *.
  exists db'. split; [reflexivity|].
  assert (HNl : forall s, In s N -> Seat.seat_layout_id s = lid).
  { intros s Hs. assert (Hin : In (cell_of s) (map cell_of N))
      by now apply in_map.
    rewrite Hc in Hin. apply filter_In in Hin. destruct Hin as [Hin _].
    apply in_grid_cells in Hin. destruct Hin as (r & k & E & _).
    unfold cell_of in E. now inversion E. }
  assert (Hcount : List.length (layout_seats db' lid)
                   = Z.to_nat R * Z.to_nat C
                     + List.length (booked_outside_grid db lid R C)).
  { unfold layout_seats, booked_outside_grid, layout_seats.
    rewrite HN, filter_app, length_app.
    rewrite (filter_all _ _ N)
      by (intros s Hs; rewrite (HNl s Hs); apply Nat.eqb_refl).
    rewrite <- (length_map cell_of N), Hc.
    pose proof (filter_length (fun c => existsb (occupies c) (seats db1))
                              cells) as Hsplit.
    unfold cells at 3 in Hsplit.
    rewrite length_grid_cells, !length_range1 in Hsplit.
    rewrite (matched_lengths _ _ cell_of occupies) in Hsplit;
      [|intros c s; apply occupies_spec|exact Hcells
       |apply (seats_cell_key K1)].
    rewrite S1, !filter_filter_and in *.
    rewrite (length_filter_split _ _ (in_grid R C) (seats db)).
    match goal with
    | |- ?a + ?b + ?n = ?rc + ?c =>
        match type of Hsplit with
        | ?a' + ?n' = _ =>
            replace a with a'; [replace c with b; [lia|]|]
        end
    end.
    + f_equal. apply filter_ext. intros s. unfold p.
      destruct (Seat.seat_layout_id s =? lid), (Seat.is_booked s),
        (in_grid R C s); reflexivity.
    + f_equal. apply filter_ext. intros s. unfold cells.
      rewrite on_grid_spec. unfold p.
      destruct (Seat.seat_layout_id s =? lid), (Seat.is_booked s),
        (in_grid R C s); reflexivity. }
  split; [|split; [|split; [|split; [|split]]]].
  - intros s Hs Hb. rewrite HN, in_app_iff. left. rewrite S1.
    apply filter_In. split; auto. unfold p. rewrite Hb. simpl.
    now rewrite andb_false_r.
  - intros s Hs Hl Hb Hin. rewrite HN, map_app, in_app_iff in Hin.
    destruct Hin as [Hin|Hin]; apply in_map_iff in Hin;
      destruct Hin as (s' & E & Hs').
    + rewrite S1 in Hs'. apply filter_In in Hs'. destruct Hs' as [Hs' Hp].
      assert (s' = s)
        by (apply (NoDup_map_eq _ _ Seat.id (seats db)); auto;
            apply (seats_pkey K)).
      subst s'. unfold p in Hp. rewrite Hl, Hb, Nat.eqb_refl in Hp.
      discriminate.
    + destruct (Hf s' Hs') as [_ Hge]. pose proof (seats_fresh K s Hs). lia.
  - intros r k Hr Hk.
    assert (Hle : List.length (filter (at_cell lid r k) (seats db')) <= 1).
    { apply (count_cell_le_1 _ _ cell_of _ (lid, r, k)).
      - intros x. apply at_cell_spec.
      - apply (seats_cell_key K'). }
    assert (Hex : exists s, In s (seats db') /\ at_cell lid r k s = true).
    { assert (Hin : In (lid, r, k) cells).
      { apply in_grid_cells. exists r, k. rewrite !in_range1. auto. }
      destruct (existsb (occupies (lid, r, k)) (seats db1)) eqn:O.
      - apply existsb_exists in O. destruct O as (s & Hs & Ho).
        exists s. rewrite HN, in_app_iff. auto.
      - assert (Hm : In (lid, r, k) (map cell_of N)).
        { rewrite Hc. apply filter_In. split; auto. now rewrite O. }
        apply in_map_iff in Hm. destruct Hm as (s & E & Hs).
        exists s. rewrite HN, in_app_iff. split; auto.
        now apply at_cell_spec. }
    destruct Hex as (s & Hs & Ho).
    assert (Hin : In s (filter (at_cell lid r k) (seats db')))
      by (apply filter_In; auto).
    destruct (filter (at_cell lid r k) (seats db')); [contradiction|].
    simpl in *. lia.
  - exact Hcount.
  - intros s Hs. rewrite HN, in_app_iff in Hs. destruct Hs as [Hs|Hs].
    + left. rewrite S1 in Hs. apply filter_In in Hs.
      destruct Hs as [Hs Hp]. split; auto. unfold p in Hp.
      destruct (Nat.eqb_spec (Seat.seat_layout_id s) lid); auto.
      destruct (Seat.is_booked s); auto; discriminate.
    + right. destruct (Hf s Hs) as [Hb Hge].
      assert (Hin : In (cell_of s) (map cell_of N)) by now apply in_map.
      rewrite Hc in Hin. apply filter_In in Hin. destruct Hin as [Hin _].
      apply in_grid_cells in Hin. destruct Hin as (r & k & E & Hr & Hk).
      apply in_range1 in Hr. apply in_range1 in Hk.
      unfold cell_of in E. inversion E; subst r k.
      repeat split; auto; try lia.
      intros Hid. apply in_map_iff in Hid. destruct Hid as (s0 & E0 & Hs0).
      pose proof (seats_fresh K s0 Hs0). lia.
  - intros HR HC. rewrite Hcount, Nat2Z.inj_add, Nat2Z.inj_mul, !Z2Nat.id
      by assumption.
    destruct (booked_outside_grid db lid R C); simpl List.length.
    + split; auto. intros _. lia.
    + split; [lia|discriminate].
Qed.

Lemma constraints_small_hall : constraints small_hall.
Proof.
  constructor; simpl;
    try (repeat constructor; simpl; intuition congruence).
  - unfold cell_of. simpl. repeat constructor; simpl; intuition congruence.
  - intros b [<-|[]]. exists (Seat.mk 2 0 1 2 true). simpl. auto.
  - intros s [<-|[<-|[]]]; simpl; lia.
  - intros b [<-|[]]; simpl; lia.
Qed.

Lemma regenerate_keeps_booked_and_fills_the_grid_witness :
  exists db',
    generate_seats_for_layout 0 small_hall = Ok db'
    /\ (forall s, In s (seats small_hall) -> Seat.is_booked s = true ->
                  In s (seats db'))
    /\ (forall s, In s (seats small_hall) -> Seat.seat_layout_id s = 0 ->
                  Seat.is_booked s = false ->
                  ~ In (Seat.id s) (map Seat.id (seats db')))
    /\ (forall r k, (1 <= r <= 1)%Z -> (1 <= k <= 1)%Z ->
                    List.length (filter (at_cell 0 r k) (seats db')) = 1)
    /\ List.length (layout_seats db' 0)
       = Z.to_nat 1 * Z.to_nat 1
         + List.length (booked_outside_grid small_hall 0 1 1)
    /\ (forall s, In s (seats db') ->
                  (In s (seats small_hall)
                   /\ (Seat.seat_layout_id s <> 0
                       \/ Seat.is_booked s = true))
                  \/ (~ In (Seat.id s) (map Seat.id (seats small_hall))
                      /\ Seat.seat_layout_id s = 0
                      /\ Seat.is_booked s = false
                      /\ (1 <= Seat.row_num s <= 1)%Z
                      /\ (1 <= Seat.col_num s <= 1)%Z))
    /\ ((0 <= 1)%Z -> (0 <= 1)%Z ->
        (Z.of_nat (List.length (layout_seats db' 0)) = (1 * 1)%Z
         <-> booked_outside_grid small_hall 0 1 1 = [])).
Proof.
  apply (regenerate_keeps_booked_and_fills_the_grid
           small_hall 0 (SeatLayout.mk 0 1 1)).
  - apply constraints_small_hall.
  - reflexivity.
Defined.

(** ** The provisioning function *)

Lemma no_admin_row (db : DB) (uid : UUID) :
  has_role db uid admin = false ->
  filter (fun r => (UserRole.user_id r =? uid)
                   && app_role_eqb (UserRole.role r) admin) (user_roles db)
  = [].
Proof.
  unfold has_role. intros H.
  destruct (filter _ (user_roles db)) as [|r l] eqn:F; auto.
  assert (Hr : In r (filter
                       (fun r => (UserRole.user_id r =? uid)
                                 && app_role_eqb (UserRole.role r) admin)
                       (user_roles db))) by (rewrite F; now left).
  apply filter_In in Hr. destruct Hr as [Hr Hp].
  apply (existsb_false_forall _ _ _ H) in Hr. congruence.
Qed.

(** C7.  A provisioning request (any request but the CORS preflight) is
    answered 401 when the caller is not authenticated; 403 when the lookup
    of the caller's admin role fails or finds no row; 400 when the caller
    is an admin and the e-mail or the secret is missing; and in all three
    cases the database is the one before the request: no identity, no
    allow-list row and no role row is created. *)
Theorem provisioning_rejections (req : Handler.Request) (db : DB) :
  Handler.method req <> "OPTIONS"%string ->
  (Handler.getUser req = None ->
   Handler.serve req db
   = (Handler.mkResponse 401 (Handler.Error "Unauthorized"), db))
  /\ (forall uid,
         Handler.getUser req = Some uid ->
         Handler.role_lookup_fails req = true
         \/ has_role db uid admin = false ->
         Handler.serve req db
         = (Handler.mkResponse 403 (Handler.Error "Only admins can add users"),
            db))
  /\ (forall uid r b,
         Handler.getUser req = Some uid ->
         Handler.roleData req uid db = Some r ->
         Handler.json req = inr b ->
         truthy (Handler.email b) = false \/ truthy (Handler.uti b) = false ->
         Handler.serve req db
         = (Handler.mkResponse 400 (Handler.Error "Missing email or uti"), db)).
Proof.
  intros Hm. apply String.eqb_neq in Hm. unfold Handler.serve. rewrite Hm.
  split; [|split].
  - intros ->. reflexivity.
  - intros uid -> Hrole.
    assert (Hnone : Handler.roleData req uid db = None).
    { unfold Handler.roleData. destruct Hrole as [->| Hno]; auto.
      rewrite (no_admin_row _ _ Hno).
      now destruct (Handler.role_lookup_fails req). }
    now rewrite Hnone.
  - intros uid r b -> -> -> Hmiss.
    destruct Hmiss as [-> | ->]; simpl; auto. now rewrite orb_true_r.
Qed.

Lemma provisioning_rejections_witness :
  let req := post (Some 10) None (Some "pa55"%string) None in
  (Handler.getUser req = None ->
   Handler.serve req small_hall
   = (Handler.mkResponse 401 (Handler.Error "Unauthorized"), small_hall))
  /\ (forall uid,
         Handler.getUser req = Some uid ->
         Handler.role_lookup_fails req = true
         \/ has_role small_hall uid admin = false ->
         Handler.serve req small_hall
         = (Handler.mkResponse 403 (Handler.Error "Only admins can add users"),
            small_hall))
  /\ (forall uid r b,
         Handler.getUser req = Some uid ->
         Handler.roleData req uid small_hall = Some r ->
         Handler.json req = inr b ->
         truthy (Handler.email b) = false \/ truthy (Handler.uti b) = false ->
         Handler.serve req small_hall
         = (Handler.mkResponse 400 (Handler.Error "Missing email or uti"),
            small_hall)).
Proof.
  apply (provisioning_rejections
           (post (Some 10) None (Some "pa55"%string) None) small_hall).
  simpl. discriminate.
Defined.

(** C8.  What the function stores is the lower-cased address, not the
    trimmed one: for an address typed with blanks around it the identity
    and the allow-list row both hold the blanks, and differ from the
    normalised address that the login path ([email.trim().toLowerCase()])
    will look up. *)
Theorem provisioning_stores_untrimmed_email :
  let db' := snd (Handler.serve add_dave small_hall) in
  fst (Handler.serve add_dave small_hall)
  = Handler.mkResponse 200 Handler.Success
  /\ In (AllowedUser.mk 17 " dave@example.org " "pa55") (allowed_users db')
  /\ In (AuthUser.mk 16 " dave@example.org " "pa55") (auth_users db')
  /\ normalized " Dave@Example.org " = "dave@example.org"%string
  /\ ~ In (normalized " Dave@Example.org ")
          (map AllowedUser.email (allowed_users db'))
  /\ ~ In (normalized " Dave@Example.org ")
          (map AuthUser.email (auth_users db')).
Proof.
  vm_compute. repeat split; auto 6; intuition discriminate.
Qed.

Lemma insert_user_role_others (c : caller) (uid : UUID) (r : string) (d : DB) :
  allowed_users (commit d (insert_user_role c uid r d)) = allowed_users d
  /\ auth_users (commit d (insert_user_role c uid r d)) = auth_users d.
Proof.
  unfold insert_user_role. destruct (app_role_of_string r); simpl; auto.
  case_ifs; auto.
Qed.

Lemma insert_allowed_user_others (c : caller) (e u : string) (d : DB) :
  auth_users (commit d (insert_allowed_user c e u d)) = auth_users d
  /\ user_roles (commit d (insert_allowed_user c e u d)) = user_roles d.
Proof.
  unfold insert_allowed_user. case_ifs; auto.
Qed.

(** C9.  Once [createUser] has succeeded the function answers
    [200 {success: true}] whatever becomes of the two inserts that follow:
    their results are dropped.  When the allow-list insert fails the
    identity is there but [allowed_users] is as before; when the role
    insert fails [user_roles] is as before. *)
Theorem provisioning_reports_success_after_failed_inserts
        (req : Handler.Request) (db db1 : DB) (uid new_id : UUID)
        (r : UserRole.t) (b : Handler.Body) (e u : string) :
  Handler.method req <> "OPTIONS"%string ->
  Handler.getUser req = Some uid ->
  Handler.roleData req uid db = Some r ->
  Handler.json req = inr b ->
  Handler.email b = Some e -> e <> ""%string ->
  Handler.uti b = Some u -> u <> ""%string ->
  createUser (toLowerCase e) u db = (Some new_id, db1) ->
  let step2 := insert_allowed_user service_role (toLowerCase e) u db1 in
  let db2 := commit db1 step2 in
  let step3 :=
    insert_user_role service_role new_id
                     (if truthy (Handler.role b)
                      then or_default (Handler.role b) "user"%string
                      else "user"%string) db2 in
  Handler.serve req db = (Handler.mkResponse 200 Handler.Success,
                          commit db2 step3)
  /\ (is_ok step2 = false ->
      allowed_users (snd (Handler.serve req db)) = allowed_users db
      /\ In (AuthUser.mk new_id (toLowerCase e) u)
            (auth_users (snd (Handler.serve req db))))
  /\ (is_ok step3 = false ->
      user_roles (snd (Handler.serve req db)) = user_roles db).
Proof.
  intros Hm Hu Hr Hj He Hne Hut Hnu Hc step2 db2 step3.
  apply String.eqb_neq in Hm, Hne, Hnu.
  assert (Hserve : Handler.serve req db
                   = (Handler.mkResponse 200 Handler.Success,
                      commit db2 step3)).
  { unfold Handler.serve. rewrite Hm, Hu, Hr, Hj.
    unfold truthy at 1 2. rewrite He, Hut, Hne, Hnu. simpl negb. simpl orb.
    cbv iota. unfold Handler.provision. simpl or_default. rewrite Hc.
    reflexivity. }
  rewrite Hserve. simpl snd. split; [reflexivity|].
  assert (Hcreate : allowed_users db1 = allowed_users db
                    /\ user_roles db1 = user_roles db
                    /\ In (AuthUser.mk new_id (toLowerCase e) u)
                          (auth_users db1)).
  { unfold createUser in Hc. destruct (existsb _ _); [discriminate|].
    inversion Hc; subst. simpl. repeat split; auto.
    apply in_app_iff. right. now left. }
  destruct Hcreate as (Ha & Hro & Hin).
  assert (H3 : allowed_users (commit db2 step3) = allowed_users db2
               /\ auth_users (commit db2 step3) = auth_users db2).
  { apply insert_user_role_others. }
  assert (H2 : auth_users db2 = auth_users db1
               /\ user_roles db2 = user_roles db1).
  { apply insert_allowed_user_others. }
  destruct H3 as [H3a H3u]. destruct H2 as [H2u H2r]. split.
  - intros Hfail. rewrite H3a, H3u, H2u. split; auto.
    unfold db2. destruct step2; [discriminate|]. simpl. exact Ha.
  - intros Hfail. destruct step3; [discriminate|]. simpl.
    now rewrite H2r.
Qed.

Lemma provisioning_reports_success_after_failed_inserts_witness :
  let e := "Carol@Example.org"%string in
  let u := "s3cret"%string in
  let db1 := snd (createUser (toLowerCase e) u small_hall) in
  let step2 := insert_allowed_user service_role (toLowerCase e) u db1 in
  let db2 := commit db1 step2 in
  let step3 :=
    insert_user_role service_role 16
                     (if truthy (Some "superuser"%string)
                      then or_default (Some "superuser"%string) "user"%string
                      else "user"%string) db2 in
  Handler.serve add_carol small_hall
  = (Handler.mkResponse 200 Handler.Success, commit db2 step3)
  /\ (is_ok step2 = false ->
      allowed_users (snd (Handler.serve add_carol small_hall))
      = allowed_users small_hall
      /\ In (AuthUser.mk 16 (toLowerCase e) u)
            (auth_users (snd (Handler.serve add_carol small_hall))))
  /\ (is_ok step3 = false ->
      user_roles (snd (Handler.serve add_carol small_hall))
      = user_roles small_hall).
Proof.
  apply (provisioning_reports_success_after_failed_inserts
           add_carol small_hall
           (snd (createUser (toLowerCase "Carol@Example.org") "s3cret"
                            small_hall))
           14 16 (UserRole.mk 15 14 admin)
           (Handler.mkBody (Some "Carol@Example.org"%string)
                           (Some "s3cret"%string) (Some "superuser"%string))
           "Carol@Example.org" "s3cret");
    try reflexivity; simpl; discriminate.
Defined.

(** ** The allow-list *)

Lemma allowed_users_insert_grid (lid : UUID) (r k : Z) (db : DB) :
  allowed_users (insert_grid lid r k db) = allowed_users db.
Proof.
  unfold insert_grid.
  apply (fold_left_invariant _ _ (fun d => allowed_users d = allowed_users db));
    auto.
  intros a x Ha. unfold insert_grid_row.
  apply (fold_left_invariant _ _ (fun d => allowed_users d = allowed_users db));
    auto.
  intros a' x' Ha'. unfold insert_seat_on_conflict_do_nothing.
  destruct (existsb _ _); auto.
Qed.

Lemma allowed_users_generate_seats (lid : UUID) (db : DB) :
  allowed_users (commit db (generate_seats_for_layout lid db))
  = allowed_users db.
Proof.
  unfold generate_seats_for_layout. destruct (find _ _); simpl; auto.
  now rewrite allowed_users_insert_grid.
Qed.

Lemma allowed_users_keys_insert (c : caller) (e u : string) (db : DB) :
  allowed_users_keys db ->
  allowed_users_keys (commit db (insert_allowed_user c e u db)).
Proof.
  intros [He Hu]. unfold insert_allowed_user.
  destruct (negb _); simpl; [split; auto|].
  destruct (existsb _ _) eqn:Ee; simpl; [split; auto|].
  destruct (existsb (fun a => String.eqb (AllowedUser.uti a) u) _) eqn:Eu;
    simpl; [split; auto|].
  split; simpl; apply NoDup_map_snoc; auto; simpl; intros x Hx E.
  - apply (existsb_false_forall _ _ _ Ee) in Hx. simpl in Hx.
    apply String.eqb_neq in Hx. auto.
  - apply (existsb_false_forall _ _ _ Eu) in Hx. simpl in Hx.
    apply String.eqb_neq in Hx. auto.
Qed.

Lemma allowed_users_keys_same (db db' : DB) :
  allowed_users db' = allowed_users db ->
  allowed_users_keys db -> allowed_users_keys db'.
Proof. unfold allowed_users_keys. now intros ->. Qed.

Lemma allowed_users_createUser (e p : string) (db : DB) :
  allowed_users (snd (createUser e p db)) = allowed_users db.
Proof. unfold createUser. now destruct (existsb _ _). Qed.

Lemma allowed_users_keys_serve (req : Handler.Request) (db : DB) :
  allowed_users_keys db -> allowed_users_keys (snd (Handler.serve req db)).
Proof.
  intros H. unfold Handler.serve.
  destruct (String.eqb _ _); auto.
  destruct (Handler.getUser req); auto.
  destruct (Handler.roleData _ _ _); auto.
  destruct (Handler.json req); auto.
  destruct (_ || _); auto.
  unfold Handler.provision.
  pose proof (allowed_users_createUser
                (toLowerCase (or_default (Handler.email b) ""%string))
                (or_default (Handler.uti b) ""%string) db) as Hc.
  destruct (createUser _ _ db) as [[new_id|] db1]; simpl in *.
  - eapply allowed_users_keys_same;
      [apply insert_user_role_others|].
    apply allowed_users_keys_insert.
    now apply (allowed_users_keys_same db).
  - now apply (allowed_users_keys_same db).
Qed.

Lemma allowed_users_keys_exec (o : op) (db : DB) :
  allowed_users_keys db -> allowed_users_keys (exec o db).
Proof.
  intros H. destruct o; simpl.
  - apply (allowed_users_keys_same db); auto.
    unfold insert_booking. case_ifs; auto.
  - apply (allowed_users_keys_same db); auto.
    unfold delete_booking. case_ifs; auto.
  - apply (allowed_users_keys_same db); auto.
    unfold update_booking. destruct (negb _); simpl; auto.
    destruct (find _ _); simpl; auto. case_ifs; auto.
  - apply (allowed_users_keys_same db); auto.
    unfold delete_seat. case_ifs; auto.
  - apply (allowed_users_keys_same db); auto.
  - apply (allowed_users_keys_same db); auto.
    unfold toggle_freeze. case_ifs; auto.
  - apply (allowed_users_keys_same db); auto.
    unfold update_layout. case_ifs; auto.
  - apply (allowed_users_keys_same db); auto.
    apply allowed_users_generate_seats.
  - apply (allowed_users_keys_same db); auto.
    apply allowed_users_createUser.
  - apply (allowed_users_keys_same db); auto.
    apply insert_user_role_others.
  - now apply allowed_users_keys_insert.
  - unfold delete_allowed_user. destruct (admin_write_using c db); simpl; auto.
    destruct H. split; simpl; now apply NoDup_map_filter.
  - now apply allowed_users_keys_serve.
Qed.

Lemma allowed_users_keys_reachable (db : DB) :
  reachable any_op db -> allowed_users_keys db.
Proof.
  induction 1 as [|db o R IH _].
  - rewrite migration_eq.
    apply (allowed_users_keys_same (insert_layout 20 10 empty_db)).
    + apply allowed_users_generate_seats.
    + split; constructor.
  - now apply allowed_users_keys_exec.
Qed.

(** C10.  The secret column [uti] of [allowed_users] is UNIQUE: in every
    reachable state no two allow-list rows share a secret, and an insert of
    a row whose secret is already in use fails and changes nothing. *)
Theorem allowed_users_uti_unique (db : DB) :
  reachable any_op db ->
  NoDup (map AllowedUser.uti (allowed_users db))
  /\ (forall c e u,
         In u (map AllowedUser.uti (allowed_users db)) ->
         is_ok (insert_allowed_user c e u db) = false
         /\ commit db (insert_allowed_user c e u db) = db).
Proof.
  intros R. split; [apply (allowed_users_keys_reachable db R)|].
  intros c e u Hu. unfold insert_allowed_user.
  destruct (negb _); simpl; auto.
  destruct (existsb _ _); simpl; auto.
  assert (Hx : existsb (fun a => String.eqb (AllowedUser.uti a) u)
                       (allowed_users db) = true).
  { apply existsb_exists. apply in_map_iff in Hu.
    destruct Hu as (a & E & Ha). exists a. split; auto.
    now apply String.eqb_eq. }
  rewrite Hx. simpl. auto.
Qed.

Lemma allowed_users_uti_unique_witness :
  map AllowedUser.uti (allowed_users allow_listed)
  = ["s3cret"; "hunter2"]%string
  /\ NoDup (map AllowedUser.uti (allowed_users allow_listed))
  /\ is_ok (insert_allowed_user service_role "carol@example.org" "s3cret"
                                allow_listed) = false
  /\ commit allow_listed
            (insert_allowed_user service_role "carol@example.org" "s3cret"
                                 allow_listed)
     = allow_listed.
Proof.
  assert (R : reachable any_op allow_listed).
  { unfold allow_listed. do 2 (apply reachable_exec; [|reflexivity]).
    apply reachable_weaken, reachable_ann_booked. }
  destruct (allowed_users_uti_unique allow_listed R) as [Hnodup Hinsert].
  split; [vm_compute; reflexivity|]. split; [exact Hnodup|].
  apply (Hinsert service_role "carol@example.org"%string "s3cret"%string).
  vm_compute. left. reflexivity.
Defined.

(** * Further properties of the code *)

(** ** The allow-list lookups *)

Lemma lower_ascii_idem (c : ascii) : lower_ascii (lower_ascii c) = lower_ascii c.
Proof. destruct c as [[] [] [] [] [] [] [] []]; reflexivity. Qed.

Lemma toLowerCase_idem (s : string) : toLowerCase (toLowerCase s) = toLowerCase s.
Proof.
  induction s as [|c s IH]; simpl; auto. now rewrite lower_ascii_idem, IH.
Qed.

Lemma find_snoc_fresh (A : Type) (f : A -> bool) (l : list A) (x : A) :
  existsb f l = false -> f x = true -> find f (l ++ [x]) = Some x.
Proof.
  induction l as [|a l IH]; simpl; intros Hl Hx.
  - now rewrite Hx.
  - apply orb_false_iff in Hl. destruct Hl as [Ha Hl]. rewrite Ha. auto.
Qed.

(** X1.  Insert, then look up: once the allow-list insert of the
    lower-cased address [e] with the secret [u] has committed, both lookup
    functions find the row under every spelling of the address that
    lower-cases to the same text: [is_allowed_email] answers true and
    [get_uti_for_email] returns [u]. *)
Theorem allow_list_insert_then_lookup
        (c : caller) (e u q : string) (db db' : DB) :
  insert_allowed_user c (toLowerCase e) u db = Ok db' ->
  toLowerCase q = toLowerCase e ->
  is_allowed_email db' q = true /\ get_uti_for_email db' q = Some u.
Proof.
  intros Hins Hq. unfold insert_allowed_user in Hins.
  destruct (negb _); [discriminate|].
  destruct (existsb _ _) eqn:Ee; [discriminate|].
  destruct (existsb (fun a => String.eqb (AllowedUser.uti a) u) _);
    [discriminate|].
  inversion Hins; subst db'; clear Hins.
  unfold is_allowed_email, get_uti_for_email. simpl allowed_users.
  rewrite Hq. split.
  - rewrite existsb_app. simpl. rewrite String.eqb_refl.
    now rewrite orb_true_r.
  - rewrite find_snoc_fresh; auto. simpl. apply String.eqb_refl.
Qed.

Lemma allow_list_insert_then_lookup_witness :
  is_allowed_email
    (commit small_hall
            (insert_allowed_user service_role (toLowerCase "Eve@X.org")
                                 "pw" small_hall)) "EVE@x.ORG" = true
  /\ get_uti_for_email
       (commit small_hall
               (insert_allowed_user service_role (toLowerCase "Eve@X.org")
                                    "pw" small_hall)) "EVE@x.ORG"
     = Some "pw"%string.
Proof.
  apply (allow_list_insert_then_lookup
           service_role "Eve@X.org" "pw" "EVE@x.ORG" small_hall);
    reflexivity.
Defined.

(** X2.  The two lookups agree, and all they can find is a row whose
    stored address is already in lower case: [is_allowed_email] is true
    exactly when [get_uti_for_email] returns a secret, and the row it
    comes from stores [lower(_email)], a text that lower-casing leaves
    alone.  A row stored with a capital letter is never found. *)
Theorem allow_list_lookup_finds_lower_case_rows_only (db : DB) (q : string) :
  (is_allowed_email db q = true <-> get_uti_for_email db q <> None)
  /\ (forall u, get_uti_for_email db q = Some u ->
                exists a, In a (allowed_users db)
                          /\ AllowedUser.uti a = u
                          /\ AllowedUser.email a = toLowerCase q
                          /\ toLowerCase (AllowedUser.email a)
                             = AllowedUser.email a).
Proof.
  unfold is_allowed_email, get_uti_for_email. split.
  - destruct (find _ (allowed_users db)) as [a|] eqn:F.
    + split; [discriminate|]. intros _. apply existsb_exists.
      apply find_some in F. exists a. exact F.
    + split; [|congruence]. intros H. apply existsb_exists in H.
      destruct H as (a & Ha & E). apply (find_none _ _ F) in Ha. congruence.
  - intros u H. destruct (find _ (allowed_users db)) as [a|] eqn:F;
      [|discriminate].
    apply find_some in F. destruct F as [Ha E]. apply String.eqb_eq in E.
    exists a. inversion H. repeat split; auto.
    rewrite E. apply toLowerCase_idem.
Qed.

(** ** Booking through the page *)

Lemma in_sync_small_hall : in_sync small_hall.
Proof.
  intros s [<-|[<-|[]]]; simpl.
  - split; [discriminate|]. intros (b & [<-|[]] & E). discriminate E.
  - split; auto. intros _. exists (Booking.mk 12 11 2). simpl. auto.
Qed.

Lemma no_booking_of_free_seat (db : DB) (s : Seat.t) :
  in_sync db -> In s (seats db) -> Seat.is_booked s = false ->
  existsb (fun b => Booking.seat_id b =? Seat.id s) (bookings db) = false.
Proof.
  intros H Hs Hb. destruct (existsb _ _) eqn:E; auto.
  apply existsb_exists in E. destruct E as (b & Hin & Eb).
  apply Nat.eqb_eq in Eb.
  assert (Seat.is_booked s = true) by (apply (H s Hs); eauto). congruence.
Qed.

(** X3.  Confirming a seat on the booking page, for a signed-in user who
    is a registered identity without the admin role and in a state where
    the constraints and the synchronisation invariant hold: when the user
    holds no booking and the seat with the selected id is unbooked in the
    database, the insert commits, the new booking is the user's and the
    seat then appears booked; otherwise the policy rejects it.  What the
    page showed for the seat plays no part, and the user never meets a
    uniqueness error. *)
Theorem confirm_booking_commits_or_is_rejected
        (db : DB) (u : UUID) (seat : Seat.t) :
  constraints db -> in_sync db ->
  auth_user_exists db u = true -> has_role db u admin = false ->
  let NEW := Booking.mk (next_uuid db) u (Seat.id seat) in
  (may_book db u NEW ->
   exists db', handleConfirmBooking (Some u) (Some seat) db = Some (Ok db')
               /\ In NEW (bookings db')
               /\ appears_booked db' (Seat.id seat) = true)
  /\ (~ may_book db u NEW ->
      handleConfirmBooking (Some u) (Some seat) db = Some (Err RlsViolation)).
Proof.
  intros K H Hu Hadm NEW. unfold handleConfirmBooking, insert_booking.
  fold NEW.
  assert (Hchk : bookings_insert_check (authenticated u) db NEW = true
                 <-> may_book db u NEW).
  { unfold bookings_insert_check, admins_can_manage.
    rewrite Hadm, orb_false_r. apply users_can_book_spec, (seats_pkey K). }
  split.
  - intros Hm. apply Hchk in Hm as Hc. rewrite Hc. simpl negb. cbv iota.
    destruct Hm as (_ & Hnone & s & Hs & Eid & Hfree). simpl in Eid.
    rewrite <- Eid, (no_booking_of_free_seat db s H Hs Hfree).
    assert (Hnu : existsb (fun b => Booking.user_id b =? u) (bookings db)
                  = false).
    { destruct (existsb _ _) eqn:E; auto. apply existsb_exists in E.
      destruct E as (b & Hb & Eb). apply Nat.eqb_eq in Eb.
      now destruct (Hnone b Hb). }
    assert (Hse : seat_exists db (Seat.id s) = true).
    { apply existsb_exists. exists s. split; auto. apply Nat.eqb_refl. }
    rewrite Hnu, Hu, Hse. simpl negb. cbv iota.
    eexists. split; [reflexivity|]. split.
    + simpl. apply in_app_iff. right. now left.
    + unfold appears_booked. simpl seats. unfold mark_seat_booked.
      rewrite run_seat_writes_map. apply existsb_exists.
      exists (written [UpdateSeatsSetIsBooked true (Booking.seat_id NEW)] s).
      split; [now apply in_map|]. rewrite written_id. simpl.
      rewrite Eid, !Nat.eqb_refl. reflexivity.
  - intros Hno. destruct (bookings_insert_check _ db NEW) eqn:E; auto.
    exfalso. now apply Hno, Hchk.
Qed.

Lemma confirm_booking_commits_or_is_rejected_witness :
  let NEW := Booking.mk (next_uuid small_hall) 10 1 in
  (may_book small_hall 10 NEW ->
   exists db',
     handleConfirmBooking (Some 10) (Some (Seat.mk 1 0 1 1 true)) small_hall
     = Some (Ok db')
     /\ In NEW (bookings db')
     /\ appears_booked db' 1 = true)
  /\ (~ may_book small_hall 10 NEW ->
      handleConfirmBooking (Some 10) (Some (Seat.mk 1 0 1 1 true)) small_hall
      = Some (Err RlsViolation)).
Proof.
  apply (confirm_booking_commits_or_is_rejected
           small_hall 10 (Seat.mk 1 0 1 1 true)).
  - apply constraints_small_hall.
  - apply in_sync_small_hall.
  - reflexivity.
  - reflexivity.
Defined.

(** ** What the policies keep out *)

Lemma serve_without_admin (req : Handler.Request) (db : DB) :
  match Handler.getUser req with
  | None => True
  | Some uid => has_role db uid admin = false
  end ->
  snd (Handler.serve req db) = db.
Proof.
  intros H. unfold Handler.serve.
  destruct (String.eqb _ _); auto.
  destruct (Handler.getUser req) as [uid|]; auto.
  unfold Handler.roleData. rewrite (no_admin_row _ _ H).
  now destruct (Handler.role_lookup_fails req).
Qed.

Lemma set_is_booked_twice (b : bool) (s : Seat.t) :
  Seat.set_is_booked b (Seat.set_is_booked b s) = Seat.set_is_booked b s.
Proof. reflexivity. Qed.

Lemma set_is_booked_same (s : Seat.t) :
  Seat.set_is_booked (Seat.is_booked s) s = s.
Proof. now destruct s. Qed.

(** One operation of a caller without the admin role: it changes nothing,
    or it is the insert of the caller's own booking, which appends the row
    and marks the seat. *)
Lemma step_without_admin (o : op) (db : DB) :
  without_admin db o = true ->
  exec o db = db
  \/ exists uid sid,
      o = InsertBooking (authenticated uid) uid sid
      /\ auth_users (exec o db) = auth_users db
      /\ user_roles (exec o db) = user_roles db
      /\ allowed_users (exec o db) = allowed_users db
      /\ seat_layout (exec o db) = seat_layout db
      /\ seats (exec o db)
         = map (fun s => if Seat.id s =? sid
                         then Seat.set_is_booked true s else s) (seats db)
      /\ bookings (exec o db)
         = bookings db ++ [Booking.mk (next_uuid db) uid sid].
Proof.
  unfold without_admin. intros H.
  destruct o; simpl in H; try discriminate;
    try (apply negb_true_iff in H;
         assert (Hb : bookings_write_using c db = false)
           by (destruct c; auto)).
  - destruct (insert_booking c uid sid db) as [d|e] eqn:E;
      [|left; simpl; now rewrite E].
    right. exists uid, sid. simpl. rewrite E. simpl.
    unfold insert_booking in E.
    destruct c as [|u|]; simpl in E, H; try discriminate.
    unfold admins_can_manage in E. rewrite H, orb_false_r in E.
    destruct (users_can_book db u _) eqn:U; simpl in E; [|discriminate].
    unfold users_can_book in U. simpl in U.
    destruct (Nat.eqb_spec uid u) as [->|]; [|discriminate].
    repeat match type of E with
           | (if ?c then _ else _) = _ =>
               destruct c; [discriminate|]
           end.
    inversion E; subst d. simpl. repeat split; auto.
  - left. simpl. unfold delete_booking. now rewrite Hb.
  - left. simpl. unfold update_booking. now rewrite Hb.
  - left. simpl. unfold delete_seat. now rewrite H.
  - left. simpl. unfold toggle_freeze. now rewrite H.
  - left. simpl. unfold update_layout. rewrite H. now destruct (negb _).
  - left. simpl. unfold insert_user_role. rewrite H.
    now destruct (app_role_of_string role).
  - left. simpl. unfold insert_allowed_user. now rewrite H.
  - left. simpl. unfold delete_allowed_user. now rewrite H.
  - left. simpl. apply serve_without_admin.
    destruct (Handler.getUser req) as [uid|]; auto.
    simpl in H. now apply negb_true_iff in H.
Qed.

Lemma without_admin_same_roles (db db' : DB) (o : op) :
  user_roles db' = user_roles db ->
  without_admin db' o = without_admin db o.
Proof.
  intros E. unfold without_admin. destruct (issued_by o) as [c|]; auto.
  destruct c; simpl; auto. unfold has_role. now rewrite E.
Qed.

(** X4.  A session of operations issued by callers without the admin role
    (any number, in any order, of: inserts, deletes and updates of
    bookings; deletes and freezes of seats; updates of the layout; inserts
    into [user_roles]; inserts into and deletes from [allowed_users];
    requests to the provisioning function; the role being judged in the
    state before the session) leaves [auth.users], [user_roles],
    [allowed_users] and [seat_layout] as they were, so that nobody gains
    the admin role on the way; it changes no seat except to mark it booked;
    it removes and changes no booking; and every booking it adds is one
    that a caller inserted for their own identity. *)
Theorem session_without_admin_gains_nothing (ops : list op) (db : DB) :
  forallb (without_admin db) ops = true ->
  let db' := fold_left (fun d o => exec o d) ops db in
  auth_users db' = auth_users db
  /\ user_roles db' = user_roles db
  /\ allowed_users db' = allowed_users db
  /\ seat_layout db' = seat_layout db
  /\ map (Seat.set_is_booked true) (seats db')
     = map (Seat.set_is_booked true) (seats db)
  /\ (forall s, In s (seats db) -> Seat.is_booked s = true ->
                In s (seats db'))
  /\ exists added,
      bookings db' = bookings db ++ added
      /\ forall b, In b added ->
                   In (InsertBooking (authenticated (Booking.user_id b))
                                     (Booking.user_id b) (Booking.seat_id b))
                      ops.
Proof.
  revert db. induction ops as [|o ops IH]; intros db H; simpl.
  - repeat split; auto. exists []. rewrite app_nil_r. split; auto.
  - simpl in H. apply andb_true_iff in H. destruct H as [Ho Hops].
    destruct (step_without_admin o db Ho) as [E|(uid & sid & Eo & S)].
    + rewrite E. destruct (IH db Hops) as (A & B & C & D & F & G & added & X & Y).
      repeat split; auto. exists added. split; auto.
    + destruct S as (A1 & B1 & C1 & D1 & F1 & X1).
      assert (Hops1 : forallb (without_admin (exec o db)) ops = true).
      { rewrite forallb_forall in *. intros x Hx.
        rewrite (without_admin_same_roles db (exec o db) x B1).
        now apply Hops. }
      destruct (IH (exec o db) Hops1)
        as (A & B & C & D & F & G & added & X & Y).
      split; [congruence|]. split; [congruence|]. split; [congruence|].
      split; [congruence|]. split; [|split].
      * rewrite F, F1, map_map. apply map_ext. intros s.
        destruct (Seat.id s =? sid); reflexivity.
      * intros s Hs Hb. apply G.
        -- rewrite F1. apply in_map_iff. exists s. split; auto.
           destruct (Seat.id s =? sid); auto.
           rewrite <- Hb. apply set_is_booked_same.
        -- exact Hb.
      * exists (Booking.mk (next_uuid db) uid sid :: added). split.
        -- rewrite X, X1, <- app_assoc. reflexivity.
        -- intros b [<-|Hb]; simpl; auto.
Qed.

Lemma session_without_admin_gains_nothing_witness :
  let ops := [ToggleFreeze (authenticated 10) 2 false;
              InsertUserRole (authenticated 10) 10 "admin";
              InsertBooking (authenticated 10) 10 1;
              DeleteBooking (authenticated 10) 12;
              AddUser (post (Some 10) (Some "eve@example.org"%string)
                            (Some "3v3"%string) (Some "admin"%string))] in
  let db' := fold_left (fun d o => exec o d) ops small_hall in
  auth_users db' = auth_users small_hall
  /\ user_roles db' = user_roles small_hall
  /\ allowed_users db' = allowed_users small_hall
  /\ seat_layout db' = seat_layout small_hall
  /\ map (Seat.set_is_booked true) (seats db')
     = map (Seat.set_is_booked true) (seats small_hall)
  /\ (forall s, In s (seats small_hall) -> Seat.is_booked s = true ->
                In s (seats db'))
  /\ exists added,
      bookings db' = bookings small_hall ++ added
      /\ forall b, In b added ->
                   In (InsertBooking (authenticated (Booking.user_id b))
                                     (Booking.user_id b) (Booking.seat_id b))
                      ops.
Proof.
  apply (session_without_admin_gains_nothing
           [ToggleFreeze (authenticated 10) 2 false;
            InsertUserRole (authenticated 10) 10 "admin";
            InsertBooking (authenticated 10) 10 1;
            DeleteBooking (authenticated 10) 12;
            AddUser (post (Some 10) (Some "eve@example.org"%string)
                          (Some "3v3"%string) (Some "admin"%string))]
           small_hall).
  reflexivity.
Defined.

Lemma unavailable_seat_is_rejected (d : DB) (u uid sid : UUID) :
  (forall s, In s (seats d) -> Seat.id s = sid -> Seat.is_booked s = true) ->
  has_role d u admin = false ->
  insert_booking (authenticated u) uid sid d = Err RlsViolation.
Proof.
  intros Hb Hadm. unfold insert_booking, bookings_insert_check.
  unfold admins_can_manage. rewrite Hadm, orb_false_r.
  unfold users_can_book, seat_is_available. simpl Booking.seat_id.
  destruct (find _ (seats d)) as [s|] eqn:F.
  - apply find_id_some in F. destruct F as [Hs E].
    rewrite (Hb s Hs E). simpl. now rewrite andb_false_r.
  - simpl. now rewrite andb_false_r.
Qed.

(** X5.  Freezing closes a seat to self-service: after an admin has
    frozen a seat with the admin page's toggle (the page held the seat as
    free), the insert of a booking of that seat by any authenticated
    caller without the admin role is rejected by the policy. *)
Theorem frozen_seat_cannot_be_booked
        (c : caller) (seat : Seat.t) (u uid : UUID) (db : DB) :
  admin_write_using c db = true ->
  Seat.is_booked seat = false ->
  has_role db u admin = false ->
  insert_booking (authenticated u) uid (Seat.id seat)
                 (handleToggleFreeze c seat db)
  = Err RlsViolation.
Proof.
  intros Hc Hfree Hadm. apply unavailable_seat_is_rejected.
  - unfold handleToggleFreeze, toggle_freeze. rewrite Hc, Hfree.
    simpl. intros s Hs E. apply in_map_iff in Hs.
    destruct Hs as (s0 & <- & Hs0).
    destruct (Nat.eqb_spec (Seat.id s0) (Seat.id seat)); simpl in *; auto;
      congruence.
  - unfold handleToggleFreeze, toggle_freeze. rewrite Hc. exact Hadm.
Qed.

Lemma frozen_seat_cannot_be_booked_witness :
  insert_booking (authenticated 10) 10 1
                 (handleToggleFreeze (authenticated 14)
                                     (Seat.mk 1 0 1 1 false) small_hall)
  = Err RlsViolation.
Proof.
  apply (frozen_seat_cannot_be_booked
           (authenticated 14) (Seat.mk 1 0 1 1 false) 10 10 small_hall);
    reflexivity.
Defined.

(** X6.  Unfreezing a booked seat does not let a second occupant in: after
    an admin has cleared the flag of a seat that a booking references (the
    page held the seat as booked), a user without the admin role and
    without a booking passes the policy for that seat, and the insert is
    then stopped by the UNIQUE constraint on [bookings.seat_id]. *)
Theorem unfrozen_booked_seat_is_kept_by_the_unique_key
        (c : caller) (seat : Seat.t) (b : Booking.t) (u : UUID) (db : DB) :
  constraints db ->
  admin_write_using c db = true ->
  Seat.is_booked seat = true ->
  In b (bookings db) -> Booking.seat_id b = Seat.id seat ->
  has_role db u admin = false ->
  user_has_booking db u = false ->
  let db1 := handleToggleFreeze c seat db in
  users_can_book db1 u (Booking.mk (next_uuid db1) u (Seat.id seat)) = true
  /\ insert_booking (authenticated u) u (Seat.id seat) db1
     = Err (UniqueViolation "bookings_seat_id_key").
Proof.
  intros K Hc Hbk Hb Eb Hadm Hnone db1.
  assert (Hseats : seats db1
                   = map (fun s => if Seat.id s =? Seat.id seat
                                   then Seat.set_is_booked false s else s)
                         (seats db)).
  { unfold db1, handleToggleFreeze, toggle_freeze. rewrite Hc, Hbk.
    reflexivity. }
  assert (Hrest : bookings db1 = bookings db /\ user_roles db1 = user_roles db
                  /\ next_uuid db1 = next_uuid db).
  { unfold db1, handleToggleFreeze, toggle_freeze. rewrite Hc. simpl. auto. }
  destruct Hrest as (Hbs & Hrs & Hn).
  assert (Hpol : users_can_book db1 u
                   (Booking.mk (next_uuid db1) u (Seat.id seat)) = true).
  { unfold users_can_book, user_has_booking, seat_is_available.
    simpl Booking.user_id. simpl Booking.seat_id.
    unfold user_has_booking in Hnone.
    rewrite Nat.eqb_refl, Hbs, Hnone, Hseats. simpl negb. simpl andb.
    destruct (bookings_seat_id_fkey K b Hb) as (s & Hs & Es).
    destruct (find _ (map _ (seats db))) as [s'|] eqn:F.
    - apply find_id_some in F. destruct F as [Hs' E'].
      apply in_map_iff in Hs'. destruct Hs' as (s0 & <- & Hs0).
      destruct (Nat.eqb_spec (Seat.id s0) (Seat.id seat)) as [E0|E0];
        simpl in *; [reflexivity|congruence].
    - exfalso.
      assert (Hin : In (Seat.set_is_booked false s)
                       (map (fun s => if Seat.id s =? Seat.id seat
                                      then Seat.set_is_booked false s else s)
                            (seats db))).
      { apply in_map_iff. exists s. split; auto.
        rewrite Es, Eb, Nat.eqb_refl. reflexivity. }
      apply (find_none _ _ F) in Hin. simpl in Hin.
      rewrite Es, Eb, Nat.eqb_refl in Hin. discriminate. }
  split; [exact Hpol|].
  unfold insert_booking, bookings_insert_check. rewrite Hpol. simpl negb.
  cbv iota. rewrite Hbs.
  assert (Hx : existsb (fun b0 => Booking.seat_id b0 =? Seat.id seat)
                       (bookings db) = true).
  { apply existsb_exists. exists b. split; auto. now apply Nat.eqb_eq. }
  now rewrite Hx.
Qed.

Lemma unfrozen_booked_seat_is_kept_by_the_unique_key_witness :
  let db1 := handleToggleFreeze (authenticated 14) (Seat.mk 2 0 1 2 true)
                                small_hall in
  users_can_book db1 10 (Booking.mk (next_uuid db1) 10 2) = true
  /\ insert_booking (authenticated 10) 10 2 db1
     = Err (UniqueViolation "bookings_seat_id_key").
Proof.
  apply (unfrozen_booked_seat_is_kept_by_the_unique_key
           (authenticated 14) (Seat.mk 2 0 1 2 true) (Booking.mk 12 11 2)
           10 small_hall);
    try reflexivity.
  - apply constraints_small_hall.
  - simpl. auto.
Defined.

(** ** The provisioning function, as a whole *)

Lemma createUser_failure_changes_nothing (e p : string) (db db1 : DB) :
  createUser e p db = (None, db1) -> db1 = db.
Proof.
  unfold createUser. destruct (existsb _ _); intros H; inversion H; auto.
Qed.

Lemma roleData_is_an_admin_row (req : Handler.Request) (uid : UUID) (db : DB)
      (r : UserRole.t) :
  Handler.roleData req uid db = Some r -> has_role db uid admin = true.
Proof.
  unfold Handler.roleData, has_role.
  destruct (Handler.role_lookup_fails req); [discriminate|].
  destruct (filter _ (user_roles db)) as [|x [|y l]] eqn:F; try discriminate.
  intros _. apply existsb_exists. exists x.
  assert (Hx : In x (filter
                       (fun r => (UserRole.user_id r =? uid)
                                 && app_role_eqb (UserRole.role r) admin)
                       (user_roles db))) by (rewrite F; now left).
  apply filter_In in Hx. exact Hx.
Qed.

(** X7.  The function changes the database only when it answers
    [200 {success: true}] to a request, other than the preflight, of a
    caller that [has_role] knows as admin: every other answer (the
    preflight's "ok", 400, 401, 403 and 500) leaves every table as it
    was. *)
Theorem serve_changes_nothing_unless_an_admin_succeeds
        (req : Handler.Request) (db : DB) :
  snd (Handler.serve req db) <> db ->
  fst (Handler.serve req db) = Handler.mkResponse 200 Handler.Success
  /\ Handler.method req <> "OPTIONS"%string
  /\ exists uid, Handler.getUser req = Some uid
                 /\ has_role db uid admin = true.
Proof.
  unfold Handler.serve.
  destruct (String.eqb_spec (Handler.method req) "OPTIONS") as [Em|Em];
    [simpl; congruence|].
  destruct (Handler.getUser req) as [uid|]; [|simpl; congruence].
  destruct (Handler.roleData req uid db) as [r|] eqn:Hr; [|simpl; congruence].
  apply roleData_is_an_admin_row in Hr.
  destruct (Handler.json req) as [m|b]; [simpl; congruence|].
  destruct (_ || _); [simpl; congruence|].
  unfold Handler.provision.
  destruct (createUser _ _ db) as [[new_id|] db1] eqn:Hc.
  - simpl. intros _. repeat split; eauto.
  - apply createUser_failure_changes_nothing in Hc. simpl. congruence.
Qed.

Lemma serve_changes_nothing_unless_an_admin_succeeds_witness :
  fst (Handler.serve add_dave small_hall)
  = Handler.mkResponse 200 Handler.Success
  /\ Handler.method add_dave <> "OPTIONS"%string
  /\ exists uid, Handler.getUser add_dave = Some uid
                 /\ has_role small_hall uid admin = true.
Proof.
  apply (serve_changes_nothing_unless_an_admin_succeeds add_dave small_hall).
  intros H. apply (f_equal next_uuid) in H. vm_compute in H. discriminate H.
Defined.

(** ** References to identities, and the admin flag *)

Lemma insert_grid_others (lid : UUID) (r k : Z) (db : DB) :
  auth_users (insert_grid lid r k db) = auth_users db
  /\ user_roles (insert_grid lid r k db) = user_roles db
  /\ bookings (insert_grid lid r k db) = bookings db
  /\ seat_layout (insert_grid lid r k db) = seat_layout db.
Proof.
  unfold insert_grid.
  apply (fold_left_invariant _ _
           (fun d => auth_users d = auth_users db
                     /\ user_roles d = user_roles db
                     /\ bookings d = bookings db
                     /\ seat_layout d = seat_layout db)); auto.
  intros a x Ha. unfold insert_grid_row.
  apply (fold_left_invariant _ _
           (fun d => auth_users d = auth_users db
                     /\ user_roles d = user_roles db
                     /\ bookings d = bookings db
                     /\ seat_layout d = seat_layout db)); auto.
  intros a' x' Ha'. unfold insert_seat_on_conflict_do_nothing.
  destruct (existsb _ _); auto.
Qed.

Lemma generate_seats_others (lid : UUID) (db : DB) :
  auth_users (commit db (generate_seats_for_layout lid db)) = auth_users db
  /\ user_roles (commit db (generate_seats_for_layout lid db))
     = user_roles db
  /\ seat_layout (commit db (generate_seats_for_layout lid db))
     = seat_layout db.
Proof.
  unfold generate_seats_for_layout. destruct (find _ _); simpl; auto.
  destruct (insert_grid_others
              lid (SeatLayout.total_rows t) (SeatLayout.total_columns t)
              (delete_from_seats
                 (fun s => (Seat.seat_layout_id s =? lid)
                           && negb (Seat.is_booked s)) db))
    as (Ha & Hr & _ & Hl).
  rewrite Ha, Hr, Hl. auto.
Qed.

(** Fewer references and more identities keep the foreign keys. *)
Lemma user_fkeys_shrink (db db' : DB) :
  (forall b, In b (bookings db') -> In b (bookings db)) ->
  (forall r, In r (user_roles db') -> In r (user_roles db)) ->
  (forall uid, auth_user_exists db uid = true ->
               auth_user_exists db' uid = true) ->
  user_fkeys db -> user_fkeys db'.
Proof.
  intros Hb Hr Hu [Fb Fr]. split; intros x Hx; apply Hu; auto.
Qed.

Lemma user_fkeys_delete_from_bookings (p : Booking.t -> bool) (db : DB) :
  user_fkeys db -> user_fkeys (delete_from_bookings p db).
Proof.
  apply user_fkeys_shrink; simpl; auto.
  intros b Hb. apply filter_In in Hb. tauto.
Qed.

Lemma user_fkeys_delete_from_seats (p : Seat.t -> bool) (db : DB) :
  user_fkeys db -> user_fkeys (delete_from_seats p db).
Proof.
  apply user_fkeys_shrink; simpl; auto.
  intros b Hb. apply filter_In in Hb. tauto.
Qed.

Lemma user_fkeys_generate_seats (lid : UUID) (db : DB) :
  user_fkeys db -> user_fkeys (commit db (generate_seats_for_layout lid db)).
Proof.
  intros H. unfold generate_seats_for_layout.
  destruct (find _ _); simpl; auto.
  destruct (insert_grid_others
              lid (SeatLayout.total_rows t) (SeatLayout.total_columns t)
              (delete_from_seats
                 (fun s => (Seat.seat_layout_id s =? lid)
                           && negb (Seat.is_booked s)) db))
    as (Ha & Hr & Hb & _).
  apply (user_fkeys_shrink
           (delete_from_seats
              (fun s => (Seat.seat_layout_id s =? lid)
                        && negb (Seat.is_booked s)) db)).
  - now rewrite Hb.
  - now rewrite Hr.
  - unfold auth_user_exists. now rewrite Ha.
  - now apply user_fkeys_delete_from_seats.
Qed.

Lemma user_fkeys_insert_booking (c : caller) (uid sid : UUID) (db : DB) :
  user_fkeys db -> user_fkeys (commit db (insert_booking c uid sid db)).
Proof.
  intros [Fb Fr]. unfold insert_booking.
  destruct (negb _); simpl; [split; auto|].
  destruct (existsb _ _); simpl; [split; auto|].
  destruct (existsb _ _); simpl; [split; auto|].
  destruct (auth_user_exists db uid) eqn:Hu; simpl; [|split; auto].
  destruct (negb _); simpl; split; auto.
  intros b Hb. simpl in Hb. apply in_app_iff in Hb.
  destruct Hb as [Hb|[<-|[]]]; [apply (Fb b Hb)|exact Hu].
Qed.

Lemma user_fkeys_update_booking (c : caller) (bid : UUID)
      (su ss : option UUID) (db : DB) :
  user_fkeys db -> user_fkeys (commit db (update_booking c bid su ss db)).
Proof.
  intros [Fb Fr]. unfold update_booking.
  destruct (negb _); simpl; [split; auto|].
  destruct (find _ (bookings db)) as [OLD|]; simpl; [|split; auto].
  destruct (existsb _ _); simpl; [split; auto|].
  destruct (existsb _ _); simpl; [split; auto|].
  destruct (auth_user_exists db _) eqn:Hu; simpl; [|split; auto].
  destruct (negb _); simpl; split; auto.
  intros b Hb. simpl in Hb. apply in_map_iff in Hb.
  destruct Hb as (x & <- & Hx).
  destruct (Booking.id x =? bid); [exact Hu|apply (Fb x Hx)].
Qed.

Lemma user_fkeys_delete_auth_user (uid : UUID) (db : DB) :
  user_fkeys db -> user_fkeys (delete_auth_user uid db).
Proof.
  intros [Fb Fr].
  assert (Hkeep : forall v, v <> uid -> auth_user_exists db v = true ->
                            auth_user_exists (delete_auth_user uid db) v = true).
  { intros v Hv Hex. unfold auth_user_exists in *. simpl.
    apply existsb_exists in Hex. destruct Hex as (x & Hx & E).
    apply existsb_exists. exists x. split; auto. apply filter_In.
    split; auto. apply Nat.eqb_eq in E. apply negb_true_iff.
    apply Nat.eqb_neq. congruence. }
  split; simpl.
  - intros b Hb. apply filter_In in Hb. destruct Hb as [Hb Hn].
    apply negb_true_iff, Nat.eqb_neq in Hn. apply Hkeep; auto.
  - intros r Hr. apply filter_In in Hr. destruct Hr as [Hr Hn].
    apply negb_true_iff, Nat.eqb_neq in Hn. apply Hkeep; auto.
Qed.

Lemma auth_user_exists_createUser (e p : string) (db : DB) (uid : UUID) :
  auth_user_exists db uid = true ->
  auth_user_exists (snd (createUser e p db)) uid = true.
Proof.
  unfold createUser, auth_user_exists.
  destruct (existsb (fun u => String.eqb (AuthUser.email u) e) _);
    simpl; auto.
  intros H. rewrite existsb_app, H. reflexivity.
Qed.

Lemma user_fkeys_createUser (e p : string) (db : DB) :
  user_fkeys db -> user_fkeys (snd (createUser e p db)).
Proof.
  apply user_fkeys_shrink.
  - unfold createUser. destruct (existsb _ _); simpl; auto.
  - unfold createUser. destruct (existsb _ _); simpl; auto.
  - apply auth_user_exists_createUser.
Qed.

Lemma user_fkeys_insert_user_role (c : caller) (uid : UUID) (r : string)
      (db : DB) :
  user_fkeys db -> user_fkeys (commit db (insert_user_role c uid r db)).
Proof.
  intros [Fb Fr]. unfold insert_user_role.
  destruct (app_role_of_string r); simpl; [|split; auto].
  destruct (negb _); simpl; [split; auto|].
  destruct (has_role db uid a); simpl; [split; auto|].
  destruct (auth_user_exists db uid) eqn:Hu; simpl; split; auto.
  intros x Hx. simpl in Hx. apply in_app_iff in Hx.
  destruct Hx as [Hx|[<-|[]]]; [apply (Fr x Hx)|exact Hu].
Qed.

Lemma user_fkeys_insert_allowed_user (c : caller) (e u : string) (db : DB) :
  user_fkeys db -> user_fkeys (commit db (insert_allowed_user c e u db)).
Proof.
  apply user_fkeys_shrink; unfold insert_allowed_user; case_ifs; auto.
Qed.

Lemma user_fkeys_serve (req : Handler.Request) (db : DB) :
  user_fkeys db -> user_fkeys (snd (Handler.serve req db)).
Proof.
  intros H. unfold Handler.serve.
  destruct (String.eqb _ _); auto.
  destruct (Handler.getUser req); auto.
  destruct (Handler.roleData _ _ _); auto.
  destruct (Handler.json req); auto.
  destruct (_ || _); auto.
  unfold Handler.provision.
  pose proof (user_fkeys_createUser
                (toLowerCase (or_default (Handler.email b) ""%string))
                (or_default (Handler.uti b) ""%string) db H) as Hc.
  destruct (createUser _ _ db) as [[new_id|] db1]; simpl in *; auto.
  apply user_fkeys_insert_user_role, user_fkeys_insert_allowed_user, Hc.
Qed.

Lemma user_fkeys_exec (o : op) (db : DB) :
  user_fkeys db -> user_fkeys (exec o db).
Proof.
  intros H. destruct o; simpl.
  - now apply user_fkeys_insert_booking.
  - unfold delete_booking. destruct (bookings_write_using c db); simpl; auto.
    now apply user_fkeys_delete_from_bookings.
  - now apply user_fkeys_update_booking.
  - unfold delete_seat. destruct (admin_write_using c db); simpl; auto.
    now apply user_fkeys_delete_from_seats.
  - now apply user_fkeys_delete_auth_user.
  - unfold toggle_freeze. destruct (admin_write_using c db); simpl; auto.
  - unfold update_layout.
    destruct (negb _), (admin_write_using c db); simpl; auto.
  - now apply user_fkeys_generate_seats.
  - now apply user_fkeys_createUser.
  - now apply user_fkeys_insert_user_role.
  - now apply user_fkeys_insert_allowed_user.
  - unfold delete_allowed_user. destruct (admin_write_using c db); simpl; auto.
  - now apply user_fkeys_serve.
Qed.

(** X8.  In every reachable state the user of every booking and of every
    role row is an identity of [auth.users]: the REFERENCES checks of the
    inserts and updates, and the ON DELETE CASCADE of the two foreign
    keys, leave no dangling reference. *)
Theorem user_references_never_dangle (db : DB) :
  reachable any_op db ->
  (forall b, In b (bookings db) ->
             exists u, In u (auth_users db)
                       /\ AuthUser.id u = Booking.user_id b)
  /\ (forall r, In r (user_roles db) ->
                exists u, In u (auth_users db)
                          /\ AuthUser.id u = UserRole.user_id r).
Proof.
  intros R.
  assert (H : user_fkeys db).
  { induction R as [|db o R IH _].
    - rewrite migration_eq.
      apply (user_fkeys_generate_seats 0 (insert_layout 20 10 empty_db)).
      split; intros x [].
    - now apply user_fkeys_exec. }
  destruct H as [Fb Fr]. split; intros x Hx.
  - apply Fb in Hx. apply existsb_exists in Hx.
    destruct Hx as (u & Hu & E). apply Nat.eqb_eq in E. eauto.
  - apply Fr in Hx. apply existsb_exists in Hx.
    destruct Hx as (u & Hu & E). apply Nat.eqb_eq in E. eauto.
Qed.

Lemma user_references_never_dangle_witness :
  (forall b, In b (bookings ann_booked) ->
             exists u, In u (auth_users ann_booked)
                       /\ AuthUser.id u = Booking.user_id b)
  /\ (forall r, In r (user_roles ann_booked) ->
                exists u, In u (auth_users ann_booked)
                          /\ AuthUser.id u = UserRole.user_id r).
Proof.
  apply (user_references_never_dangle ann_booked).
  apply reachable_weaken, reachable_ann_booked.
Defined.

Lemma user_roles_key_same (db db' : DB) :
  user_roles db' = user_roles db -> user_roles_key db -> user_roles_key db'.
Proof. unfold user_roles_key. now intros ->. Qed.

Lemma app_role_eqb_spec (a b : app_role) : app_role_eqb a b = true <-> a = b.
Proof. destruct a, b; simpl; split; congruence. Qed.

Lemma user_roles_key_insert (c : caller) (uid : UUID) (r : string) (db : DB) :
  user_roles_key db -> user_roles_key (commit db (insert_user_role c uid r db)).
Proof.
  intros H. unfold insert_user_role.
  destruct (app_role_of_string r) as [a|]; simpl; auto.
  destruct (negb _); simpl; auto.
  destruct (has_role db uid a) eqn:Hr; simpl; auto.
  destruct (negb _); simpl; auto.
  unfold user_roles_key. simpl. apply NoDup_map_snoc; auto.
  simpl. intros x Hx E. unfold has_role in Hr.
  apply (existsb_false_forall _ _ _ Hr) in Hx. inversion E as [[E1 E2]].
  rewrite E1, E2, Nat.eqb_refl in Hx. simpl in Hx.
  assert (app_role_eqb a a = true) by now apply app_role_eqb_spec.
  congruence.
Qed.

Lemma user_roles_createUser (e p : string) (db : DB) :
  user_roles (snd (createUser e p db)) = user_roles db.
Proof. unfold createUser. now destruct (existsb _ _). Qed.

Lemma user_roles_key_serve (req : Handler.Request) (db : DB) :
  user_roles_key db -> user_roles_key (snd (Handler.serve req db)).
Proof.
  intros H. unfold Handler.serve.
  destruct (String.eqb _ _); auto.
  destruct (Handler.getUser req); auto.
  destruct (Handler.roleData _ _ _); auto.
  destruct (Handler.json req); auto.
  destruct (_ || _); auto.
  unfold Handler.provision.
  pose proof (user_roles_createUser
                (toLowerCase (or_default (Handler.email b) ""%string))
                (or_default (Handler.uti b) ""%string) db) as Hc.
  destruct (createUser _ _ db) as [[new_id|] db1]; simpl in *.
  - apply user_roles_key_insert.
    eapply user_roles_key_same; [apply insert_allowed_user_others|].
    now apply (user_roles_key_same db).
  - now apply (user_roles_key_same db).
Qed.

Lemma user_roles_key_exec (o : op) (db : DB) :
  user_roles_key db -> user_roles_key (exec o db).
Proof.
  intros H. destruct o; simpl.
  - apply (user_roles_key_same db); auto.
    unfold insert_booking. case_ifs; auto.
  - apply (user_roles_key_same db); auto.
    unfold delete_booking. case_ifs; auto.
  - apply (user_roles_key_same db); auto.
    unfold update_booking. destruct (negb _); simpl; auto.
    destruct (find _ _); simpl; auto. case_ifs; auto.
  - apply (user_roles_key_same db); auto.
    unfold delete_seat. case_ifs; auto.
  - unfold user_roles_key in *. simpl. now apply NoDup_map_filter.
  - apply (user_roles_key_same db); auto.
    unfold toggle_freeze. case_ifs; auto.
  - apply (user_roles_key_same db); auto.
    unfold update_layout. case_ifs; auto.
  - apply (user_roles_key_same db); auto. apply generate_seats_others.
  - apply (user_roles_key_same db); auto. apply user_roles_createUser.
  - now apply user_roles_key_insert.
  - apply (user_roles_key_same db); auto. apply insert_allowed_user_others.
  - apply (user_roles_key_same db); auto.
    unfold delete_allowed_user. case_ifs; auto.
  - now apply user_roles_key_serve.
Qed.

Lemma user_roles_key_reachable (db : DB) :
  reachable any_op db -> user_roles_key db.
Proof.
  induction 1 as [|db o R IH _].
  - rewrite migration_eq.
    apply (user_roles_key_same (insert_layout 20 10 empty_db)).
    + apply generate_seats_others.
    + constructor.
  - now apply user_roles_key_exec.
Qed.

(** Under UNIQUE(user_id, role) the admin query returns one row exactly
    when [has_role] holds. *)
Lemma admin_rows (db : DB) (uid : UUID) :
  user_roles_key db ->
  match filter (fun r => (UserRole.user_id r =? uid)
                         && app_role_eqb (UserRole.role r) admin)
               (user_roles db) with
  | [] => has_role db uid admin = false
  | [_] => has_role db uid admin = true
  | _ => False
  end.
Proof.
  intros K.
  pose proof (count_cell_le_1 _ _
                (fun r => (UserRole.user_id r, UserRole.role r))
                (fun r => (UserRole.user_id r =? uid)
                          && app_role_eqb (UserRole.role r) admin)
                (uid, admin) (user_roles db)) as Hle.
  assert (Hspec : forall x : UserRole.t,
             (UserRole.user_id x =? uid)
             && app_role_eqb (UserRole.role x) admin = true
             <-> (UserRole.user_id x, UserRole.role x) = (uid, admin)).
  { intros x. rewrite andb_true_iff, Nat.eqb_eq, app_role_eqb_spec.
    split; [intros [-> ->]; auto|intros E; inversion E; auto]. }
  specialize (Hle Hspec K). unfold has_role.
  destruct (filter _ (user_roles db)) as [|x [|y l]] eqn:F; simpl in Hle;
    [| |lia].
  - destruct (existsb _ _) eqn:E; auto. apply existsb_exists in E.
    destruct E as (x & Hx & Ex).
    assert (Hin : In x (filter
                          (fun r => (UserRole.user_id r =? uid)
                                    && app_role_eqb (UserRole.role r) admin)
                          (user_roles db))) by (apply filter_In; auto).
    rewrite F in Hin. contradiction.
  - apply existsb_exists. exists x.
    assert (Hin : In x (filter
                          (fun r => (UserRole.user_id r =? uid)
                                    && app_role_eqb (UserRole.role r) admin)
                          (user_roles db))) by (rewrite F; now left).
    apply filter_In in Hin. exact Hin.
Qed.

(** X9.  The client's admin flag is the server's: in every reachable
    state [checkAdminRole] sets [isAdmin] to what [has_role] says of the
    user, and to false when the query fails.  It never shows a user
    without the admin role as admin. *)
Theorem client_admin_flag_is_has_role
        (db : DB) (lookup_fails : bool) (userId : UUID) :
  reachable any_op db ->
  checkAdminRole lookup_fails userId db
  = negb lookup_fails && has_role db userId admin.
Proof.
  intros R. apply user_roles_key_reachable in R.
  pose proof (admin_rows db userId R) as H. unfold checkAdminRole.
  destruct lookup_fails; simpl; auto.
  destruct (filter _ (user_roles db)) as [|x [|y l]]; auto; contradiction.
Qed.

Lemma client_admin_flag_is_has_role_witness :
  checkAdminRole false root ann_booked
  = negb false && has_role ann_booked root admin.
Proof.
  apply (client_admin_flag_is_has_role ann_booked false root).
  apply reachable_weaken, reachable_ann_booked.
Defined.

(** X10.  In every reachable state the provisioning function refuses with
    403 exactly the authenticated callers that [has_role] does not know as
    admin, as long as the role query itself does not fail: an admin is
    never turned away as "not admin". *)
Theorem serve_refuses_exactly_the_non_admins
        (req : Handler.Request) (db : DB) (uid : UUID) :
  reachable any_op db ->
  Handler.method req <> "OPTIONS"%string ->
  Handler.getUser req = Some uid ->
  Handler.role_lookup_fails req = false ->
  (Handler.status (fst (Handler.serve req db)) = 403
   <-> has_role db uid admin = false).
Proof.
  intros R Hm Hu Hl. apply user_roles_key_reachable in R.
  pose proof (admin_rows db uid R) as H.
  apply String.eqb_neq in Hm. unfold Handler.serve, Handler.roleData.
  rewrite Hm, Hu, Hl.
  destruct (filter _ (user_roles db)) as [|x [|y l]]; [| |contradiction].
  - simpl. tauto.
  - rewrite H. split; [|discriminate].
    destruct (Handler.json req) as [m|b]; simpl; [discriminate|].
    destruct (_ || _); simpl; [discriminate|].
    unfold Handler.provision. destruct (createUser _ _ db) as [[n|] d];
      simpl; discriminate.
Qed.

Lemma serve_refuses_exactly_the_non_admins_witness :
  Handler.status
    (fst (Handler.serve (post (Some ann) (Some "x@y.z"%string)
                              (Some "pw"%string) None) ann_booked)) = 403
  <-> has_role ann_booked ann admin = false.
Proof.
  apply (serve_refuses_exactly_the_non_admins
           (post (Some ann) (Some "x@y.z"%string) (Some "pw"%string) None)
           ann_booked ann).
  - apply reachable_weaken, reachable_ann_booked.
  - simpl. discriminate.
  - reflexivity.
  - reflexivity.
Defined.

(** ** The spreadsheet upload *)

Lemma serve_post_without_admin (caller : option UUID) (e u r : option string)
      (db : DB) :
  match caller with
  | None => True
  | Some uid => has_role db uid admin = false
  end ->
  snd (Handler.serve (post caller e u r) db) = db.
Proof.
  intros H. unfold Handler.serve, post. simpl.
  destruct caller as [uid|]; auto.
  unfold Handler.roleData. simpl. now rewrite (no_admin_row _ _ H).
Qed.

(** X11.  A spreadsheet uploaded by a caller who is not signed in, or who
    does not hold the admin role, changes nothing, however many rows it
    has: every request the page sends for it is refused. *)
Theorem upload_without_admin_changes_nothing
        (caller : option UUID) (rows : list excel_row) (db : DB) :
  match caller with
  | None => True
  | Some uid => has_role db uid admin = false
  end ->
  handleExcelUpload caller rows db = db.
Proof.
  intros H. unfold handleExcelUpload.
  induction rows as [|row rows IH]; simpl; auto.
  unfold excel_request. destruct (_ || _); auto.
  now rewrite serve_post_without_admin.
Qed.

Lemma upload_without_admin_changes_nothing_witness :
  handleExcelUpload (Some 10)
                    [(Some "eve@x.org"%string, Some "pw"%string);
                     (Some "dan@x.org"%string, Some "pw2"%string)]
                    small_hall
  = small_hall.
Proof.
  apply (upload_without_admin_changes_nothing
           (Some 10)
           [(Some "eve@x.org"%string, Some "pw"%string);
            (Some "dan@x.org"%string, Some "pw2"%string)] small_hall).
  reflexivity.
Defined.

Lemma insert_user_role_allowed_users (c : caller) (uid : UUID) (r : string)
      (d : DB) :
  allowed_users (commit d (insert_user_role c uid r d)) = allowed_users d.
Proof. apply insert_user_role_others. Qed.

Lemma user_roles_key_small_hall : user_roles_key small_hall.
Proof. repeat constructor. simpl. tauto. Qed.

(** X12.  Upload, then log in: when an admin uploads a sheet row whose
    address and secret are not empty once trimmed, the identity service
    accepts the identity, and neither the normalised address nor the
    trimmed secret is on the allow-list yet, then the allow-list holds the
    trimmed secret under the normalised address, and the lookup finds it
    for every address that normalises ([trim], then lower case, as the
    login form does) to the same text. *)
Theorem uploaded_row_is_found_at_login
        (uid new_id : UUID) (rowEmail rowUti loginEmail : string)
        (db db1 : DB) :
  user_roles_key db ->
  has_role db uid admin = true ->
  normalized rowEmail <> ""%string ->
  trim rowUti <> ""%string ->
  createUser (normalized rowEmail) (trim rowUti) db = (Some new_id, db1) ->
  is_allowed_email db (normalized rowEmail) = false ->
  existsb (fun a => String.eqb (AllowedUser.uti a) (trim rowUti))
          (allowed_users db) = false ->
  normalized loginEmail = normalized rowEmail ->
  let db' := handleExcelUpload (Some uid) [(Some rowEmail, Some rowUti)] db in
  is_allowed_email db' (normalized loginEmail) = true
  /\ get_uti_for_email db' (normalized loginEmail) = Some (trim rowUti).
Proof.
  intros K Hadm He Hu Hc Hfe Hfu Hlogin db'.
  apply String.eqb_neq in He, Hu.
  pose proof (admin_rows db uid K) as Hrows.
  assert (Hl : toLowerCase (normalized rowEmail) = normalized rowEmail)
    by apply toLowerCase_idem.
  assert (Ha1 : allowed_users db1 = allowed_users db).
  { pose proof (allowed_users_createUser (normalized rowEmail) (trim rowUti)
                                         db) as X.
    now rewrite Hc in X. }
  unfold is_allowed_email in Hfe. rewrite Hl in Hfe.
  assert (Hdb' : allowed_users db'
                 = allowed_users db
                   ++ [AllowedUser.mk (next_uuid db1) (normalized rowEmail)
                                      (trim rowUti)]).
  { unfold db', handleExcelUpload, excel_request. simpl fold_left.
    simpl fst. simpl snd. simpl option_map. fold (normalized rowEmail).
    unfold truthy. rewrite He, Hu. simpl negb. simpl orb. cbv iota.
    unfold Handler.serve, post, Handler.roleData. simpl.
    destruct (filter _ (user_roles db)) as [|x [|y l]];
      [congruence| |contradiction].
    rewrite He, Hu. simpl. unfold Handler.provision. rewrite Hl, Hc.
    simpl snd. rewrite insert_user_role_allowed_users.
    unfold insert_allowed_user. simpl negb. cbv iota.
    rewrite Ha1, Hfe, Hfu. reflexivity. }
  unfold is_allowed_email, get_uti_for_email.
  rewrite Hdb', Hlogin, Hl. split.
  - rewrite existsb_app. simpl. rewrite String.eqb_refl.
    now rewrite orb_true_r.
  - rewrite find_snoc_fresh; auto. simpl. apply String.eqb_refl.
Qed.

Lemma uploaded_row_is_found_at_login_witness :
  let db' := handleExcelUpload (Some 14)
                               [(Some " Eve@X.org "%string,
                                 Some " pw "%string)] small_hall in
  is_allowed_email db' (normalized "EVE@x.org  ") = true
  /\ get_uti_for_email db' (normalized "EVE@x.org  ")
     = Some (trim " pw ").
Proof.
  apply (uploaded_row_is_found_at_login
           14 16 " Eve@X.org " " pw " "EVE@x.org  " small_hall
           (snd (createUser (normalized " Eve@X.org ") (trim " pw ")
                            small_hall)));
    try reflexivity.
  - apply user_roles_key_small_hall.
  - vm_compute. discriminate.
  - vm_compute. discriminate.
Defined.

(** ** Seat labels *)

(** X13.  Seat labels tell seats apart: for columns whose letter is a
    code unit below 256 (columns up to 191; the pages draw 16), two cells
    with the same label are the same cell.  The first character is the
    column, the rest is the row in decimal. *)
Theorem seat_labels_are_distinct (row col row' col' : Z) :
  (0 <= 64 + col < 256)%Z -> (0 <= 64 + col' < 256)%Z ->
  getSeatLabel row col = getSeatLabel row' col' ->
  row = row' /\ col = col'.
Proof.
  intros Hc Hc' E. unfold getSeatLabel in E.
  assert (Hcol : (64 + col = 64 + col')%Z -> col = col') by lia.
  remember (64 + col)%Z as a eqn:Ha. remember (64 + col')%Z as a' eqn:Ha'.
  clear Ha Ha'. injection E as Ec Er.
  split.
  - unfold number_to_string in Er. apply DecimalZ.to_int_inj.
    assert (X : Some (Z.to_int row) = Some (Z.to_int row')).
    { rewrite <- (DecimalString.NilEmpty.isi (Z.to_int row)).
      rewrite <- (DecimalString.NilEmpty.isi (Z.to_int row')).
      now rewrite Er. }
    now inversion X.
  - unfold fromCharCode in Ec.
    apply (f_equal N_of_ascii) in Ec.
    rewrite !N_ascii_embedding in Ec.
    + rewrite !Z.mod_small in Ec by lia. apply Hcol. lia.
    + rewrite Z.mod_small by lia. lia.
    + rewrite Z.mod_small by lia. lia.
Qed.

Lemma seat_labels_are_distinct_witness :
  (12 = 12 /\ 16 = 16)%Z.
Proof.
  apply (seat_labels_are_distinct 12 16 12 16); [lia|lia|reflexivity].
Defined.

(** ** More on layout regeneration *)

(** What regeneration leaves: the rows it does not delete, followed by one
    fresh unbooked seat of the layout for every grid cell that none of
    them occupies; the bookings of the deleted seats go with them. *)
Lemma generate_seats_shape (db : DB) (lid : UUID) (l : SeatLayout.t) :
  constraints db ->
  find (fun l => SeatLayout.id l =? lid) (seat_layout db) = Some l ->
  let p := fun s => (Seat.seat_layout_id s =? lid)
                    && negb (Seat.is_booked s) in
  let kept := filter (fun s => negb (p s)) (seats db) in
  let cells := grid_cells lid (range1 (SeatLayout.total_rows l))
                          (range1 (SeatLayout.total_columns l)) in
  exists db' N,
    generate_seats_for_layout lid db = Ok db'
    /\ seats db' = kept ++ N
    /\ map cell_of N
       = filter (fun c => negb (existsb (occupies c) kept)) cells
    /\ (forall s, In s N -> p s = true /\ next_uuid db <= Seat.id s)
    /\ bookings db'
       = filter (fun b => negb (existsb (fun i => Booking.seat_id b =? i)
                                        (map Seat.id (filter p (seats db)))))
                (bookings db)
    /\ seat_layout db' = seat_layout db.
Proof.
  intros K F p kept cells. unfold generate_seats_for_layout. rewrite F.
  fold p. set (db1 := delete_from_seats p db).
  assert (S1 : seats db1 = kept)
    by (apply delete_from_seats_seats, (seats_pkey K)).
  assert (Hcells : NoDup cells)
    by (apply NoDup_grid_cells; apply NoDup_range1).
  rewrite insert_grid_cells. fold cells.
  destruct (insert_cells_seats cells Hcells db1) as (N & HN & Hc & Hf).
  destruct (insert_grid_others lid (SeatLayout.total_rows l)
                               (SeatLayout.total_columns l) db1)
    as (_ & _ & Hb & Hl).
  rewrite insert_grid_cells in Hb, Hl. fold cells in Hb, Hl.
  exists (fold_left insert_cell cells db1), N.
  rewrite S1 in HN, Hc. repeat split; auto.
  - assert (Hin : In (cell_of s) (map cell_of N)) by now apply in_map.
    rewrite Hc in Hin. apply filter_In in Hin. destruct Hin as [Hin _].
    apply in_grid_cells in Hin. destruct Hin as (r & k & E & _).
    unfold cell_of in E. inversion E as [[E1 E2 E3]]. unfold p.
    destruct (Hf s H) as [-> _]. now rewrite E1, Nat.eqb_refl.
  - now destruct (Hf s H).
Qed.

Lemma fresh_seats_cells (N : list Seat.t) (c : UUID * Z * Z) (b : bool) :
  (forall s, In s N -> Seat.is_booked s = false) ->
  (exists s, In s N /\ cell_of s = c /\ Seat.is_booked s = b)
  <-> b = false /\ In c (map cell_of N).
Proof.
  intros H. split.
  - intros (s & Hs & <- & <-). split; [now apply H|now apply in_map].
  - intros [-> Hin]. apply in_map_iff in Hin. destruct Hin as (s & E & Hs).
    exists s. auto.
Qed.

Lemma filter_idem (A : Type) (f : A -> bool) (l : list A) :
  filter f (filter f l) = filter f l.
Proof.
  apply filter_all. intros x Hx. apply filter_In in Hx. tauto.
Qed.

Lemma filter_none (A : Type) (f : A -> bool) (l : list A) :
  (forall x, In x l -> f x = false) -> filter f l = [].
Proof.
  induction l as [|a l IH]; simpl; intros H; auto.
  rewrite (H a (or_introl eq_refl)). apply IH. intros x Hx. apply H. now right.
Qed.

(** X14.  Regeneration is idempotent on the geometry: run a second time
    with the layout unchanged, it leaves at every cell a seat with the same
    flag as the first run did, and at no other cell.  (The unbooked rows
    themselves are replaced by fresh ones.) *)
Theorem regenerate_twice_same_cells (db db1 db2 : DB) (lid : UUID) :
  constraints db ->
  generate_seats_for_layout lid db = Ok db1 ->
  generate_seats_for_layout lid db1 = Ok db2 ->
  forall c b, has_seat db2 c b <-> has_seat db1 c b.
Proof.
  intros K G1 G2 c b.
  destruct (find (fun l => SeatLayout.id l =? lid) (seat_layout db))
    as [l|] eqn:F;
    [|unfold generate_seats_for_layout in G1; rewrite F in G1; discriminate].
  pose proof (constraints_generate_seats lid db K) as K1.
  rewrite G1 in K1. simpl in K1.
  destruct (generate_seats_shape db lid l K F)
    as (d1 & N & E1 & S1 & C1 & P1 & _ & L1).
  rewrite G1 in E1. inversion E1; subst d1; clear E1.
  rewrite <- L1 in F.
  destruct (generate_seats_shape db1 lid l K1 F)
    as (d2 & N2 & E2 & S2 & C2 & P2 & _ & _).
  rewrite G2 in E2. inversion E2; subst d2; clear E2.
  cbv beta zeta in S1, C1, P1, S2, C2, P2.
  set (q := fun s => negb ((Seat.seat_layout_id s =? lid)
                           && negb (Seat.is_booked s))) in *.
  set (kept := filter q (seats db)) in *.
  assert (Hk : filter q (seats db1) = kept).
  { rewrite S1, filter_app. unfold kept at 1. rewrite filter_idem.
    fold kept. rewrite (filter_none _ _ N), app_nil_r; auto.
    intros s Hs. destruct (P1 s Hs) as [Hp _]. unfold q. now rewrite Hp. }
  rewrite Hk in S2, C2.
  assert (HN : forall s, In s N -> Seat.is_booked s = false).
  { intros s Hs. destruct (P1 s Hs) as [Hp _].
    apply andb_true_iff in Hp. destruct Hp as [_ Hp].
    now apply negb_true_iff in Hp. }
  assert (HN2 : forall s, In s N2 -> Seat.is_booked s = false).
  { intros s Hs. destruct (P2 s Hs) as [Hp _].
    apply andb_true_iff in Hp. destruct Hp as [_ Hp].
    now apply negb_true_iff in Hp. }
  unfold has_seat. rewrite S1, S2. split.
  - intros (s & Hs & Hc & Hb). apply in_app_iff in Hs.
    destruct Hs as [Hs|Hs].
    + exists s. rewrite in_app_iff. auto.
    + assert (X : exists s, In s N2 /\ cell_of s = c /\ Seat.is_booked s = b)
        by eauto.
      apply (fresh_seats_cells N2 c b HN2) in X. rewrite C2, <- C1 in X.
      apply (fresh_seats_cells N c b HN) in X.
      destruct X as (s' & Hs' & E). exists s'. rewrite in_app_iff. auto.
  - intros (s & Hs & Hc & Hb). apply in_app_iff in Hs.
    destruct Hs as [Hs|Hs].
    + exists s. rewrite in_app_iff. auto.
    + assert (X : exists s, In s N /\ cell_of s = c /\ Seat.is_booked s = b)
        by eauto.
      apply (fresh_seats_cells N c b HN) in X. rewrite C1, <- C2 in X.
      apply (fresh_seats_cells N2 c b HN2) in X.
      destruct X as (s' & Hs' & E). exists s'. rewrite in_app_iff. auto.
Qed.

Lemma regenerate_twice_same_cells_witness :
  has_seat (exec (GenerateSeats 0) (exec (GenerateSeats 0) small_hall))
           (0, 1%Z, 1%Z) false
  <-> has_seat (exec (GenerateSeats 0) small_hall) (0, 1%Z, 1%Z) false.
Proof.
  apply (regenerate_twice_same_cells
           small_hall (exec (GenerateSeats 0) small_hall)
           (exec (GenerateSeats 0) (exec (GenerateSeats 0) small_hall)) 0).
  - apply constraints_small_hall.
  - reflexivity.
  - reflexivity.
Defined.

(** X15.  In a state where the constraints and the synchronisation
    invariant hold, regeneration deletes no booking and leaves the layout
    table alone; and in any state that meets the constraints it leaves
    the seats of every other layout exactly as they were. *)
Theorem regenerate_keeps_bookings_and_other_layouts
        (db db' : DB) (lid : UUID) :
  constraints db ->
  generate_seats_for_layout lid db = Ok db' ->
  seat_layout db' = seat_layout db
  /\ filter (fun s => negb (Seat.seat_layout_id s =? lid)) (seats db')
     = filter (fun s => negb (Seat.seat_layout_id s =? lid)) (seats db)
  /\ (in_sync db -> bookings db' = bookings db).
Proof.
  intros K G.
  destruct (find (fun l => SeatLayout.id l =? lid) (seat_layout db))
    as [l|] eqn:F;
    [|unfold generate_seats_for_layout in G; rewrite F in G; discriminate].
  destruct (generate_seats_shape db lid l K F)
    as (d & N & E & S & _ & P & B & L).
  rewrite G in E. inversion E; subst d; clear E.
  cbv beta zeta in S, P, B.
  split; [exact L|]. split.
  - rewrite S, filter_app, filter_filter_and.
    rewrite (filter_none _ _ N), app_nil_r.
    + apply filter_ext. intros s.
      destruct (Seat.seat_layout_id s =? lid), (Seat.is_booked s);
        reflexivity.
    + intros s Hs. destruct (P s Hs) as [Hp _].
      apply andb_true_iff in Hp. destruct Hp as [-> _]. reflexivity.
  - intros H. rewrite B. apply filter_all. intros b Hb.
    apply negb_true_iff. destruct (existsb _ _) eqn:X; auto.
    apply gone_seat_id in X. destruct X as (s & Hs & Hp & Es).
    apply andb_true_iff in Hp. destruct Hp as [_ Hp].
    apply negb_true_iff in Hp.
    assert (Seat.is_booked s = true) by (apply (H s Hs); eauto).
    congruence.
Qed.

Lemma regenerate_keeps_bookings_and_other_layouts_witness :
  seat_layout (exec (GenerateSeats 0) small_hall) = seat_layout small_hall
  /\ filter (fun s => negb (Seat.seat_layout_id s =? 0))
            (seats (exec (GenerateSeats 0) small_hall))
     = filter (fun s => negb (Seat.seat_layout_id s =? 0)) (seats small_hall)
  /\ (in_sync small_hall ->
      bookings (exec (GenerateSeats 0) small_hall) = bookings small_hall).
Proof.
  apply (regenerate_keeps_bookings_and_other_layouts
           small_hall (exec (GenerateSeats 0) small_hall) 0).
  - apply constraints_small_hall.
  - reflexivity.
Defined.

(** X16.  The override and regeneration together do delete a booking:
    once an admin has cleared the flag of a seat that a booking references
    (the page held it as booked), the next regeneration of the seat's
    layout deletes the seat as "unbooked" and, through ON DELETE CASCADE,
    the booking with it. *)
Theorem unfreeze_then_regenerate_deletes_the_booking
        (c : caller) (seat : Seat.t) (b : Booking.t) (l : SeatLayout.t)
        (db : DB) :
  constraints db ->
  admin_write_using c db = true ->
  In seat (seats db) -> Seat.is_booked seat = true ->
  In b (bookings db) -> Booking.seat_id b = Seat.id seat ->
  find (fun l => SeatLayout.id l =? Seat.seat_layout_id seat) (seat_layout db)
  = Some l ->
  exists db2,
    generate_seats_for_layout (Seat.seat_layout_id seat)
                              (handleToggleFreeze c seat db) = Ok db2
    /\ ~ In b (bookings db2)
    /\ ~ In (Seat.id seat) (map Seat.id (seats db2)).
Proof.
  intros K Hc Hs Hbk Hb Eb F.
  set (db1 := handleToggleFreeze c seat db).
  assert (E1 : db1 = fire [UpdateSeatsSetIsBooked false (Seat.id seat)] db).
  { unfold db1, handleToggleFreeze, toggle_freeze. rewrite Hc, Hbk.
    reflexivity. }
  assert (K1 : constraints db1) by (rewrite E1; now apply constraints_fire).
  assert (F1 : find (fun l => SeatLayout.id l =? Seat.seat_layout_id seat)
                    (seat_layout db1) = Some l) by (rewrite E1; exact F).
  assert (Hs1 : In (Seat.set_is_booked false seat) (seats db1)).
  { rewrite E1. simpl. apply in_fire. exists seat. split; auto.
    unfold written. simpl. now rewrite Nat.eqb_refl. }
  destruct (generate_seats_shape db1 (Seat.seat_layout_id seat) l K1 F1)
    as (db2 & N & G & S & _ & P & B & _).
  cbv beta zeta in S, P, B.
  exists db2. split; [exact G|]. split.
  - rewrite B. intros Hin. apply filter_In in Hin. destruct Hin as [_ Hn].
    apply negb_true_iff in Hn.
    assert (X : existsb (fun i => Booking.seat_id b =? i)
                        (map Seat.id
                             (filter
                                (fun s => (Seat.seat_layout_id s
                                           =? Seat.seat_layout_id seat)
                                          && negb (Seat.is_booked s))
                                (seats db1))) = true).
    { apply gone_seat_id. exists (Seat.set_is_booked false seat).
      split; auto. simpl. rewrite Nat.eqb_refl. auto. }
    congruence.
  - rewrite S, map_app, in_app_iff. intros [Hin|Hin];
      apply in_map_iff in Hin; destruct Hin as (s' & E & Hs').
    + apply filter_In in Hs'. destruct Hs' as [Hs' Hq].
      assert (s' = Seat.set_is_booked false seat).
      { apply (NoDup_map_eq _ _ Seat.id (seats db1)); auto.
        apply (seats_pkey K1). }
      subst s'. simpl in Hq. rewrite Nat.eqb_refl in Hq. discriminate.
    + destruct (P s' Hs') as [_ Hge].
      pose proof (seats_fresh K1 _ Hs1) as Hlt. simpl in Hlt. lia.
Qed.

Lemma unfreeze_then_regenerate_deletes_the_booking_witness :
  exists db2,
    generate_seats_for_layout
      0 (handleToggleFreeze (authenticated 14) (Seat.mk 2 0 1 2 true)
                            small_hall) = Ok db2
    /\ ~ In (Booking.mk 12 11 2) (bookings db2)
    /\ ~ In 2 (map Seat.id (seats db2)).
Proof.
  apply (unfreeze_then_regenerate_deletes_the_booking
           (authenticated 14) (Seat.mk 2 0 1 2 true) (Booking.mk 12 11 2)
           (SeatLayout.mk 0 1 1) small_hall);
    try reflexivity.
  - apply constraints_small_hall.
  - simpl. auto.
  - simpl. auto.
Defined.

(** ** Cascades and round trips *)

(** X17.  Deleting an identity releases what it held: in a state where the
    constraints and the synchronisation invariant hold, after the delete
    of the user of a booking the identity is gone, it has no booking and
    no role, the seat of the booking is available again, and the
    invariant still holds. *)
Theorem deleting_a_user_frees_the_seat (db : DB) (b : Booking.t) :
  constraints db -> in_sync db -> In b (bookings db) ->
  let uid := Booking.user_id b in
  let db' := delete_auth_user uid db in
  auth_user_exists db' uid = false
  /\ user_has_booking db' uid = false
  /\ (forall r, has_role db' uid r = false)
  /\ seat_is_available db' (Booking.seat_id b) = Some true
  /\ in_sync db'.
Proof.
  intros K H Hb uid db'.
  assert (Hsync : in_sync db').
  { unfold db', delete_auth_user. apply in_sync_delete_from_bookings.
    - apply (bookings_seat_id_key K).
    - exact H. }
  split; [|split; [|split; [|split; [|exact Hsync]]]].
  - unfold db', auth_user_exists. simpl.
    destruct (existsb _ _) eqn:E; auto. apply existsb_exists in E.
    destruct E as (x & Hx & Ex). apply filter_In in Hx.
    destruct Hx as [_ Hn]. rewrite Ex in Hn. discriminate.
  - unfold db', user_has_booking. simpl.
    destruct (existsb _ _) eqn:E; auto. apply existsb_exists in E.
    destruct E as (x & Hx & Ex). apply filter_In in Hx.
    destruct Hx as [_ Hn]. rewrite Ex in Hn. discriminate.
  - intros r. unfold db', has_role. simpl.
    destruct (existsb _ _) eqn:E; auto. apply existsb_exists in E.
    destruct E as (x & Hx & Ex). apply filter_In in Hx.
    destruct Hx as [_ Hn]. apply andb_true_iff in Ex.
    destruct Ex as [Ex _]. rewrite Ex in Hn. discriminate.
  - destruct (bookings_seat_id_fkey K b Hb) as (s & Hs & Es).
    unfold seat_is_available.
    assert (Hno : ~ exists b', In b' (bookings db')
                               /\ Booking.seat_id b' = Booking.seat_id b).
    { intros (b' & Hb' & E'). unfold db' in Hb'. simpl in Hb'.
      apply filter_In in Hb'. destruct Hb' as [Hb' Hn].
      assert (b' = b)
        by (apply (NoDup_map_eq _ _ Booking.seat_id (bookings db)); auto;
            apply (bookings_seat_id_key K)).
      subst b'. unfold uid in Hn. rewrite Nat.eqb_refl in Hn.
      discriminate. }
    destruct (find _ (seats db')) as [s'|] eqn:F.
    + apply find_id_some in F. destruct F as [Hs' E'].
      destruct (Seat.is_booked s') eqn:Bk; auto. exfalso. apply Hno.
      destruct (proj1 (Hsync s' Hs') Bk) as (b' & Hb' & Eb').
      exists b'. split; auto. congruence.
    + exfalso. unfold db', delete_auth_user, delete_from_bookings in F.
      simpl in F. rewrite run_seat_writes_map in F.
      set (ws := flat_map free_seat_on_delete _) in F.
      assert (Hin : In (written ws s) (map (written ws) (seats db)))
        by now apply in_map.
      apply (find_none _ _ F) in Hin. rewrite written_id, Es in Hin.
      rewrite Nat.eqb_refl in Hin. discriminate.
Qed.

Lemma deleting_a_user_frees_the_seat_witness :
  let db' := delete_auth_user 11 small_hall in
  auth_user_exists db' 11 = false
  /\ user_has_booking db' 11 = false
  /\ (forall r, has_role db' 11 r = false)
  /\ seat_is_available db' 2 = Some true
  /\ in_sync db'.
Proof.
  apply (deleting_a_user_frees_the_seat small_hall (Booking.mk 12 11 2)).
  - apply constraints_small_hall.
  - apply in_sync_small_hall.
  - simpl. auto.
Defined.

Lemma set_is_booked_back (s : Seat.t) :
  Seat.is_booked s = false ->
  Seat.set_is_booked false (Seat.set_is_booked true s) = s.
Proof. destruct s; simpl; now intros ->. Qed.

(** X18.  Book, then delete: in a state where the constraints and the
    synchronisation invariant hold, deleting the booking that an insert
    has just created (by a caller allowed to delete) gives back the
    [seats] and [bookings] tables of before the insert. *)
Theorem booking_then_deleting_restores
        (c c' : caller) (uid sid : UUID) (db db1 : DB) :
  constraints db -> in_sync db ->
  insert_booking c uid sid db = Ok db1 ->
  bookings_write_using c' db1 = true ->
  let db2 := exec (DeleteBooking c' (next_uuid db)) db1 in
  seats db2 = seats db /\ bookings db2 = bookings db.
Proof.
  intros K H Hins Hc' db2. unfold insert_booking in Hins.
  destruct (negb _); [discriminate|].
  destruct (existsb _ (bookings db)) eqn:Es; [discriminate|].
  destruct (existsb (fun b => Booking.user_id b =? uid) _); [discriminate|].
  destruct (negb _); [discriminate|].
  destruct (negb _); [discriminate|].
  inversion Hins; subst db1; clear Hins.
  unfold db2. simpl. unfold delete_booking. rewrite Hc'. simpl.
  assert (Hflt : forall q : bool,
             filter (fun b => if q then Booking.id b =? next_uuid db
                              else negb (Booking.id b =? next_uuid db))
                    (bookings db) = if q then [] else bookings db).
  { intros [|].
    - apply filter_none. intros b Hb. apply Nat.eqb_neq.
      pose proof (bookings_fresh K b Hb). lia.
    - apply filter_all. intros b Hb. apply negb_true_iff, Nat.eqb_neq.
      pose proof (bookings_fresh K b Hb). lia. }
  rewrite !filter_app. simpl. rewrite Nat.eqb_refl. simpl.
  rewrite (Hflt true), (Hflt false). simpl. split; [|now rewrite app_nil_r].
  unfold run_seat_writes. simpl. rewrite map_map.
  etransitivity; [apply map_ext_in with (g := fun s => s)|apply map_id].
  intros s Hs. destruct (Nat.eqb_spec (Seat.id s) sid) as [E|E]; simpl.
  - rewrite E, Nat.eqb_refl. apply set_is_booked_back.
    destruct (Seat.is_booked s) eqn:Bk; auto.
    destruct (proj1 (H s Hs) Bk) as (b & Hb & Eb).
    apply (existsb_false_forall _ _ _ Es) in Hb.
    apply Nat.eqb_neq in Hb. congruence.
  - apply Nat.eqb_neq in E. now rewrite E.
Qed.

Lemma booking_then_deleting_restores_witness :
  let db1 := exec (InsertBooking (authenticated 10) 10 1) small_hall in
  let db2 := exec (DeleteBooking (authenticated 14) (next_uuid small_hall))
                  db1 in
  seats db2 = seats small_hall /\ bookings db2 = bookings small_hall.
Proof.
  apply (booking_then_deleting_restores
           (authenticated 10) (authenticated 14) 10 1 small_hall
           (exec (InsertBooking (authenticated 10) 10 1) small_hall)).
  - apply constraints_small_hall.
  - apply in_sync_small_hall.
  - reflexivity.
  - reflexivity.
Defined.

(** ** The admin page *)

(** X19.  A reassignment offered by the admin page commits: in a state
    where the constraints and the synchronisation invariant hold, when an
    admin moves a booking of a registered identity to one of the seats the
    page lists as available, the update passes every check, the booking
    then references the new seat, and the invariant still holds. *)
Theorem reassigning_to_an_available_seat_commits
        (c : caller) (OLD : Booking.t) (target : Seat.t) (db : DB) :
  constraints db -> in_sync db ->
  bookings_write_using c db = true ->
  In OLD (bookings db) ->
  auth_user_exists db (Booking.user_id OLD) = true ->
  In target (availableSeats (seats db)) ->
  let NEW := Booking.mk (Booking.id OLD) (Booking.user_id OLD)
                        (Seat.id target) in
  let db' := handleModifyBooking c (Some (Booking.id OLD))
                                 (Some (Seat.id target)) db in
  update_booking c (Booking.id OLD) None (Some (Seat.id target)) db = Ok db'
  /\ In NEW (bookings db')
  /\ in_sync db'.
Proof.
  intros K H Hc HOLD Hu Ht NEW db'.
  apply filter_In in Ht. destruct Ht as [Ht Hfree].
  apply negb_true_iff in Hfree.
  assert (Hs1 : existsb
                  (fun b => Booking.seat_id b =? Booking.seat_id NEW)
                  (filter (fun b => negb (Booking.id b =? Booking.id OLD))
                          (bookings db)) = false).
  { apply not_true_is_false. intros E. apply existsb_exists in E.
    destruct E as (b & Hb & Eb). apply filter_In in Hb.
    destruct Hb as [Hb _].
    pose proof (no_booking_of_free_seat db target H Ht Hfree) as X.
    apply (existsb_false_forall _ _ _ X) in Hb. simpl in Eb. congruence. }
  assert (Hu1 : existsb
                  (fun b => Booking.user_id b =? Booking.user_id NEW)
                  (filter (fun b => negb (Booking.id b =? Booking.id OLD))
                          (bookings db)) = false).
  { apply not_true_is_false. intros E. apply existsb_exists in E.
    destruct E as (b & Hb & Eb). apply filter_In in Hb.
    destruct Hb as [Hb Hn]. apply Nat.eqb_eq in Eb. simpl in Eb.
    assert (b = OLD).
    { apply (NoDup_map_eq _ _ Booking.user_id (bookings db)); auto.
      apply (bookings_user_id_key K). }
    subst b. rewrite Nat.eqb_refl in Hn. discriminate. }
  assert (Hse : seat_exists db (Booking.seat_id NEW) = true).
  { apply existsb_exists. exists target. split; auto. apply Nat.eqb_refl. }
  assert (Hup : update_booking c (Booking.id OLD) None (Some (Seat.id target))
                               db
                = Ok (fire (handle_booking_update OLD NEW)
                           (set_bookings
                              (map (fun b => if Booking.id b =? Booking.id OLD
                                             then NEW else b)
                                   (bookings db)) db))).
  { unfold update_booking. rewrite Hc. simpl negb. cbv iota.
    rewrite (find_by_key _ Booking.id (bookings db) OLD (bookings_pkey K)
                         HOLD).
    simpl or_default. fold NEW. rewrite Hs1, Hu1.
    change (Booking.user_id NEW) with (Booking.user_id OLD).
    change (Booking.seat_id NEW) with (Seat.id target) in Hse.
    rewrite Hu, Hse. reflexivity. }
  pose proof (in_sync_update_booking c (Booking.id OLD) None
                                     (Some (Seat.id target)) db K H) as Hs.
  unfold db', handleModifyBooking. rewrite Hup in *. simpl commit in *.
  split; [reflexivity|]. split; [|exact Hs].
  simpl. apply in_map_iff. exists OLD. split; auto.
  now rewrite Nat.eqb_refl.
Qed.

Lemma reassigning_to_an_available_seat_commits_witness :
  let NEW := Booking.mk 12 11 1 in
  let db' := handleModifyBooking (authenticated 14) (Some 12) (Some 1)
                                 small_hall in
  update_booking (authenticated 14) 12 None (Some 1) small_hall = Ok db'
  /\ In NEW (bookings db')
  /\ in_sync db'.
Proof.
  apply (reassigning_to_an_available_seat_commits
           (authenticated 14) (Booking.mk 12 11 2) (Seat.mk 1 0 1 1 false)
           small_hall).
  - apply constraints_small_hall.
  - apply in_sync_small_hall.
  - reflexivity.
  - simpl. auto.
  - reflexivity.
  - simpl. auto.
Defined.

Lemma find_updated_layout (lid : UUID) (r k : Z) (ls : list SeatLayout.t)
      (l : SeatLayout.t) :
  find (fun l => SeatLayout.id l =? lid) ls = Some l ->
  find (fun l => SeatLayout.id l =? lid)
       (map (fun l => if SeatLayout.id l =? lid then SeatLayout.mk lid r k
                      else l) ls)
  = Some (SeatLayout.mk lid r k).
Proof.
  induction ls as [|a ls IH]; simpl; [discriminate|].
  destruct (Nat.eqb_spec (SeatLayout.id a) lid) as [E|E]; simpl.
  - now rewrite Nat.eqb_refl.
  - apply Nat.eqb_neq in E. rewrite E. exact IH.
Qed.

(** X20.  "Update Layout" on the admin page, pressed by an admin for an
    existing layout with [R] rows typed in, [R] a value of the column's
    type INTEGER: afterwards the layout has [R] rows and 16 columns, every
    cell of rows 1..R and columns 1..16 holds exactly one seat, and every
    seat that was booked is still there, unchanged.  (A number outside
    INTEGER makes the update fail; the page then regenerates the old
    geometry.) *)
Theorem admin_layout_update_fills_sixteen_columns
        (c : caller) (layout l0 : SeatLayout.t) (R : Z) (db : DB) :
  constraints db ->
  admin_write_using c db = true ->
  int4 R = true ->
  find (fun l => SeatLayout.id l =? SeatLayout.id layout) (seat_layout db)
  = Some l0 ->
  let lid := SeatLayout.id layout in
  let db' := handleUpdateLayout c (Some layout) (Some R) db in
  find (fun l => SeatLayout.id l =? lid) (seat_layout db')
  = Some (SeatLayout.mk lid R 16)
  /\ (forall r k, (1 <= r <= R)%Z -> (1 <= k <= 16)%Z ->
                  List.length (filter (at_cell lid r k) (seats db')) = 1)
  /\ (forall s, In s (seats db) -> Seat.is_booked s = true ->
                In s (seats db')).
Proof.
  intros K Hc HR F lid db'.
  set (db1 := commit db (update_layout c lid R 16 db)).
  assert (E1 : db1 = set_seat_layout
                       (map (fun l => if SeatLayout.id l =? lid
                                      then SeatLayout.mk lid R 16 else l)
                            (seat_layout db)) db).
  { unfold db1, update_layout. now rewrite HR, Hc. }
  assert (K1 : constraints db1).
  { apply (constraints_frame db); auto. rewrite E1.
    unfold booking_frame; simpl; auto. }
  assert (F1 : find (fun l => SeatLayout.id l =? lid) (seat_layout db1)
               = Some (SeatLayout.mk lid R 16)).
  { rewrite E1. simpl. now apply (find_updated_layout lid R 16 _ l0). }
  assert (Hdb' : db' = commit db1 (generate_seats_for_layout lid db1))
    by reflexivity.
  pose proof (constraints_generate_seats lid db1 K1) as K'.
  rewrite <- Hdb' in K'.
  destruct (generate_seats_shape db1 lid (SeatLayout.mk lid R 16) K1 F1)
    as (d & N & G & S & Cn & P & _ & L).
  rewrite G in Hdb'. simpl in Hdb'. subst d.
  cbv beta zeta in S, Cn, P. simpl SeatLayout.total_rows in Cn.
  simpl SeatLayout.total_columns in Cn.
  assert (Hseats1 : seats db1 = seats db) by (rewrite E1; reflexivity).
  split; [|split].
  - now rewrite L.
  - intros r k Hr Hk.
    assert (Hle : List.length (filter (at_cell lid r k) (seats db')) <= 1).
    { apply (count_cell_le_1 _ _ cell_of _ (lid, r, k)).
      - intros x. apply at_cell_spec.
      - apply (seats_cell_key K'). }
    assert (Hex : exists s, In s (seats db') /\ at_cell lid r k s = true).
    { assert (Hin : In (lid, r, k) (grid_cells lid (range1 R) (range1 16))).
      { apply in_grid_cells. exists r, k. rewrite !in_range1. auto. }
      destruct (existsb (occupies (lid, r, k))
                        (filter
                           (fun s => negb ((Seat.seat_layout_id s =? lid)
                                           && negb (Seat.is_booked s)))
                           (seats db1))) eqn:O.
      - apply existsb_exists in O. destruct O as (s & Hs & Ho).
        exists s. rewrite S, in_app_iff. auto.
      - assert (Hm : In (lid, r, k) (map cell_of N)).
        { rewrite Cn. apply filter_In. split; auto. now rewrite O. }
        apply in_map_iff in Hm. destruct Hm as (s & E & Hs).
        exists s. rewrite S, in_app_iff. split; auto.
        now apply at_cell_spec. }
    destruct Hex as (s & Hs & Ho).
    assert (Hin : In s (filter (at_cell lid r k) (seats db')))
      by (apply filter_In; auto).
    destruct (filter (at_cell lid r k) (seats db')); [contradiction|].
    simpl in *. lia.
  - intros s Hs Hb. rewrite S, in_app_iff. left. rewrite Hseats1.
    apply filter_In. split; auto. rewrite Hb. simpl.
    now rewrite andb_false_r.
Qed.

Lemma admin_layout_update_fills_sixteen_columns_witness :
  let db' := handleUpdateLayout (authenticated 14) (Some (SeatLayout.mk 0 1 1))
                                (Some 2%Z) small_hall in
  find (fun l => SeatLayout.id l =? 0) (seat_layout db')
  = Some (SeatLayout.mk 0 2 16)
  /\ (forall r k, (1 <= r <= 2)%Z -> (1 <= k <= 16)%Z ->
                  List.length (filter (at_cell 0 r k) (seats db')) = 1)
  /\ (forall s, In s (seats small_hall) -> Seat.is_booked s = true ->
                In s (seats db')).
Proof.
  apply (admin_layout_update_fills_sixteen_columns
           (authenticated 14) (SeatLayout.mk 0 1 1) (SeatLayout.mk 0 1 1)
           2 small_hall).
  - apply constraints_small_hall.
  - reflexivity.
  - reflexivity.
  - reflexivity.
Defined.

(** ** The booking page's selection *)

Lemma renderSeat_spec (shown : list Seat.t) (row col : Z) (s : Seat.t) :
  renderSeat shown row col = Some s ->
  In s shown /\ Seat.row_num s = row /\ Seat.col_num s = col.
Proof.
  unfold renderSeat. intros H. apply find_some in H. destruct H as [Hin H].
  apply andb_true_iff in H. destruct H as [Hr Hk].
  apply Z.eqb_eq in Hr, Hk. auto.
Qed.

(** What holds of the selected seat after any events. *)
Lemma selected_seat_was_clicked (shown : list Seat.t)
      (todo done : list page_event) (st : option Seat.t * bool) :
  (forall s, fst st = Some s ->
             In s shown /\ Seat.is_booked s = false
             /\ In (ClickCell (Seat.row_num s) (Seat.col_num s)) done) ->
  forall s, fst (fold_left (page_step shown) todo st) = Some s ->
            In s shown /\ Seat.is_booked s = false
            /\ In (ClickCell (Seat.row_num s) (Seat.col_num s))
                  (done ++ todo).
Proof.
  revert done st. induction todo as [|ev todo IH]; intros done st Hst; simpl.
  - rewrite app_nil_r. exact Hst.
  - replace (done ++ ev :: todo) with ((done ++ [ev]) ++ todo)
      by (rewrite <- app_assoc; reflexivity).
    apply IH. intros s Hs.
    assert (Hkeep : fst st = Some s ->
                    In s shown /\ Seat.is_booked s = false
                    /\ In (ClickCell (Seat.row_num s) (Seat.col_num s))
                          (done ++ [ev])).
    { intros E. destruct (Hst s E) as (H1 & H2 & H3).
      repeat split; auto. apply in_app_iff. auto. }
    destruct ev as [row col|open|signed_in]; simpl in Hs.
    + destruct (renderSeat shown row col) as [seat|] eqn:F; auto.
      unfold handleSeatClick in Hs.
      destruct (Seat.is_booked seat) eqn:B; auto.
      simpl in Hs. inversion Hs; subst seat.
      apply renderSeat_spec in F. destruct F as (Hin & <- & <-).
      repeat split; auto. apply in_app_iff. right. now left.
    + auto.
    + destruct (fst st) as [s0|] eqn:E0; [destruct signed_in|];
        simpl in Hs;
        try rewrite E0 in Hs; auto.
Qed.

(** X21.  Whatever the user does on the booking page (pressing cells,
    closing or reopening the dialog, confirming), the one statement the
    page sends on "Yes, Freeze It!" is the insert of a booking of the
    signed-in user for a seat that the page fetched, that it held as free,
    and whose cell was pressed; with no seat selected or nobody signed in
    it sends nothing. *)
Theorem page_books_only_seats_shown_free
        (shown : list Seat.t) (events : list page_event)
        (user : option UUID) (db : DB) :
  let st := fold_left (page_step shown) events (None, false) in
  match handleConfirmBooking user (fst st) db with
  | None => fst st = None \/ user = None
  | Some r =>
      exists u s,
        user = Some u
        /\ fst st = Some s
        /\ r = insert_booking (authenticated u) u (Seat.id s) db
        /\ In s shown /\ Seat.is_booked s = false
        /\ In (ClickCell (Seat.row_num s) (Seat.col_num s)) events
  end.
Proof.
  intros st.
  pose proof (selected_seat_was_clicked shown events [] (None, false)) as H.
  simpl in H. fold st in H.
  unfold handleConfirmBooking.
  destruct (fst st) as [s|]; [|auto]. destruct user as [u|]; [|auto].
  exists u, s. destruct (H ltac:(discriminate) s eq_refl) as (H1 & H2 & H3).
  repeat split; auto.
Qed.

(** Pressing Cancel after a cell closes the dialog and keeps the selection:
    the dialog's state and the selection are independent. *)
Example selection_survives_cancel :
  fold_left (page_step (seats small_hall))
            [ClickCell 1 1; OpenChange false] (None, false)
  = (Some (Seat.mk 1 0 1 1 false), false).
Proof. reflexivity. Qed.

(** ** A provisioning that succeeds *)

(** X22.  What a successful provisioning writes: when the caller passes
    the checks, the identity service has created the identity, and neither
    the lower-cased address nor the secret is on the allow-list yet, the
    function appends one allow-list row holding the lower-cased address
    and the secret, and one role row for the new identity whose role is
    the requested one, or [user] when the request names none. *)
Theorem provisioning_success_rows
        (req : Handler.Request) (db db1 : DB) (uid new_id : UUID)
        (r : UserRole.t) (b : Handler.Body) (e u : string) (rho : app_role) :
  Handler.method req <> "OPTIONS"%string ->
  Handler.getUser req = Some uid ->
  Handler.roleData req uid db = Some r ->
  Handler.json req = inr b ->
  Handler.email b = Some e -> e <> ""%string ->
  Handler.uti b = Some u -> u <> ""%string ->
  app_role_of_string (if truthy (Handler.role b)
                      then or_default (Handler.role b) "user"%string
                      else "user"%string) = Some rho ->
  createUser (toLowerCase e) u db = (Some new_id, db1) ->
  auth_user_exists db1 new_id = true ->
  has_role db new_id rho = false ->
  is_allowed_email db e = false ->
  existsb (fun a => String.eqb (AllowedUser.uti a) u) (allowed_users db)
  = false ->
  let db' := snd (Handler.serve req db) in
  fst (Handler.serve req db) = Handler.mkResponse 200 Handler.Success
  /\ allowed_users db'
     = allowed_users db ++ [AllowedUser.mk (next_uuid db1) (toLowerCase e) u]
  /\ user_roles db'
     = user_roles db ++ [UserRole.mk (S (next_uuid db1)) new_id rho]
  /\ (truthy (Handler.role b) = false -> rho = user).
Proof.
  intros Hm Hu Hr Hj He Hne Hut Hnu Hrho Hc Hex Hnr Hfe Hfu db'.
  apply String.eqb_neq in Hm, Hne, Hnu.
  assert (Ha1 : allowed_users db1 = allowed_users db).
  { pose proof (allowed_users_createUser (toLowerCase e) u db) as X.
    now rewrite Hc in X. }
  assert (Hr1 : user_roles db1 = user_roles db).
  { pose proof (user_roles_createUser (toLowerCase e) u db) as X.
    now rewrite Hc in X. }
  unfold is_allowed_email in Hfe.
  assert (Hserve : Handler.serve req db
                   = (Handler.mkResponse 200 Handler.Success,
                      bump_uuid
                        (set_user_roles
                           (user_roles db
                            ++ [UserRole.mk (S (next_uuid db1)) new_id rho])
                           (bump_uuid
                              (set_allowed_users
                                 (allowed_users db
                                  ++ [AllowedUser.mk (next_uuid db1)
                                                     (toLowerCase e) u])
                                 db1))))).
  { unfold Handler.serve. rewrite Hm, Hu, Hr, Hj.
    unfold truthy at 1 2. rewrite He, Hut, Hne, Hnu. simpl negb. simpl orb.
    cbv iota. unfold Handler.provision. simpl or_default. rewrite Hc.
    unfold insert_allowed_user. simpl negb. cbv iota.
    rewrite Ha1, Hfe, Hfu. simpl commit.
    unfold insert_user_role. rewrite Hrho. simpl negb. cbv iota.
    unfold has_role in *. simpl user_roles. rewrite Hr1, Hnr.
    unfold auth_user_exists in *. simpl auth_users. rewrite Hex.
    reflexivity. }
  unfold db'. rewrite Hserve. simpl. repeat split; auto.
  intros Hno. rewrite Hno in Hrho. inversion Hrho. reflexivity.
Qed.

Lemma provisioning_success_rows_witness :
  let db' := snd (Handler.serve add_dave small_hall) in
  fst (Handler.serve add_dave small_hall)
  = Handler.mkResponse 200 Handler.Success
  /\ allowed_users db'
     = allowed_users small_hall
       ++ [AllowedUser.mk 17 (toLowerCase " Dave@Example.org ") "pa55"]
  /\ user_roles db' = user_roles small_hall ++ [UserRole.mk 18 16 user]
  /\ (truthy None = false -> user = user).
Proof.
  apply (provisioning_success_rows
           add_dave small_hall
           (snd (createUser (toLowerCase " Dave@Example.org ") "pa55"
                            small_hall))
           14 16 (UserRole.mk 15 14 admin)
           (Handler.mkBody (Some " Dave@Example.org "%string)
                           (Some "pa55"%string) None)
           " Dave@Example.org " "pa55" user);
    try reflexivity; simpl; discriminate.
Defined.
